(** * HashCap: the search engine of [hash_bruteforcer.py]

    A shallow embedding of the hash provider ([get_hash],
    [load_custom_hash_function]), of the three search workers
    ([BruteForceWorker], [DictionaryBruteForceWorker], [RainbowTableWorker])
    and of the job validation done by [HashBruteForcer.start_bruteforce],
    of the slots of the window that the signals of a worker reach, and of
    the command line ([bruteforce_cli], [dictionary_cli], [rainbow_cli],
    [main]), followed by the properties established about them.

    Conventions of the model.
    - A Python [str] is a [string]; its characters are the code points
      0..255, with [lower], [strip] and [isspace] as Python defines them on
      that range.
    - The module [hashlib], the interpreter that loads user code and the
      file system are outside the program: they are parameters.
    - Exceptions are explicit ([exc]); only subclasses of [Exception] are
      modelled, which is what the handlers of the source catch.  A
      user-supplied hash function is thus taken to return or to raise an
      [Exception]: one that leaves the interpreter ([SystemExit]) or does
      not terminate is outside the model, and no statement below speaks of
      it.
    - The flag [self.running] is cleared by another thread; a run is
      parameterised by the number of reads of the flag that still see [True].
    - [tried / total] is a binary64 division in the source; the rounding
      function is a parameter [RN] of the model, and [binary64] is the
      rounding of Python's floats. *)

From Stdlib Require Import List String Ascii Bool Arith ZArith QArith Lia.
From Stdlib Require Import DecimalString Sorted Floats.
Import ListNotations.

Local Open Scope string_scope.
Local Open Scope Z_scope.
Local Open Scope list_scope.

(** ** Python strings *)

Module Str.

(** [str.lower] on one code point: A-Z and the Latin-1 capitals. *)
Definition lower_char (c : ascii) : ascii :=
  let n := N_of_ascii c in
  if ((65 <=? n) && (n <=? 90) ||
      (192 <=? n) && (n <=? 222) && negb (n =? 215))%N
  then ascii_of_N (n + 32) else c.

Fixpoint lower (s : string) : string :=
  match s with
  | EmptyString => EmptyString
  | String c r => String (lower_char c) (lower r)
  end.

(** [str.isspace] on one code point. *)
Definition isspace (c : ascii) : bool :=
  let n := N_of_ascii c in
  ((9 <=? n) && (n <=? 13) || (28 <=? n) && (n <=? 32) ||
   (n =? 133) || (n =? 160))%N.

Fixpoint lstrip (s : string) : string :=
  match s with
  | EmptyString => EmptyString
  | String c r => if isspace c then lstrip r else s
  end.

Fixpoint rstrip (s : string) : string :=
  match s with
  | EmptyString => EmptyString
  | String c r =>
      match rstrip r with
      | EmptyString => if isspace c then EmptyString else String c EmptyString
      | r' => String c r'
      end
  end.

Definition strip (s : string) : string := lstrip (rstrip s).

(** [s.startswith(p)] *)
Definition startswith (s p : string) : bool := prefix p s.

(** [sub in s] *)
Definition contains (sub s : string) : bool :=
  match index 0 sub s with Some _ => true | None => false end.

(** [s.split(sep, 1)] for a one-character separator. *)
Fixpoint split1 (sep : ascii) (s : string) : list string :=
  match s with
  | EmptyString => [EmptyString]
  | String c r =>
      if Ascii.eqb c sep then [EmptyString; r]
      else match split1 sep r with
           | h :: t => String c h :: t
           | [] => [String c EmptyString]
           end
  end.

(** [''.join(t)] for a tuple of one-character strings. *)
Definition join (t : list ascii) : string := string_of_list_ascii t.

(** [c in s] for a character. *)
Fixpoint mem (c : ascii) (s : string) : bool :=
  match s with
  | EmptyString => false
  | String d r => Ascii.eqb c d || mem c r
  end.

(** [not s]: the empty string is the only false one. *)
Definition is_empty (s : string) : bool :=
  match s with EmptyString => true | _ => false end.

Definition ascii_lowercase : string := "abcdefghijklmnopqrstuvwxyz".
Definition ascii_uppercase : string := "ABCDEFGHIJKLMNOPQRSTUVWXYZ".
Definition digits : string := "0123456789".
Definition punctuation : string :=
  String "!" (String (ascii_of_nat 34) "#$%&'()*+,-./:;<=>?@[\]^_`{|}~").

End Str.

(** ** itertools and range *)

Module Itertools.

(** [itertools.product(pool, repeat=r)], as the library documents it:
    [result = [[]]], then for each of the [r] pools
    [result = [x+[y] for x in result for y in pool]]. *)
Definition product {A : Type} (pool : list A) (repeat : nat) : list (list A) :=
  fold_left
    (fun result pool => flat_map (fun x => map (fun y => x ++ [y]) pool) result)
    (List.repeat pool repeat)
    [[]].

End Itertools.

(** [range(a, b)] on non-negative bounds. *)
Definition range (a b : nat) : list nat := seq a (b - a).

(** ** Exceptions *)

(** The subclasses of [Exception] that the program meets; [UserError]
    stands for any [Exception] raised by user code. *)
Inductive exception : Set :=
| AttributeError
| ValueError
| TypeError
| ZeroDivisionError
| FileNotFoundError
| UserError.

Inductive exc (A : Type) : Type :=
| Return (a : A)
| Raise (e : exception).

Arguments Return {A} a.
Arguments Raise {A} e.

Definition bind {A B : Type} (m : exc A) (k : A -> exc B) : exc B :=
  match m with
  | Return a => k a
  | Raise e => Raise e
  end.

(** [try: body / except Exception: handler] *)
Definition try_except {A : Type} (body : exc A) (handler : exception -> exc A)
  : exc A :=
  match body with
  | Return a => Return a
  | Raise e => handler e
  end.

Notation "x <- m ;; k" := (bind m (fun x => k))
  (at level 61, m at next level, right associativity).

(** ** Values returned by a user-supplied hash function *)

Inductive pyobject : Type :=
| PyStr (s : string)
| PyInt (z : Z)
| PyNone
| PyOther (repr : exc string).  (* any other object, with what [str] gives *)

Definition isinstance_str (v : pyobject) : bool :=
  match v with PyStr _ => true | _ => false end.

(** [sys.get_int_max_str_digits()], at its default. *)
Definition int_max_str_digits : nat := 4300.

(** [str(v)]; an integer of more digits than the limit is refused with
    [ValueError]. *)
Definition str (v : pyobject) : exc string :=
  match v with
  | PyStr s => Return s
  | PyInt z =>
      let digits :=
        match Z.to_int z with
        | Decimal.Pos u | Decimal.Neg u => Decimal.nb_digits u
        end in
      if (int_max_str_digits <? digits)%nat then Raise ValueError
      else Return (NilZero.string_of_int (Z.to_int z))
  | PyNone => Return "None"
  | PyOther repr => repr
  end.

(** A user-supplied hash function: called on a text, it returns an object
    or raises an [Exception]. *)
Definition custom_fn : Type := string -> exc pyobject.

(** ** hashlib *)

Record Hashlib : Type := {
  (** [hashlib.md5(text.encode()).hexdigest()]; it does not fail, MD5 being
    always present and every string of the model having a UTF-8 encoding *)
  md5 : string -> string;
  (** [h = getattr(hashlib, algo)(digest_size=32)], [h.update(..)],
    [h.hexdigest()] *)
  blake2_hexdigest : string -> string -> exc string;
  (** [h = getattr(hashlib, algo)(); h.update(..); h.hexdigest(128)] *)
  shake_hexdigest : string -> string -> exc string;
  (** [hashlib.algorithms_available] *)
  algorithms_available : list string;
  (** [hasattr(hashlib, algo)] *)
  hasattr : string -> bool;
  (** [h = getattr(hashlib, algo)(); h.update(..); h.hexdigest()] *)
  attr_hexdigest : string -> string -> exc string;
  (** [h = hashlib.new(algo); h.update(..); h.hexdigest()] *)
  new_hexdigest : string -> string -> exc string
}.

Definition is_bound (f : option custom_fn) : bool :=
  match f with Some _ => true | None => false end.

(** Calling the global: [None] is not callable. *)
Definition call (f : option custom_fn) (text : string) : exc pyobject :=
  match f with
  | Some g => g text
  | None => Raise TypeError
  end.

Definition in_list (s : string) (l : list string) : bool :=
  existsb (String.eqb s) l.

(** [get_hash(text, hash_type)], with the global [custom_hash_function]
    as it stands when the call is made. *)
Definition get_hash (hashlib : Hashlib)
    (custom_hash_function : option custom_fn) (text hash_type : string)
  : exc string :=
  try_except
    (let algo := Str.lower hash_type in
     if (algo =? "custom")%string && is_bound custom_hash_function then
       try_except
         (result <- call custom_hash_function text ;;
          (* if not isinstance(result, str): result = str(result) *)
          match result with
          | PyStr s => Return s
          | _ => str result
          end)
         (fun _ => Return (md5 hashlib text))
     else if Str.startswith algo "blake2" then
       blake2_hexdigest hashlib algo text
     else if Str.contains "shake" algo then
       shake_hexdigest hashlib algo text
     else if in_list algo (algorithms_available hashlib) then
       if hasattr hashlib algo then attr_hexdigest hashlib algo text
       else new_hexdigest hashlib algo text
     else
       Return (md5 hashlib text))
    (fun _ => Return (md5 hashlib text)).

(** [load_custom_hash_function(code)]: [exec_module] stands for writing the
    wrapped code to a file, loading it as a module and taking its
    [custom_hash].  The global is passed in and returned beside the answer,
    since it keeps its new value when the function raises.  Of the message
    only the test digest of a successful load is modelled (the text of a
    failure is given as the empty string). *)
Definition load_custom_hash_function (exec_module : string -> exc custom_fn)
    (code : string) (custom_hash_function : option custom_fn)
  : exc (bool * string) * option custom_fn :=
  match (custom_hash <- exec_module code ;;
         test_result <- custom_hash "test" ;;
         Return (custom_hash, test_result)) with
  | Raise _ =>
      (* except Exception: the file is removed, (False, error_msg) *)
      (Return (false, ""), custom_hash_function)
  | Return (custom_hash, test_result) =>
      (* the global is assigned and the file removed, then the message is
         formatted *)
      match str test_result with
      | Return shown => (Return (true, shown), Some custom_hash)
      | Raise _ =>
          (* except Exception: the second [os.unlink] of the same file *)
          (Raise FileNotFoundError, Some custom_hash)
      end
  end.

(** ** Signals and the state of a run *)

Inductive signal : Type :=
| update_progress (value : Z) (current_text : string)
| found_match (text hashed : string)
| finished_task.

(** The local variables of a [run], with the number of reads of
    [self.running] made so far, the signals emitted so far and the texts
    handed to [get_hash] so far (both oldest first). *)
Record run_state : Type := mk_state {
  tried_combinations : Z;
  found : bool;
  reads : nat;
  emitted : list signal;
  digested : list string
}.

Definition initial : run_state := mk_state 0 false 0 [] [].

(** [tried_combinations += 1] *)
Definition count (st : run_state) : run_state :=
  mk_state (tried_combinations st + 1) (found st) (reads st) (emitted st)
           (digested st).

Definition emit (s : signal) (st : run_state) : run_state :=
  mk_state (tried_combinations st) (found st) (reads st) (emitted st ++ [s])
           (digested st).

(** [found = True] *)
Definition set_found (st : run_state) : run_state :=
  mk_state (tried_combinations st) true (reads st) (emitted st) (digested st).

Definition log_digest (text : string) (st : run_state) : run_state :=
  mk_state (tried_combinations st) (found st) (reads st) (emitted st)
           (digested st ++ [text]).

(** Reading [self.running]: [stop_after = Some n] when [stop()] takes effect
    after [n] reads of the flag, [None] when it is never called. *)
Definition read_running (stop_after : option nat) (st : run_state)
  : bool * run_state :=
  (match stop_after with
   | None => true
   | Some n => (reads st <? n)%nat
   end,
   mk_state (tried_combinations st) (found st) (S (reads st)) (emitted st)
            (digested st)).

(** [int(x)]: truncation toward zero. *)
Definition int (x : Q) : Z := Z.quot (Qnum x) (Z.pos (Qden x)).

(** [min(100, int((tried / total) * 100))]: the quotient and the product
    are each rounded by [RN]. *)
Definition progress_percent (RN : Q -> Q) (tried total : Z) : exc Z :=
  if total =? 0 then Raise ZeroDivisionError
  else
    Return (Z.min 100 (int (RN (RN (inject_Z tried / inject_Z total) * 100)%Q))).

(** The closing lines of every [run]: the forced 100% and [finished_task]. *)
Definition finish (stop_after : option nat) (st : run_state) : run_state :=
  let st :=
    if negb (found st) then
      let (running, st) := read_running stop_after st in
      if running then emit (update_progress 100 "") st else st
    else st in
  emit finished_task st.

(** ** BruteForceWorker *)

Module BruteForceWorker.

(** The attributes set by [__init__]; the lengths are natural numbers (the
    form offers 1 to 10). *)
Record t : Type := {
  hash_type : string;
  target_hash : string;
  char_set : string;
  min_length : nat;
  max_length : nat
}.

(** [__init__] *)
Definition init (hash_type target_hash char_set : string)
    (min_length max_length : nat) : t :=
  {| hash_type := hash_type;
     target_hash := Str.lower target_hash;
     char_set := char_set;
     min_length := min_length;
     max_length := max_length |}.

Section Run.
Variable hashlib : Hashlib.
Variable custom_hash_function : option custom_fn.
Variable RN : Q -> Q.
Variable self : t.
Variable stop_after : option nat.

(** The first loop of [run]. *)
Definition total_combinations : Z :=
  fold_left
    (fun total length =>
       total + Z.of_nat (String.length (char_set self)) ^ Z.of_nat length)
    (range (min_length self) (max_length self + 1))
    0.

(** The body of the inner loop, after the check of the flag. *)
Definition try_attempt (attempt : list ascii) (st : run_state)
  : exc run_state :=
  let st := count st in
  st <- (if (tried_combinations st mod 10000 =? 0)
            || (tried_combinations st =? total_combinations)
         then
           progress <- progress_percent RN (tried_combinations st)
                                        total_combinations ;;
           let current_text := Str.join attempt in
           Return (emit (update_progress progress current_text) st)
         else Return st) ;;
  let text := Str.join attempt in
  hashed <- get_hash hashlib custom_hash_function text (hash_type self) ;;
  let st := log_digest text st in
  if (hashed =? target_hash self)%string then
    Return (set_found
              (emit (update_progress 100 text)
                    (emit (found_match text hashed) st)))
  else Return st.

(** [for attempt in itertools.product(...)] *)
Fixpoint attempts_loop (attempts : list (list ascii)) (st : run_state)
  : exc run_state :=
  match attempts with
  | [] => Return st
  | attempt :: rest =>
      let (running, st) := read_running stop_after st in
      if negb running then Return st
      else
        st <- try_attempt attempt st ;;
        if found st then Return st else attempts_loop rest st
  end.

(** [for length in range(...)] *)
Fixpoint lengths_loop (lengths : list nat) (st : run_state)
  : exc run_state :=
  match lengths with
  | [] => Return st
  | length :: rest =>
      let (running, st) := read_running stop_after st in
      if negb running then Return st
      else
        st <- attempts_loop
                (Itertools.product (list_ascii_of_string (char_set self))
                                   length) st ;;
        if found st then Return st else lengths_loop rest st
  end.

Definition run : exc run_state :=
  st <- lengths_loop (range (min_length self) (max_length self + 1))
                     initial ;;
  Return (finish stop_after st).

End Run.

End BruteForceWorker.

(** The candidates of a charset search in the order the two nested loops
    visit them. *)
Definition enumerate (char_set : string) (min_length max_length : nat)
  : list string :=
  flat_map
    (fun length =>
       map Str.join (Itertools.product (list_ascii_of_string char_set) length))
    (range min_length (max_length + 1)).

(** ** DictionaryBruteForceWorker *)

Module DictionaryBruteForceWorker.

Record t : Type := {
  hash_type : string;
  target_hash : string;
  dictionary_path : string
}.

Definition init (hash_type target_hash dictionary_path : string) : t :=
  {| hash_type := hash_type;
     target_hash := Str.lower target_hash;
     dictionary_path := dictionary_path |}.

Section Run.
Variable hashlib : Hashlib.
Variable custom_hash_function : option custom_fn.
Variable RN : Q -> Q.
(** Opening a path and iterating over its lines (each with its end of
    line, as Python yields them). *)
Variable open_lines : string -> exc (list string).
Variable self : t.
Variable stop_after : option nat.

(** The counting pass. *)
Definition count_lines (lines : list string) : Z :=
  fold_left (fun total_lines _ => total_lines + 1) lines 0.

Definition try_line (total_lines : Z) (line : string) (st : run_state)
  : exc run_state :=
  let st := count st in
  st <- (if (tried_combinations st mod 1000 =? 0)
            || (tried_combinations st =? total_lines)
         then
           progress <- progress_percent RN (tried_combinations st)
                                        total_lines ;;
           Return (emit (update_progress progress (Str.strip line)) st)
         else Return st) ;;
  let text := Str.strip line in
  if Str.is_empty text then Return st
  else
    hashed <- get_hash hashlib custom_hash_function text (hash_type self) ;;
    let st := log_digest text st in
    if (hashed =? target_hash self)%string then
      Return (set_found
                (emit (update_progress 100 text)
                      (emit (found_match text hashed) st)))
    else Return st.

Fixpoint lines_loop (total_lines : Z) (lines : list string)
    (st : run_state) : exc run_state :=
  match lines with
  | [] => Return st
  | line :: rest =>
      let (running, st) := read_running stop_after st in
      if negb running then Return st
      else
        st <- try_line total_lines line st ;;
        if found st then Return st else lines_loop total_lines rest st
  end.

Definition run : exc run_state :=
  counted <- open_lines (dictionary_path self) ;;
  let total_lines := count_lines counted in
  lines <- open_lines (dictionary_path self) ;;
  st <- lines_loop total_lines lines initial ;;
  Return (finish stop_after st).

End Run.

End DictionaryBruteForceWorker.

(** ** RainbowTableWorker *)

Module RainbowTableWorker.

Record t : Type := {
  target_hash : string;
  rainbow_path : string
}.

Definition init (target_hash rainbow_path : string) : t :=
  {| target_hash := Str.lower target_hash;
     rainbow_path := rainbow_path |}.

Section Run.
Variable RN : Q -> Q.
Variable open_lines : string -> exc (list string).
Variable self : t.
Variable stop_after : option nat.

Definition count_lines (lines : list string) : Z :=
  fold_left (fun total_lines _ => total_lines + 1) lines 0.

Definition try_line (total_lines : Z) (line : string) (st : run_state)
  : exc run_state :=
  let st := count st in
  st <- (if (tried_combinations st mod 1000 =? 0)
            || (tried_combinations st =? total_lines)
         then
           progress <- progress_percent RN (tried_combinations st)
                                        total_lines ;;
           Return (emit (update_progress progress (Str.strip line)) st)
         else Return st) ;;
  let line := Str.strip line in
  if Str.is_empty line then Return st
  else if negb (Str.contains ":" line) then Return st
  else
    match Str.split1 ":" line with
    | [stored_hash; plaintext] =>
        let stored_hash := Str.lower stored_hash in
        if (stored_hash =? target_hash self)%string then
          Return (set_found
                    (emit (update_progress 100 plaintext)
                          (emit (found_match plaintext stored_hash) st)))
        else Return st
    | _ => Raise ValueError
    end.

Fixpoint lines_loop (total_lines : Z) (lines : list string)
    (st : run_state) : exc run_state :=
  match lines with
  | [] => Return st
  | line :: rest =>
      let (running, st) := read_running stop_after st in
      if negb running then Return st
      else
        st <- try_line total_lines line st ;;
        if found st then Return st else lines_loop total_lines rest st
  end.

Definition run : exc run_state :=
  counted <- open_lines (rainbow_path self) ;;
  let total_lines := count_lines counted in
  lines <- open_lines (rainbow_path self) ;;
  st <- lines_loop total_lines lines initial ;;
  Return (finish stop_after st).

End Run.

End RainbowTableWorker.

(** ** HashBruteForcer: what the window checks before it starts a worker *)

Module HashBruteForcer.

(** The values of the widgets that [start_bruteforce] reads. *)
Record t : Type := {
  target_hash : string;
  hash_type : string;
  current_tab : Z;
  use_lowercase : bool;
  use_uppercase : bool;
  use_digits : bool;
  use_special : bool;
  custom_charset : string;
  min_length : nat;
  max_length : nat;
  dict_path : string;
  rainbow_path : string
}.

Inductive job : Type :=
| Brute (w : BruteForceWorker.t)
| Dictionary (w : DictionaryBruteForceWorker.t)
| Rainbow (w : RainbowTableWorker.t).

(** The messages appended to the results pane when a start is refused; in
    the source they are Russian sentences, given here in translation. *)
Inductive refusal : Set :=
| MissingTargetHash   (* "Error: enter the target hash" *)
| EmptyCharset        (* "Error: choose at least one character set" *)
| InvalidRange        (* "Error: the minimum length cannot exceed the maximum" *)
| BadDictionaryFile   (* "Error: choose a valid dictionary file" *)
| BadRainbowFile      (* "Error: choose a valid rainbow table file" *)
| CustomHashTab       (* "Error: this tab only creates the hash function" *)
| UnknownTab.         (* "Error: unknown tab" *)

(** [start_bruteforce] either returns early with a message, no worker
    being created, or creates a worker and calls its [start()]. *)
Inductive outcome : Type :=
| Refused (why : refusal)
| Started (w : job).

Definition get_charset (self : t) : string :=
  let charset := "" in
  let charset :=
    if use_lowercase self then (charset ++ Str.ascii_lowercase)%string
    else charset in
  let charset :=
    if use_uppercase self then (charset ++ Str.ascii_uppercase)%string
    else charset in
  let charset :=
    if use_digits self then (charset ++ Str.digits)%string else charset in
  let charset :=
    if use_special self then (charset ++ Str.punctuation)%string
    else charset in
  let custom := custom_charset self in
  if negb (Str.is_empty custom) then
    fold_left
      (fun charset char =>
         if negb (Str.mem char charset)
         then (charset ++ String char "")%string else charset)
      (list_ascii_of_string custom)
      charset
  else charset.

Definition start_bruteforce (isfile : string -> bool) (self : t) : outcome :=
  let target_hash := Str.strip (target_hash self) in
  if Str.is_empty target_hash then Refused MissingTargetHash
  else
    let hash_type := hash_type self in
    let current_tab := current_tab self in
    if current_tab =? 0 then
      let charset := get_charset self in
      if Str.is_empty charset then Refused EmptyCharset
      else
        let min_length := min_length self in
        let max_length := max_length self in
        if (max_length <? min_length)%nat then Refused InvalidRange
        else
          Started (Brute (BruteForceWorker.init hash_type target_hash charset
                                                min_length max_length))
    else if current_tab =? 1 then
      let dict_path := dict_path self in
      if Str.is_empty dict_path || negb (isfile dict_path)
      then Refused BadDictionaryFile
      else
        Started (Dictionary (DictionaryBruteForceWorker.init
                               hash_type target_hash dict_path))
    else if current_tab =? 2 then
      let rainbow_path := rainbow_path self in
      if Str.is_empty rainbow_path || negb (isfile rainbow_path)
      then Refused BadRainbowFile
      else
        Started (Rainbow (RainbowTableWorker.init target_hash rainbow_path))
    else if current_tab =? 3 then Refused CustomHashTab
    else Refused UnknownTab.

End HashBruteForcer.

(** ** Definitions used to state the properties *)

(** The [k]-th word of length [len] in odometer order over [pool], the
    first position being the most significant digit of [k] in base
    [length pool]. *)
Fixpoint odometer {A : Type} (pool : list A) (d : A) (len k : nat) : list A :=
  match len with
  | O => []
  | S l =>
      nth (k / List.length pool ^ l)%nat pool d
      :: odometer pool d l (k mod List.length pool ^ l)%nat
  end.

(** All characters of [s] are taken from [char_set]. *)
Definition over (char_set s : string) : Prop :=
  Forall (fun c => In c (list_ascii_of_string char_set))
         (list_ascii_of_string s).

(** The dispatch of [get_hash] finds an algorithm for the lowercased id:
    the bound custom function, a BLAKE2 or SHAKE name, or a name listed in
    [hashlib.algorithms_available]. *)
Definition resolves (hashlib : Hashlib)
    (custom_hash_function : option custom_fn) (algo : string) : bool :=
  (algo =? "custom")%string && is_bound custom_hash_function
  || Str.startswith algo "blake2"
  || Str.contains "shake" algo
  || in_list algo (algorithms_available hashlib).

(** The digest that [get_hash] hands back. *)
Definition digest (hashlib : Hashlib) (custom_hash_function : option custom_fn)
    (text hash_type : string) : string :=
  match get_hash hashlib custom_hash_function text hash_type with
  | Return s => s
  | Raise _ => md5 hashlib text
  end.

(** A [hashlib] with symbolic digests, to evaluate the control flow of the
    program on concrete inputs. *)
Definition symbolic_hashlib : Hashlib :=
  {| md5 := fun text => ("md5:" ++ text)%string;
     blake2_hexdigest := fun algo text =>
       if in_list algo ["blake2b"; "blake2s"]%string
       then Return (algo ++ ":" ++ text)%string else Raise AttributeError;
     shake_hexdigest := fun algo text =>
       if in_list algo ["shake_128"; "shake_256"]%string
       then Return (algo ++ ":" ++ text)%string else Raise AttributeError;
     algorithms_available := ["md5"; "sha1"; "sha256"; "sha512_256"]%string;
     hasattr := fun algo => in_list algo ["md5"; "sha1"; "sha256"]%string;
     attr_hexdigest := fun algo text => Return (algo ++ ":" ++ text)%string;
     new_hexdigest := fun algo text => Return (algo ++ ":" ++ text)%string |}.

(** Two user functions and an interpreter that loads them from the codes
    "A" and "B" (and rejects any other code). *)
Definition custom_A : custom_fn := fun _ => Return (PyStr "aa").
Definition custom_B : custom_fn := fun _ => Return (PyStr "bb").
Definition exec_AB (code : string) : exc custom_fn :=
  if (code =? "A")%string then Return custom_A
  else if (code =? "B")%string then Return custom_B
  else Raise UserError.

(** The percentage of [progress_percent] when [total] is not zero. *)
Definition percent (RN : Q -> Q) (tried total : Z) : Z :=
  Z.min 100 (int (RN (RN (inject_Z tried / inject_Z total) * 100)%Q)).

(** The integer nearest to [n / d] (for [0 < d]), the even one of the two
    when [n / d] lies half-way. *)
Definition round_half_even (n d : Z) : Z :=
  let q := n / d in
  let r := n mod d in
  if 2 * r <? d then q
  else if d <? 2 * r then q + 1
  else if Z.even q then q else q + 1.

(** [2 ** e] for [0 <= e], and 1 otherwise: [2 ** e] is
    [pow2 e / pow2 (- e)] for every [e]. *)
Definition pow2 (e : Z) : Z := 2 ^ Z.max 0 e.

(** The exponent [e] for which [2 ** 52 <= (n / d) / 2 ** e < 2 ** 53]. *)
Definition exponent (n d : Z) : Z :=
  let e0 := Z.log2 n - Z.log2 d - 52 in
  if (n * pow2 (- e0)) / (d * pow2 e0) <? 2 ^ 52 then e0 - 1 else e0.

(** [(n / d) / 2 ** e], rounded to an integer. *)
Definition mantissa (n d e : Z) : Z :=
  round_half_even (n * pow2 (- e)) (d * pow2 e).

(** The rounding of [n / d], for [0 < n] and [0 < d]. *)
Definition round_positive (n d : Z) : Q :=
  let e := exponent n d in
  Qmake (mantissa n d e * pow2 e) (Z.to_pos (pow2 (- e))).

(** The rounding of Python's floats: to the nearest number with 53
    significant bits, ties to even.  The exponent is not bounded, which
    agrees with binary64 for magnitudes from [2 ** -1022] up to its largest
    finite value. *)
Definition binary64 (x : Q) : Q :=
  match Qnum x with
  | 0 => 0%Q
  | Z.pos n => round_positive (Z.pos n) (Z.pos (Qden x))
  | Z.neg n => (- round_positive (Z.pos n) (Z.pos (Qden x)))%Q
  end.


(** The throttled report made for the item numbered [tried]: one signal
    when [tried] is a multiple of [every] or the last number, none
    otherwise. *)
Definition report (RN : Q -> Q) (every total tried : Z) (text : string)
  : list signal :=
  if (tried mod every =? 0) || (tried =? total)
  then [update_progress (percent RN tried total) text]
  else [].

(** The throttled reports of the items numbered [tried + 1], [tried + 2], ... *)
Fixpoint reports (RN : Q -> Q) (every total tried : Z) (texts : list string)
  : list signal :=
  match texts with
  | [] => []
  | text :: rest =>
      report RN every total (tried + 1) text
      ++ reports RN every total (tried + 1) rest
  end.

(** The percentages carried by the progress signals of a trace. *)
Fixpoint percents (events : list signal) : list Z :=
  match events with
  | [] => []
  | update_progress value _ :: rest => value :: percents rest
  | _ :: rest => percents rest
  end.

(** One of the reads of [self.running] made so far has seen [False]. *)
Definition observed_stop (stop_after : option nat) (st : run_state) : bool :=
  match stop_after with
  | None => false
  | Some n => (n <? reads st)%nat
  end.

(** The terminal state of a job, read off the final state of its [run]. *)
Inductive terminal : Set := Matched | Exhausted | Cancelled.

Definition terminal_state (stop_after : option nat) (st : run_state)
  : terminal :=
  if found st then Matched
  else if observed_stop stop_after st then Cancelled
  else Exhausted.

(** [s] has a character that [lower] would change. *)
Definition has_upper (s : string) : bool :=
  existsb (fun c => negb (Ascii.eqb (Str.lower_char c) c))
          (list_ascii_of_string s).

(** The values of the form for a charset job of lengths 5 down to 4. *)
Definition inverted_range_form : HashBruteForcer.t :=
  {| HashBruteForcer.target_hash := "5f4dcc3b5aa765d61d8327deb882cf99";
     HashBruteForcer.hash_type := "MD5";
     HashBruteForcer.current_tab := 0;
     HashBruteForcer.use_lowercase := true;
     HashBruteForcer.use_uppercase := false;
     HashBruteForcer.use_digits := false;
     HashBruteForcer.use_special := false;
     HashBruteForcer.custom_charset := "";
     HashBruteForcer.min_length := 5%nat;
     HashBruteForcer.max_length := 4%nat;
     HashBruteForcer.dict_path := "";
     HashBruteForcer.rainbow_path := "" |}.

(** The two signals that follow a match on the last text digested. *)
Definition match_tail (target : string) (st : run_state) : list signal :=
  if found st then
    let text := last (digested st) ""%string in
    [found_match text target; update_progress 100 text]
  else [].

(** What holds of the state of [BruteForceWorker.run] at every turn of its
    loops: the counter is the number of texts digested; the signals are the
    throttled reports of those texts, followed by the two signals of a match
    if there was one; every text digested was preceded by a read of the flag
    that saw [True]; after a match no read has seen [False] and the last
    text digested has the target digest. *)
Definition brute_invariant (RN : Q -> Q) (total : Z) (target : string)
    (digest_of : string -> string) (stop_after : option nat) (st : run_state)
  : Prop :=
  tried_combinations st = Z.of_nat (List.length (digested st))
  /\ emitted st = reports RN 10000 total 0 (digested st) ++ match_tail target st
  /\ (List.length (digested st) <= reads st)%nat
  /\ (forall n, stop_after = Some n -> (List.length (digested st) <= n)%nat)
  /\ (found st = true ->
      observed_stop stop_after st = false
      /\ digested st <> []
      /\ digest_of (last (digested st) ""%string) = target).

(** The end of a line, and a file system in which every path opens on the
    given lines. *)
Definition LF : string := String (ascii_of_nat 10) "".

Definition file_of (lines : list string) (path : string) : exc (list string) :=
  Return lines.

(** The table of one entry, the MD5 digest of "password". *)
Definition password_table : list string :=
  [("5f4dcc3b5aa765d61d8327deb882cf99:password" ++ LF)%string].

(** A word list of 1001 lines whose 1000th line is blank. *)
Definition blank_1000th : list string :=
  List.repeat ("x" ++ LF)%string 999 ++ [LF; ("y" ++ LF)%string].

(** ** Definitions used to state the further properties *)

(** The items of [l] up to and including the first one that satisfies [p]
    (all of them when none does). *)
Fixpoint take_until {A : Type} (p : A -> bool) (l : list A) : list A :=
  match l with
  | [] => []
  | x :: rest => if p x then [x] else x :: take_until p rest
  end.

(** The two signals emitted on a match. *)
Definition hit_tail (hit : option (string * string)) : list signal :=
  match hit with
  | Some (plain, hashed) => [found_match plain hashed; update_progress 100 plain]
  | None => []
  end.

(** The candidates of a word list: its lines stripped, the blank ones left
    out. *)
Definition dictionary_candidates (lines : list string) : list string :=
  filter (fun text => negb (Str.is_empty text)) (map Str.strip lines).

(** What one line of a word list gives to [get_hash], and the match it
    produces, if any. *)
Definition dictionary_digests (line : string) : list string :=
  if Str.is_empty (Str.strip line) then [] else [Str.strip line].

Definition dictionary_hit (hashlib : Hashlib)
    (custom_hash_function : option custom_fn)
    (self : DictionaryBruteForceWorker.t) (line : string)
  : option (string * string) :=
  let text := Str.strip line in
  let hashed :=
    digest hashlib custom_hash_function text
           (DictionaryBruteForceWorker.hash_type self) in
  if Str.is_empty text then None
  else if (hashed =? DictionaryBruteForceWorker.target_hash self)%string
       then Some (text, hashed)
       else None.

(** The entry that a line of a rainbow table holds: the part before the
    first colon, lowercased, and the part after it; none for a blank line
    or a line without a colon. *)
Definition rainbow_entry (line : string) : option (string * string) :=
  let line := Str.strip line in
  if Str.is_empty line then None
  else if negb (Str.contains ":" line) then None
  else match Str.split1 ":" line with
       | [stored_hash; plaintext] => Some (Str.lower stored_hash, plaintext)
       | _ => None
       end.

(** The match that a line of a rainbow table produces, if any. *)
Definition rainbow_hit (self : RainbowTableWorker.t) (line : string)
  : option (string * string) :=
  match rainbow_entry line with
  | Some (stored_hash, plaintext) =>
      if (stored_hash =? RainbowTableWorker.target_hash self)%string
      then Some (plaintext, stored_hash)
      else None
  | None => None
  end.

(** The entries of a rainbow table, in file order. *)
Definition rainbow_entries (lines : list string) : list (string * string) :=
  flat_map (fun line => match rainbow_entry line with
                        | Some entry => [entry]
                        | None => []
                        end) lines.

(** The protocol of the signals of a run: percentages that never
    decrease, a last percentage of 100 unless the run was cancelled, no
    match reported by a cancelled run, and [finished_task] exactly once, as
    the last signal. *)
Definition progress_protocol (stop_after : option nat) (st : run_state)
  : Prop :=
  Sorted Z.le (percents (emitted st))
  /\ (terminal_state stop_after st <> Cancelled ->
      last (percents (emitted st)) 0 = 100)
  /\ (terminal_state stop_after st = Cancelled ->
      forall text hashed, ~ In (found_match text hashed) (emitted st))
  /\ exists before,
       emitted st = before ++ [finished_task]
       /\ ~ In finished_task before.

(** ** The slots of the window

    The part of [HashBruteForcer] that the signals of a worker act on: the
    value of the progress bar (a [QProgressBar] with its default range
    0..100, which ignores a value outside it), the text of the current
    attempt, the lines of the results pane and whether the two buttons are
    enabled. *)

Module Slots.

Inductive result_line : Type :=
| MatchFound                 (* "Match found!" *)
| TextLine (text : string)   (* "Text: {text}" *)
| HashLine (hashed : string) (* "Hash: {hashed}" *)
| Completed.                 (* "Run completed" *)

Record t : Type := {
  progress_bar : Z;
  current_attempt : string;
  results : list result_line;
  start_button : bool;
  stop_button : bool
}.

(** [self.progress_bar.setValue(value)] *)
Definition setValue (value : Z) (self : t) : t :=
  if (value <? 0) || (100 <? value) then self
  else {| progress_bar := value;
          current_attempt := current_attempt self;
          results := results self;
          start_button := start_button self;
          stop_button := stop_button self |}.

Definition append (line : result_line) (self : t) : t :=
  {| progress_bar := progress_bar self;
     current_attempt := current_attempt self;
     results := results self ++ [line];
     start_button := start_button self;
     stop_button := stop_button self |}.

Definition update_progress (value : Z) (current_text : string) (self : t) : t :=
  let self := setValue value self in
  {| progress_bar := progress_bar self;
     current_attempt := current_text;
     results := results self;
     start_button := start_button self;
     stop_button := stop_button self |}.

Definition found_match (text hashed : string) (self : t) : t :=
  append (HashLine hashed) (append (TextLine text) (append MatchFound self)).

Definition finished_task (self : t) : t :=
  let self :=
    if progress_bar self <? 100 then setValue 100 self else self in
  append Completed
    {| progress_bar := progress_bar self;
       current_attempt := current_attempt self;
       results := results self;
       start_button := true;
       stop_button := false |}.

End Slots.

(** The signals of a worker reach the slots connected to them in the
    order of emission. *)
Definition deliver (window : Slots.t) (s : signal) : Slots.t :=
  match s with
  | update_progress value current_text =>
      Slots.update_progress value current_text window
  | found_match text hashed => Slots.found_match text hashed window
  | finished_task => Slots.finished_task window
  end.

(** A window as [start_bruteforce] leaves it when it starts a worker. *)
Definition started_window : Slots.t :=
  {| Slots.progress_bar := 0;
     Slots.current_attempt := "";
     Slots.results := [];
     Slots.start_button := false;
     Slots.stop_button := true |}.

(** ** The command line

    [bruteforce_cli], [dictionary_cli], [rainbow_cli] and [main].  What they
    print is recorded line by line (the sentences are Russian in the
    source); the texts handed to [get_hash] are logged as for the workers. *)

Module Cli.

Inductive run_mode : Set := Brute | Dict | Rainbow | Gui.

(** The namespace that [parse_arguments] returns.  The two lengths are
    natural numbers: [type=int] admits negative values as well, with which
    a range that is not empty ends [bruteforce_cli] in an exception
    ([itertools.product] refuses a negative [repeat]); the model covers the
    lengths from 0 on. *)
Record Args : Type := {
  type : string;
  hash : option string;
  mode : run_mode;
  charset : option string;
  charset_preset : string;
  min_length : nat;
  max_length : nat;
  dict : option string;
  rainbow : option string;
  custom_hash : option string
}.

Inductive printed : Type :=
| StartLine (hash : option string)        (* "Start ... for the hash: {args.hash}" *)
| TypeLine (hash_type : string)           (* "Hash type: {args.type}" *)
| CharsetLine (charset : string)          (* "Character set: {charset}" *)
| LengthLine (min_length max_length : nat) (* "Length: {min}-{max}" *)
| FileLine (path : option string)         (* "Dictionary file: ..." / "Rainbow table file: ..." *)
| RunningLine                             (* "Running..." *)
| ProgressLine (progress : Z) (current : string)
| FoundLines (text hashed : string)       (* "Match found!", "Text: ...", "Hash: ..." *)
| NotFoundLine                            (* "No match found." *)
| FinishedLine                            (* "Run completed" *)
| CustomLoadedLine (message : string)     (* "Custom hash function loaded: ..." *)
| CustomLoadErrorLine (message : string)  (* "Error loading the custom hash function: ..." *)
| CustomReadErrorLine                     (* "Error reading the file of the custom hash function: ..." *)
| MissingHashLine                         (* "Error: ... give the target hash with --hash" *)
| MissingDictLine                         (* "Error: ... give the dictionary file with --dict" *)
| MissingRainbowLine.                     (* "Error: ... give the table file with --rainbow" *)

(** The local variables of a search function, with what it has printed
    and the texts it has handed to [get_hash] (both oldest first).  A
    function that ends in an exception leaves no state: what it had printed
    before the traceback is not recorded. *)
Record state : Type := mk {
  tried_combinations : Z;
  found : bool;
  lines_printed : list printed;
  digested : list string
}.

Definition count (st : state) : state :=
  mk (tried_combinations st + 1) (found st) (lines_printed st) (digested st).

Definition print (line : printed) (st : state) : state :=
  mk (tried_combinations st) (found st) (lines_printed st ++ [line])
     (digested st).

Definition set_found (st : state) : state :=
  mk (tried_combinations st) true (lines_printed st) (digested st).

Definition log_digest (text : string) (st : state) : state :=
  mk (tried_combinations st) (found st) (lines_printed st)
     (digested st ++ [text]).

(** [args.hash.lower()]: [None] has no such method. *)
Definition hash_lower (args : Args) : exc string :=
  match hash args with
  | Some h => Return (Str.lower h)
  | None => Raise AttributeError
  end.

(** [open(path, ...)] and the iteration over its lines: [None] is not a
    path. *)
Definition open_path (open_lines : string -> exc (list string))
    (path : option string) : exc (list string) :=
  match path with
  | Some p => open_lines p
  | None => Raise TypeError
  end.

(** The charset of [bruteforce_cli]. *)
Definition get_charset (args : Args) : string :=
  let presets :=
    let charset := "" in
    let charset :=
      if Str.contains "a" (charset_preset args)
      then (charset ++ Str.ascii_lowercase)%string else charset in
    let charset :=
      if Str.contains "A" (charset_preset args)
      then (charset ++ Str.ascii_uppercase)%string else charset in
    let charset :=
      if Str.contains "0" (charset_preset args)
      then (charset ++ Str.digits)%string else charset in
    if Str.contains "!" (charset_preset args)
    then (charset ++ Str.punctuation)%string else charset in
  match charset args with
  | Some given => if negb (Str.is_empty given) then given else presets
  | None => presets
  end.

Section Search.
Variable hashlib : Hashlib.
Variable custom_hash_function : option custom_fn.
Variable RN : Q -> Q.
Variable open_lines : string -> exc (list string).
Variable args : Args.

(** The body of the inner loop of [bruteforce_cli]. *)
Definition try_attempt (total_combinations : Z) (attempt : list ascii)
    (st : state) : exc state :=
  let st := count st in
  st <- (if tried_combinations st mod 10000 =? 0 then
           progress <- progress_percent RN (tried_combinations st)
                                        total_combinations ;;
           Return (print (ProgressLine progress (Str.join attempt)) st)
         else Return st) ;;
  let text := Str.join attempt in
  hashed <- get_hash hashlib custom_hash_function text (type args) ;;
  let st := log_digest text st in
  target <- hash_lower args ;;
  if (hashed =? target)%string then
    Return (set_found (print (FoundLines text hashed) st))
  else Return st.

Fixpoint attempts_loop (total_combinations : Z)
    (attempts : list (list ascii)) (st : state) : exc state :=
  match attempts with
  | [] => Return st
  | attempt :: rest =>
      st <- try_attempt total_combinations attempt st ;;
      if found st then Return st
      else attempts_loop total_combinations rest st
  end.

Fixpoint lengths_loop (total_combinations : Z) (charset : string)
    (lengths : list nat) (st : state) : exc state :=
  match lengths with
  | [] => Return st
  | length :: rest =>
      st <- attempts_loop total_combinations
              (Itertools.product (list_ascii_of_string charset) length) st ;;
      if found st then Return st
      else lengths_loop total_combinations charset rest st
  end.

(** The last lines of the three search functions. *)
Definition conclude (st : state) : state :=
  let st := if negb (found st) then print NotFoundLine st else st in
  print FinishedLine st.

Definition bruteforce_cli : exc state :=
  let charset := get_charset args in
  let header :=
    [StartLine (hash args); TypeLine (type args); CharsetLine charset;
     LengthLine (min_length args) (max_length args); RunningLine] in
  let total_combinations :=
    fold_left
      (fun total length =>
         total + Z.of_nat (String.length charset) ^ Z.of_nat length)
      (range (min_length args) (max_length args + 1))
      0 in
  st <- lengths_loop total_combinations charset
          (range (min_length args) (max_length args + 1))
          (mk 0 false header []) ;;
  Return (conclude st).

(** The body of the loop of [dictionary_cli]. *)
Definition try_word (total_lines : Z) (line : string) (st : state)
  : exc state :=
  let st := count st in
  st <- (if tried_combinations st mod 1000 =? 0 then
           progress <- progress_percent RN (tried_combinations st)
                                        total_lines ;;
           Return (print (ProgressLine progress (Str.strip line)) st)
         else Return st) ;;
  let text := Str.strip line in
  if Str.is_empty text then Return st
  else
    hashed <- get_hash hashlib custom_hash_function text (type args) ;;
    let st := log_digest text st in
    target <- hash_lower args ;;
    if (hashed =? target)%string then
      Return (set_found (print (FoundLines text hashed) st))
    else Return st.

Fixpoint words_loop (total_lines : Z) (lines : list string) (st : state)
  : exc state :=
  match lines with
  | [] => Return st
  | line :: rest =>
      st <- try_word total_lines line st ;;
      if found st then Return st else words_loop total_lines rest st
  end.

Definition count_lines (lines : list string) : Z :=
  fold_left (fun total_lines _ => total_lines + 1) lines 0.

Definition dictionary_cli : exc state :=
  let header :=
    [StartLine (hash args); TypeLine (type args); FileLine (dict args);
     RunningLine] in
  counted <- open_path open_lines (dict args) ;;
  let total_lines := count_lines counted in
  lines <- open_path open_lines (dict args) ;;
  st <- words_loop total_lines lines (mk 0 false header []) ;;
  Return (conclude st).

(** The body of the loop of [rainbow_cli]. *)
Definition try_entry (total_lines : Z) (line : string) (st : state)
  : exc state :=
  let st := count st in
  st <- (if tried_combinations st mod 1000 =? 0 then
           progress <- progress_percent RN (tried_combinations st)
                                        total_lines ;;
           Return (print (ProgressLine progress (Str.strip line)) st)
         else Return st) ;;
  let line := Str.strip line in
  if Str.is_empty line then Return st
  else if negb (Str.contains ":" line) then Return st
  else
    match Str.split1 ":" line with
    | [stored_hash; plaintext] =>
        let stored_hash := Str.lower stored_hash in
        target <- hash_lower args ;;
        if (stored_hash =? target)%string then
          Return (set_found (print (FoundLines plaintext stored_hash) st))
        else Return st
    | _ => Raise ValueError
    end.

Fixpoint entries_loop (total_lines : Z) (lines : list string) (st : state)
  : exc state :=
  match lines with
  | [] => Return st
  | line :: rest =>
      st <- try_entry total_lines line st ;;
      if found st then Return st else entries_loop total_lines rest st
  end.

Definition rainbow_cli : exc state :=
  let header :=
    [StartLine (hash args); FileLine (rainbow args); RunningLine] in
  counted <- open_path open_lines (rainbow args) ;;
  let total_lines := count_lines counted in
  lines <- open_path open_lines (rainbow args) ;;
  st <- entries_loop total_lines lines (mk 0 false header []) ;;
  Return (conclude st).

End Search.

(** How [main] ends: by [sys.exit(code)], by showing the window, or by
    returning after a search function. *)
Inductive ending : Type :=
| SystemExit (code : Z)
| WindowShown
| Searched (result : state).

(** What [main] leaves: the lines it printed itself, the binding of the
    global [custom_hash_function], and how it ended. *)
Record outcome : Type := {
  announced : list printed;
  bound : option custom_fn;
  ended : ending
}.

(** [not s] for an optional string: [None] and the empty string are false. *)
Definition missing (s : option string) : bool :=
  match s with
  | Some text => Str.is_empty text
  | None => true
  end.

Section Main.
Variable hashlib : Hashlib.
Variable RN : Q -> Q.
Variable open_lines : string -> exc (list string).
(** [os.path.isfile], reading a whole file, and loading a module. *)
Variable isfile : string -> bool.
Variable read_file : string -> exc string.
Variable exec_module : string -> exc custom_fn.

Definition with_type (hash_type : string) (args : Args) : Args :=
  {| type := hash_type;
     hash := hash args;
     mode := mode args;
     charset := charset args;
     charset_preset := charset_preset args;
     min_length := min_length args;
     max_length := max_length args;
     dict := dict args;
     rainbow := rainbow args;
     custom_hash := custom_hash args |}.

(** The second half of [main], once the custom function has been dealt
    with. *)
Definition dispatch (announced : list printed)
    (custom_hash_function : option custom_fn) (args : Args) : exc outcome :=
  match mode args with
  | Gui => Return {| announced := announced;
                     bound := custom_hash_function;
                     ended := WindowShown |}
  | selected =>
      if missing (hash args) then
        Return {| announced := announced ++ [MissingHashLine];
                  bound := custom_hash_function;
                  ended := SystemExit 1 |}
      else
        match selected with
        | Brute =>
            st <- bruteforce_cli hashlib custom_hash_function RN args ;;
            Return {| announced := announced;
                      bound := custom_hash_function;
                      ended := Searched st |}
        | Dict =>
            if missing (dict args) then
              Return {| announced := announced ++ [MissingDictLine];
                        bound := custom_hash_function;
                        ended := SystemExit 1 |}
            else
              st <- dictionary_cli hashlib custom_hash_function RN open_lines
                      args ;;
              Return {| announced := announced;
                        bound := custom_hash_function;
                        ended := Searched st |}
        | Rainbow =>
            if missing (rainbow args) then
              Return {| announced := announced ++ [MissingRainbowLine];
                        bound := custom_hash_function;
                        ended := SystemExit 1 |}
            else
              st <- rainbow_cli RN open_lines args ;;
              Return {| announced := announced;
                        bound := custom_hash_function;
                        ended := Searched st |}
        | Gui => Return {| announced := announced;
                           bound := custom_hash_function;
                           ended := WindowShown |}
        end
  end.

(** [main], from the arguments parsed; the global starts unbound. *)
Definition main (args : Args) : exc outcome :=
  let custom_hash_function : option custom_fn := None in
  match custom_hash args with
  | Some path =>
      if negb (Str.is_empty path) && isfile path then
        match read_file path with
        | Return code =>
            let '(answer, custom_hash_function) :=
              load_custom_hash_function exec_module code
                                        custom_hash_function in
            match answer with
            | Return (success, message) =>
                if success then
                  dispatch [CustomLoadedLine message] custom_hash_function
                           (with_type "CUSTOM" args)
                else
                  Return {| announced := [CustomLoadErrorLine message];
                            bound := custom_hash_function;
                            ended := SystemExit 1 |}
            | Raise _ =>
                (* except Exception of [main] *)
                Return {| announced := [CustomReadErrorLine];
                          bound := custom_hash_function;
                          ended := SystemExit 1 |}
            end
        | Raise _ =>
            Return {| announced := [CustomReadErrorLine];
                      bound := custom_hash_function;
                      ended := SystemExit 1 |}
        end
      else dispatch [] custom_hash_function args
  | None => dispatch [] custom_hash_function args
  end.

End Main.

End Cli.

(** ** Definitions used to state the properties of the command line *)

(** The progress line printed for the item numbered [tried]: one when
    [tried] is a multiple of [every], none otherwise. *)
Definition progress_line (RN : Q -> Q) (every total tried : Z) (text : string)
  : list Cli.printed :=
  if tried mod every =? 0
  then [Cli.ProgressLine (percent RN tried total) text]
  else [].

(** The progress lines of the items numbered [tried + 1], [tried + 2], ... *)
Fixpoint progress_lines (RN : Q -> Q) (every total tried : Z)
    (texts : list string) : list Cli.printed :=
  match texts with
  | [] => []
  | text :: rest =>
      progress_line RN every total (tried + 1) text
      ++ progress_lines RN every total (tried + 1) rest
  end.

(** The first match among the items of a search, if any. *)
Fixpoint first_hit {A : Type} (hit : A -> option (string * string))
    (items : list A) : option (string * string) :=
  match items with
  | [] => None
  | item :: rest =>
      match hit item with
      | Some found => Some found
      | None => first_hit hit rest
      end
  end.

Definition is_hit {A : Type} (hit : A -> option (string * string)) (item : A)
  : bool :=
  match hit item with
  | Some _ => true
  | None => false
  end.

(** The lines printed on a match. *)
Definition found_lines (hit : option (string * string)) : list Cli.printed :=
  match hit with
  | Some (text, hashed) => [Cli.FoundLines text hashed]
  | None => []
  end.

(** The last lines of a search of the command line. *)
Definition closing_lines (hit : option (string * string)) : list Cli.printed :=
  match hit with
  | Some (text, hashed) => [Cli.FoundLines text hashed; Cli.FinishedLine]
  | None => [Cli.NotFoundLine; Cli.FinishedLine]
  end.

(** The match that a candidate of a charset search produces, if any. *)
Definition charset_hit (hashlib : Hashlib)
    (custom_hash_function : option custom_fn) (hash_type target : string)
    (attempt : list ascii) : option (string * string) :=
  let text := Str.join attempt in
  let hashed := digest hashlib custom_hash_function text hash_type in
  if (hashed =? target)%string then Some (text, hashed) else None.

(** The candidates of a charset search before they are joined. *)
Definition attempts (char_set : string) (min_length max_length : nat)
  : list (list ascii) :=
  flat_map (Itertools.product (list_ascii_of_string char_set))
           (range min_length (max_length + 1)).

(** The header lines of the three searches. *)
Definition bruteforce_header (args : Cli.Args) : list Cli.printed :=
  [Cli.StartLine (Cli.hash args); Cli.TypeLine (Cli.type args);
   Cli.CharsetLine (Cli.get_charset args);
   Cli.LengthLine (Cli.min_length args) (Cli.max_length args);
   Cli.RunningLine].

Definition dictionary_header (args : Cli.Args) : list Cli.printed :=
  [Cli.StartLine (Cli.hash args); Cli.TypeLine (Cli.type args);
   Cli.FileLine (Cli.dict args); Cli.RunningLine].

Definition rainbow_header (args : Cli.Args) : list Cli.printed :=
  [Cli.StartLine (Cli.hash args); Cli.FileLine (Cli.rainbow args);
   Cli.RunningLine].

(** The command line lacks the target hash, or the file that its mode
    needs. *)
Definition incomplete (args : Cli.Args) : Prop :=
  Cli.missing (Cli.hash args) = true
  \/ (Cli.mode args = Cli.Dict /\ Cli.missing (Cli.dict args) = true)
  \/ (Cli.mode args = Cli.Rainbow /\ Cli.missing (Cli.rainbow args) = true).

(** The message of [main] for the first thing that an incomplete command
    line lacks. *)
Definition first_missing (args : Cli.Args) : Cli.printed :=
  if Cli.missing (Cli.hash args) then Cli.MissingHashLine
  else match Cli.mode args with
       | Cli.Dict => Cli.MissingDictLine
       | _ => Cli.MissingRainbowLine
       end.

(** [main] loads no custom hash function: the option is absent or empty,
    or names no existing file. *)
Definition no_custom_file (isfile : string -> bool) (args : Cli.Args) : Prop :=
  match Cli.custom_hash args with
  | None => True
  | Some path => Str.is_empty path = true \/ isfile path = false
  end.

(** A command line that names a file of a custom hash function, and a
    file system in which that file holds the code "A". *)
Definition custom_args (hash_type : string) : Cli.Args :=
  {| Cli.type := hash_type;
     Cli.hash := Some "aa"%string;
     Cli.mode := Cli.Dict;
     Cli.charset := None;
     Cli.charset_preset := "a0";
     Cli.min_length := 1%nat;
     Cli.max_length := 4%nat;
     Cli.dict := Some "words.txt"%string;
     Cli.rainbow := None;
     Cli.custom_hash := Some "hash.py"%string |}.

Definition holds_A (path : string) : exc string := Return "A"%string.

(** A command line for the charset "ab", lengths 1 to 2. *)
Definition ab_args (target : string) (mode : Cli.run_mode) : Cli.Args :=
  {| Cli.type := "MD5";
     Cli.hash := Some target;
     Cli.mode := mode;
     Cli.charset := Some "ab"%string;
     Cli.charset_preset := "a0";
     Cli.min_length := 1%nat;
     Cli.max_length := 2%nat;
     Cli.dict := Some "words.txt"%string;
     Cli.rainbow := Some "table.txt"%string;
     Cli.custom_hash := None |}.

(** * Properties *)

(** ** Lists *)

Section ListFacts.
Context {A B : Type}.

Lemma flat_map_map_l {C : Type} (f : B -> list C) (g : A -> B) (l : list A) :
  flat_map f (map g l) = flat_map (fun x => f (g x)) l.
Proof.
  induction l as [|x l IH]; simpl; [reflexivity | now rewrite IH].
Qed.

Lemma map_flat_map_r {C : Type} (f : B -> C) (g : A -> list B) (l : list A) :
  map f (flat_map g l) = flat_map (fun x => map f (g x)) l.
Proof.
  induction l as [|x l IH]; simpl; [reflexivity |].
  now rewrite map_app, IH.
Qed.

Lemma flat_map_ext_in (f g : A -> list B) (l : list A) :
  (forall x, In x l -> f x = g x) -> flat_map f l = flat_map g l.
Proof.
  induction l as [|x l IH]; simpl; intros E; [reflexivity |].
  rewrite E by now left. rewrite IH; [reflexivity |].
  intros y Hy. apply E. now right.
Qed.

Lemma NoDup_flat_map (f : A -> list B) (l : list A) :
  NoDup l ->
  (forall x, In x l -> NoDup (f x)) ->
  (forall x y z, In x l -> In y l -> In z (f x) -> In z (f y) -> x = y) ->
  NoDup (flat_map f l).
Proof.
  induction 1 as [|x l Hx Hl IH]; simpl; intros Hf Hdisj.
  - constructor.
  - apply NoDup_app.
    + apply Hf. now left.
    + apply IH.
      * intros y Hy. apply Hf. now right.
      * intros y1 y2 z H1 H2. apply Hdisj; now right.
    + intros z Hz Hz'. apply in_flat_map in Hz' as [y [Hy Hzy]].
      assert (x = y) by (apply (Hdisj x y z); simpl; auto).
      subst y. contradiction.
Qed.

Lemma NoDup_map_inj (f : A -> B) (l : list A) :
  (forall x y, f x = f y -> x = y) -> NoDup l -> NoDup (map f l).
Proof.
  intros Hinj. induction 1 as [|x l Hx Hl IH]; simpl; constructor; auto.
  intros Hin. apply in_map_iff in Hin as [y [E Hy]].
  apply Hinj in E. subst y. contradiction.
Qed.

Lemma map_nth_seq (l : list A) (d : A) :
  map (fun j => nth j l d) (seq 0 (List.length l)) = l.
Proof.
  induction l as [|x l IH]; simpl; [reflexivity |].
  f_equal. rewrite <- seq_shift, map_map. exact IH.
Qed.

End ListFacts.

Lemma seq_mul (m n : nat) :
  seq 0 (m * n)
  = flat_map (fun i => map (fun j => i * n + j)%nat (seq 0 n)) (seq 0 m).
Proof.
  induction m as [|m IH].
  - reflexivity.
  - rewrite seq_S, flat_map_app, <- IH. simpl flat_map. rewrite app_nil_r.
    replace (S m * n)%nat with (m * n + n)%nat by lia.
    rewrite seq_app. f_equal. simpl.
    clear IH. generalize (m * n)%nat as b. intros b.
    induction n as [|n IHn]; [reflexivity |].
    rewrite !seq_S, map_app, IHn. simpl. reflexivity.
Qed.

Lemma length_string_of_list_ascii (l : list ascii) :
  String.length (string_of_list_ascii l) = List.length l.
Proof.
  induction l as [|c l IH]; simpl; [reflexivity | now rewrite IH].
Qed.

Lemma length_list_ascii_of_string (s : string) :
  List.length (list_ascii_of_string s) = String.length s.
Proof.
  induction s as [|c s IH]; simpl; [reflexivity | now rewrite IH].
Qed.

(** ** The documented product *)

Section ProductFacts.
Context {A : Type}.
Import Itertools.

Lemma product_S (pool : list A) (r : nat) :
  product pool (S r)
  = flat_map (fun x => map (fun y => x ++ [y]) pool) (product pool r).
Proof.
  unfold product. simpl List.repeat.
  rewrite repeat_cons, fold_left_app. reflexivity.
Qed.

Lemma length_product (pool : list A) (r : nat) :
  List.length (product pool r) = (List.length pool ^ r)%nat.
Proof.
  induction r as [|r IH]; [reflexivity |].
  rewrite product_S, length_flat_map.
  rewrite (map_ext _ (fun _ => List.length pool))
    by (intros; apply length_map).
  simpl Nat.pow. rewrite <- IH.
  generalize (product pool r). intros l.
  induction l as [|x l IHl]; simpl; lia.
Qed.

Lemma in_product (pool : list A) (r : nat) (x : list A) :
  In x (product pool r)
  <-> List.length x = r /\ Forall (fun a => In a pool) x.
Proof.
  revert x. induction r as [|r IH]; intros x.
  - simpl. split.
    + intros [<- | []]. split; [reflexivity | constructor].
    + intros [H _]. left. symmetry. now apply length_zero_iff_nil.
  - rewrite product_S, in_flat_map. split.
    + intros [x' [Hx' Hx]]. apply in_map_iff in Hx as [y [<- Hy]].
      apply IH in Hx' as [Hlen Hall]. split.
      * rewrite length_app. simpl. lia.
      * apply Forall_app.
        split; [exact Hall | constructor; [exact Hy | constructor]].
    + intros [Hlen Hall].
      destruct (exists_last (l := x)) as [x' [y E]].
      { intros ->. discriminate. }
      subst x. rewrite length_app in Hlen. simpl in Hlen.
      apply Forall_app in Hall as [Hall Hy].
      exists x'. split.
      * apply IH. split; [lia | exact Hall].
      * apply in_map_iff. exists y. split; [reflexivity |].
        now inversion Hy.
Qed.

Lemma NoDup_product (pool : list A) (r : nat) :
  NoDup pool -> NoDup (product pool r).
Proof.
  intros Hpool. induction r as [|r IH].
  - simpl. constructor; [intros [] | constructor].
  - rewrite product_S. apply NoDup_flat_map.
    + exact IH.
    + intros x _. apply NoDup_map_inj; [| exact Hpool].
      intros a b E. now apply app_inj_tail in E.
    + intros x y z _ _ Hx Hy.
      apply in_map_iff in Hx as [a [<- _]].
      apply in_map_iff in Hy as [b [E _]].
      now apply app_inj_tail in E.
Qed.

Lemma odometer_snoc (pool : list A) (d : A) (l k : nat) :
  (0 < List.length pool)%nat ->
  (k < List.length pool ^ S l)%nat ->
  odometer pool d (S l) k
  = odometer pool d l (k / List.length pool)
      ++ [nth (k mod List.length pool) pool d].
Proof.
  set (n := List.length pool). intros Hn. revert k.
  induction l as [|l IH]; intros k Hk.
  - change (odometer pool d 1 k) with [nth (k / n ^ 0) pool d].
    change (odometer pool d 0 (k / n)) with (@nil A).
    change (n ^ 0)%nat with 1%nat. rewrite Nat.pow_1_r in Hk.
    rewrite Nat.div_1_r, Nat.mod_small by lia. reflexivity.
  - change (odometer pool d (S (S l)) k)
      with (nth (k / n ^ S l) pool d :: odometer pool d (S l) (k mod n ^ S l)).
    rewrite IH by (apply Nat.mod_upper_bound; apply Nat.pow_nonzero; lia).
    change (odometer pool d (S l) (k / n))
      with (nth (k / n / n ^ l) pool d :: odometer pool d l ((k / n) mod n ^ l)).
    simpl app. fold n.
    assert (E : (k mod n ^ S l = k mod n + n * ((k / n) mod n ^ l))%nat)
      by (simpl Nat.pow; apply Nat.Div0.mod_mul_r).
    assert (Hr : (k mod n < n)%nat) by (apply Nat.mod_upper_bound; lia).
    f_equal.
    + f_equal. simpl Nat.pow. now rewrite Nat.Div0.div_div.
    + simpl Nat.pow in E. f_equal.
      * f_equal. rewrite E.
        rewrite (Nat.mul_comm n), Nat.div_add by lia.
        rewrite Nat.div_small by lia. reflexivity.
      * f_equal. f_equal. rewrite E.
        rewrite (Nat.mul_comm n), Nat.Div0.mod_add.
        now apply Nat.mod_small.
Qed.

Lemma product_odometer (pool : list A) (d : A) (r : nat) :
  product pool r
  = map (odometer pool d r) (seq 0 (List.length pool ^ r)).
Proof.
  induction r as [|r IH]; [reflexivity |].
  rewrite product_S.
  destruct pool as [|a pool'] eqn:Epool.
  - simpl. generalize (product (@nil A) r). intros l.
    induction l; simpl; auto.
  - rewrite <- Epool in *. set (n := List.length pool) in *.
    assert (Hn : (0 < n)%nat) by (unfold n; rewrite Epool; simpl; lia).
    rewrite IH, flat_map_map_l.
    replace (n ^ S r)%nat with (n ^ r * n)%nat by (simpl; lia).
    rewrite seq_mul, map_flat_map_r.
    apply flat_map_ext_in. intros i Hi. apply in_seq in Hi.
    rewrite map_map.
    rewrite <- (map_nth_seq pool d) at 1. fold n. rewrite map_map.
    apply map_ext_in. intros j Hj. apply in_seq in Hj.
    rewrite odometer_snoc; fold n; [| exact Hn | simpl; nia].
    rewrite Nat.div_add_l, Nat.div_small, Nat.add_0_r by lia.
    rewrite Nat.add_comm, Nat.Div0.mod_add, Nat.mod_small by lia.
    reflexivity.
Qed.

End ProductFacts.

(** ** The charset enumeration *)

Lemma join_inj (x y : list ascii) : Str.join x = Str.join y -> x = y.
Proof.
  unfold Str.join. intros E.
  rewrite <- (list_ascii_of_string_of_list_ascii x),
          <- (list_ascii_of_string_of_list_ascii y).
  now rewrite E.
Qed.

Lemma in_enumerate (char_set : string) (min_length max_length : nat)
    (s : string) :
  In s (enumerate char_set min_length max_length)
  <-> over char_set s
      /\ (min_length <= String.length s <= max_length)%nat.
Proof.
  unfold enumerate, range, over. rewrite in_flat_map. split.
  - intros [L [HL Hs]]. apply in_seq in HL.
    apply in_map_iff in Hs as [x [<- Hx]].
    apply in_product in Hx as [Hlen Hall].
    unfold Str.join.
    rewrite list_ascii_of_string_of_list_ascii, length_string_of_list_ascii.
    split; [exact Hall | lia].
  - intros [Hall Hlen]. exists (String.length s). split.
    + apply in_seq. lia.
    + apply in_map_iff. exists (list_ascii_of_string s). split.
      * apply string_of_list_ascii_of_string.
      * apply in_product.
        split; [apply length_list_ascii_of_string | exact Hall].
Qed.

Lemma length_enumerate (char_set : string) (min_length max_length : nat) :
  List.length (enumerate char_set min_length max_length)
  = list_sum (map (fun L => String.length char_set ^ L)%nat
                  (range min_length (max_length + 1))).
Proof.
  unfold enumerate. rewrite length_flat_map. f_equal.
  apply map_ext. intros L.
  now rewrite length_map, length_product, length_list_ascii_of_string.
Qed.

Lemma NoDup_enumerate (char_set : string) (min_length max_length : nat) :
  NoDup (list_ascii_of_string char_set) ->
  NoDup (enumerate char_set min_length max_length).
Proof.
  intros Hcs. unfold enumerate, range. apply NoDup_flat_map.
  - apply seq_NoDup.
  - intros L _. apply NoDup_map_inj; [exact join_inj |].
    now apply NoDup_product.
  - intros L1 L2 s _ _ H1 H2.
    apply in_map_iff in H1 as [x1 [<- H1]].
    apply in_map_iff in H2 as [x2 [E H2]].
    apply join_inj in E. subst x2.
    apply in_product in H1 as [H1 _]. apply in_product in H2 as [H2 _].
    congruence.
Qed.

(** ** The hash provider *)

Lemma try_except_returns {A : Type} (body : exc A) (handler : exception -> A) :
  exists a, try_except body (fun e => Return (handler e)) = Return a.
Proof.
  destruct body as [a | e]; simpl; eauto.
Qed.

Lemma get_hash_digest (hashlib : Hashlib)
    (custom_hash_function : option custom_fn) (text hash_type : string) :
  get_hash hashlib custom_hash_function text hash_type
  = Return (digest hashlib custom_hash_function text hash_type).
Proof.
  unfold digest.
  destruct (get_hash hashlib custom_hash_function text hash_type)
    as [s | e] eqn:E; [reflexivity |].
  unfold get_hash in E.
  match type of E with
  | try_except ?b _ = _ =>
      destruct (try_except_returns b (fun _ => md5 hashlib text)) as [a Ha]
  end.
  rewrite Ha in E. discriminate.
Qed.

Lemma get_hash_custom (hashlib : Hashlib) (custom_hash : custom_fn)
    (text hash_type : string) :
  Str.lower hash_type = "custom"%string ->
  get_hash hashlib (Some custom_hash) text hash_type
  = Return match custom_hash text with
           | Return v => match str v with
                         | Return s => s
                         | Raise _ => md5 hashlib text
                         end
           | Raise _ => md5 hashlib text
           end.
Proof.
  intros E. unfold get_hash. rewrite E. simpl.
  destruct (custom_hash text) as [v | e]; simpl; [| reflexivity].
  destruct v as [s | z | | [s | e]]; try reflexivity.
  destruct (str (PyInt z)); reflexivity.
Qed.

(** C2 as stated fails: a custom function that returns the integer 7 makes
    [get_hash] return "7", not the MD5 digest of the input. *)
Lemma get_hash_non_string_not_md5 :
  ~ (forall (hashlib : Hashlib) (custom_hash : custom_fn)
            (text hash_type : string) (v : pyobject),
        Str.lower hash_type = "custom"%string ->
        custom_hash text = Return v ->
        isinstance_str v = false ->
        get_hash hashlib (Some custom_hash) text hash_type
        = Return (md5 hashlib text)).
Proof.
  intros H.
  specialize (H symbolic_hashlib (fun _ => Return (PyInt 7)) "a" "CUSTOM"
                (PyInt 7) eq_refl eq_refl eq_refl)%string.
  vm_compute in H. discriminate.
Qed.

Lemma get_hash_builtin (hashlib : Hashlib)
    (custom_hash_function : option custom_fn) (text hash_type : string) :
  let algo := Str.lower hash_type in
  (algo =? "custom")%string && is_bound custom_hash_function = false ->
  get_hash hashlib custom_hash_function text hash_type
  = Return
      match (if Str.startswith algo "blake2"
             then blake2_hexdigest hashlib algo text
             else if Str.contains "shake" algo
                  then shake_hexdigest hashlib algo text
                  else if in_list algo (algorithms_available hashlib)
                       then if hasattr hashlib algo
                            then attr_hexdigest hashlib algo text
                            else new_hexdigest hashlib algo text
                       else Return (md5 hashlib text)) with
      | Return s => s
      | Raise _ => md5 hashlib text
      end.
Proof.
  intros algo H. unfold get_hash. fold algo. rewrite H.
  destruct (Str.startswith algo "blake2").
  { destruct (blake2_hexdigest hashlib algo text); reflexivity. }
  destruct (Str.contains "shake" algo).
  { destruct (shake_hexdigest hashlib algo text); reflexivity. }
  destruct (in_list algo (algorithms_available hashlib)); [| reflexivity].
  destruct (hasattr hashlib algo).
  - destruct (attr_hexdigest hashlib algo text); reflexivity.
  - destruct (new_hexdigest hashlib algo text); reflexivity.
Qed.

(** C2, amended. With the custom function bound and requested: if the
    function raises, the answer is the MD5 digest of the input; if it
    returns a string, the answer is that string; if it returns a value that
    is not a string, the answer is [str] of that value, and the MD5 digest
    only if that conversion raises too.  For any other request, an
    exception raised by the call to [hashlib] of the branch taken is
    answered with the MD5 digest of the input. *)
Theorem get_hash_falls_back_to_md5 (hashlib : Hashlib)
    (custom_hash_function : option custom_fn) (text hash_type : string) :
  let algo := Str.lower hash_type in
  let answer := get_hash hashlib custom_hash_function text hash_type in
  (forall custom_hash,
      custom_hash_function = Some custom_hash ->
      algo = "custom"%string ->
      (forall e, custom_hash text = Raise e ->
                 answer = Return (md5 hashlib text))
      /\ (forall s, custom_hash text = Return (PyStr s) -> answer = Return s)
      /\ (forall v, custom_hash text = Return v ->
                    isinstance_str v = false ->
                    answer = Return match str v with
                                    | Return s => s
                                    | Raise _ => md5 hashlib text
                                    end))
  /\ ((algo =? "custom")%string && is_bound custom_hash_function = false ->
      forall e,
        (Str.startswith algo "blake2" = true
         /\ blake2_hexdigest hashlib algo text = Raise e)
        \/ (Str.startswith algo "blake2" = false
            /\ Str.contains "shake" algo = true
            /\ shake_hexdigest hashlib algo text = Raise e)
        \/ (Str.startswith algo "blake2" = false
            /\ Str.contains "shake" algo = false
            /\ in_list algo (algorithms_available hashlib) = true
            /\ (if hasattr hashlib algo
                then attr_hexdigest hashlib algo text
                else new_hexdigest hashlib algo text) = Raise e) ->
        answer = Return (md5 hashlib text)).
Proof.
  intros algo answer. subst answer. split.
  - intros custom_hash -> E. rewrite (get_hash_custom _ _ _ _ E).
    split; [| split].
    + intros e ->. reflexivity.
    + intros s ->. reflexivity.
    + intros v -> _. reflexivity.
  - intros Hnot e H. rewrite (get_hash_builtin _ _ _ _ Hnot). fold algo.
    destruct H as [[-> ->] | [(-> & -> & ->) | (-> & -> & -> & H)]];
      [reflexivity | reflexivity |].
    destruct (hasattr hashlib algo); rewrite H; reflexivity.
Qed.

Lemma get_hash_falls_back_to_md5_witness :
  get_hash symbolic_hashlib (Some (fun _ => Raise UserError)) "a" "Custom"
  = Return "md5:a"%string
  /\ get_hash symbolic_hashlib (Some (fun _ => Return PyNone)) "a" "Custom"
     = Return "None"%string
  /\ get_hash symbolic_hashlib None "a" "BLAKE2x" = Return "md5:a"%string.
Proof.
  split; [| split].
  - exact (proj1 (proj1 (get_hash_falls_back_to_md5 symbolic_hashlib
                           (Some (fun _ => Raise UserError)) "a" "Custom")
                        (fun _ => Raise UserError) eq_refl eq_refl)
                 UserError eq_refl).
  - exact (proj2 (proj2 (proj1 (get_hash_falls_back_to_md5 symbolic_hashlib
                                  (Some (fun _ => Return PyNone)) "a" "Custom")
                               (fun _ => Return PyNone) eq_refl eq_refl))
                 PyNone eq_refl eq_refl).
  - exact (proj2 (get_hash_falls_back_to_md5 symbolic_hashlib None "a"
                    "BLAKE2x")
                 eq_refl AttributeError (or_introl (conj eq_refl eq_refl))).
Defined.

Lemma get_hash_unresolved (hashlib : Hashlib)
    (custom_hash_function : option custom_fn) (text hash_type : string) :
  resolves hashlib custom_hash_function (Str.lower hash_type) = false ->
  get_hash hashlib custom_hash_function text hash_type
  = Return (md5 hashlib text).
Proof.
  unfold resolves, get_hash. intros H.
  repeat (apply orb_false_iff in H as [H ?]).
  rewrite H.
  destruct (Str.startswith _ _); [discriminate |].
  destruct (Str.contains _ _); [discriminate |].
  destruct (in_list _ _); [discriminate |].
  reflexivity.
Qed.

(** C3 as stated fails: the id "whirlpool2" resolves to nothing, and
    [get_hash] answers with the MD5 digest instead of failing. *)
Lemma unknown_algorithm_not_raised :
  ~ (forall (hashlib : Hashlib) (custom_hash_function : option custom_fn)
            (text hash_type : string),
        resolves hashlib custom_hash_function (Str.lower hash_type) = false ->
        exists e,
          get_hash hashlib custom_hash_function text hash_type = Raise e).
Proof.
  intros H.
  destruct (H symbolic_hashlib None "a" "whirlpool2" eq_refl)%string as [e He].
  vm_compute in He. discriminate.
Qed.

(** ** Loading a custom function *)

(** C8 as stated fails: after the function of code "A" has been loaded and
    bound, loading the code "B" succeeds and replaces it. *)
Lemma custom_rebound_twice :
  ~ (forall (exec_module : string -> exc custom_fn) (code1 code2 : string)
            (g0 : option custom_fn),
        let '(r1, g1) := load_custom_hash_function exec_module code1 g0 in
        let '(r2, g2) := load_custom_hash_function exec_module code2 g1 in
        (exists message, r1 = Return (true, message)) -> g2 = g1).
Proof.
  intros H. specialize (H exec_AB "A" "B" None)%string.
  simpl in H. specialize (H (ex_intro _ _ eq_refl)).
  injection H as H.
  apply (f_equal (fun f => f ""%string)) in H. discriminate.
Qed.

(** C8, amended. "CUSTOM" may be rebound any number of times: a load whose
    code executes and whose test call returns binds the function just
    loaded, whatever was bound before, and [get_hash] then uses it (the
    load answers with success and the test digest when that digest can be
    shown, and raises otherwise, the function being bound all the same); a
    load whose code or test call raises leaves the binding as it was. *)
Theorem custom_bound_to_last_loaded (exec_module : string -> exc custom_fn)
    (code : string) (custom_hash_function : option custom_fn) :
  let loaded :=
    load_custom_hash_function exec_module code custom_hash_function in
  (forall custom_hash v,
      exec_module code = Return custom_hash ->
      custom_hash "test"%string = Return v ->
      snd loaded = Some custom_hash
      /\ (forall hashlib text,
             get_hash hashlib (snd loaded) text "CUSTOM"
             = get_hash hashlib (Some custom_hash) text "CUSTOM")
      /\ fst loaded = match str v with
                      | Return shown => Return (true, shown)
                      | Raise _ => Raise FileNotFoundError
                      end)
  /\ (forall e,
         exec_module code = Raise e
         \/ (exists custom_hash,
                exec_module code = Return custom_hash
                /\ custom_hash "test"%string = Raise e) ->
         loaded = (Return (false, ""%string), custom_hash_function)).
Proof.
  intros loaded. subst loaded. unfold load_custom_hash_function. split.
  - intros custom_hash v -> Hv. simpl. rewrite Hv. simpl.
    destruct (str v); simpl; auto.
  - intros e [-> | [custom_hash [-> Ht]]]; simpl; [reflexivity |].
    rewrite Ht. reflexivity.
Qed.

Lemma custom_bound_to_last_loaded_witness :
  load_custom_hash_function exec_AB "B" (Some custom_A)
  = (Return (true, "bb"%string), Some custom_B)
  /\ load_custom_hash_function exec_AB "C" (Some custom_A)
     = (Return (false, ""%string), Some custom_A).
Proof.
  split.
  - destruct (proj1 (custom_bound_to_last_loaded exec_AB "B" (Some custom_A))
                    custom_B (PyStr "bb") eq_refl eq_refl)
      as (Hbound & _ & Hanswer).
    now rewrite (surjective_pairing (load_custom_hash_function _ _ _)),
      Hbound, Hanswer.
  - exact (proj2 (custom_bound_to_last_loaded exec_AB "C" (Some custom_A))
                 UserError (or_introl eq_refl)).
Defined.

(** ** Validation before a charset job starts *)

Lemma is_empty_true (s : string) : Str.is_empty s = true <-> s = ""%string.
Proof.
  destruct s; simpl; split; congruence.
Qed.

(** ** The percentage and the throttled reports *)

Lemma int_le_mono (x y : Q) : (x <= y)%Q -> int x <= int y.
Proof.
  unfold Qle, int. destruct x as [a b], y as [c d]. simpl. intros H.
  assert (Hb : 0 < Z.pos b) by lia. assert (Hd : 0 < Z.pos d) by lia.
  destruct (Z.le_gt_cases 0 a) as [Ha | Ha], (Z.le_gt_cases 0 c) as [Hc | Hc].
  - rewrite !Z.quot_div_nonneg by lia.
    rewrite <- (Z.div_mul_cancel_r a (Z.pos b) (Z.pos d)) by lia.
    rewrite <- (Z.div_mul_cancel_r c (Z.pos d) (Z.pos b)) by lia.
    rewrite (Z.mul_comm (Z.pos d) (Z.pos b)).
    apply Z.div_le_mono; nia.
  - nia.
  - transitivity 0.
    + assert (E : a ÷ Z.pos b = - ((- a) ÷ Z.pos b))
        by (rewrite Z.quot_opp_l by lia; lia).
      assert (0 <= (- a) ÷ Z.pos b) by (apply Z.quot_pos; lia). lia.
    + apply Z.quot_pos; lia.
  - assert (Ea : a ÷ Z.pos b = - ((- a) / Z.pos b)).
    { rewrite <- (Z.quot_div_nonneg (- a)) by lia.
      rewrite Z.quot_opp_l by lia. lia. }
    assert (Ec : c ÷ Z.pos d = - ((- c) / Z.pos d)).
    { rewrite <- (Z.quot_div_nonneg (- c)) by lia.
      rewrite Z.quot_opp_l by lia. lia. }
    rewrite Ea, Ec. apply -> Z.opp_le_mono.
    rewrite <- (Z.div_mul_cancel_r (- c) (Z.pos d) (Z.pos b)) by lia.
    rewrite <- (Z.div_mul_cancel_r (- a) (Z.pos b) (Z.pos d)) by lia.
    rewrite (Z.mul_comm (Z.pos d) (Z.pos b)).
    apply Z.div_le_mono; nia.
Qed.

Section Percent.
Variable RN : Q -> Q.
Hypothesis RN_monotone : forall x y : Q, (x <= y)%Q -> (RN x <= RN y)%Q.

Lemma percent_mono (total t1 t2 : Z) :
  0 < total -> t1 <= t2 -> percent RN t1 total <= percent RN t2 total.
Proof.
  intros Htotal Hle. unfold percent.
  apply Z.min_le_compat_l, int_le_mono, RN_monotone.
  apply Qmult_le_compat_r; [| discriminate].
  apply RN_monotone. unfold Qdiv.
  apply Qmult_le_compat_r.
  - now rewrite <- Zle_Qle.
  - apply Qinv_le_0_compat. change 0%Q with (inject_Z 0).
    rewrite <- Zle_Qle. lia.
Qed.

End Percent.

Lemma percent_le_100 (RN : Q -> Q) (tried total : Z) :
  percent RN tried total <= 100.
Proof.
  unfold percent. apply Z.le_min_l.
Qed.

(** Without rounding the percentage is the floor of [tried * 100 / total]. *)
Lemma percent_exact (tried total : Z) :
  0 <= tried -> 0 < total ->
  percent (fun q => q) tried total = Z.min 100 (tried * 100 / total).
Proof.
  intros Ht HT. unfold percent, int. f_equal.
  destruct total as [|p|p]; try lia.
  unfold Qdiv, Qmult, Qinv, inject_Z. simpl Qnum. simpl Qden.
  rewrite Z.quot_div_nonneg by lia.
  rewrite Pos.mul_1_r, !Z.mul_1_r. reflexivity.
Qed.

Lemma percents_app (a b : list signal) :
  percents (a ++ b) = percents a ++ percents b.
Proof.
  induction a as [|[v t | t h |] a IH]; simpl; [reflexivity | | |];
    now rewrite IH.
Qed.

Section Reports.
Variable RN : Q -> Q.
Variables every total : Z.

Lemma reports_app (tried : Z) (l1 l2 : list string) :
  reports RN every total tried (l1 ++ l2)
  = reports RN every total tried l1
    ++ reports RN every total (tried + Z.of_nat (List.length l1)) l2.
Proof.
  revert tried. induction l1 as [|x l1 IH]; intros tried.
  - simpl. now rewrite Z.add_0_r.
  - simpl reports. rewrite IH, <- app_assoc. do 3 f_equal.
    simpl List.length. lia.
Qed.


Lemma no_found_in_reports (tried : Z) (texts : list string) (c h : string) :
  ~ In (found_match c h) (reports RN every total tried texts).
Proof.
  revert tried. induction texts as [|x texts IH]; intros tried; simpl.
  - intros [].
  - rewrite in_app_iff. intros [H | H]; [| now apply IH in H].
    unfold report in H. destruct (_ || _); simpl in H; intuition discriminate.
Qed.

Lemma no_finished_in_reports (tried : Z) (texts : list string) :
  ~ In finished_task (reports RN every total tried texts).
Proof.
  revert tried. induction texts as [|x texts IH]; intros tried; simpl.
  - intros [].
  - rewrite in_app_iff. intros [H | H]; [| now apply IH in H].
    unfold report in H. destruct (_ || _); simpl in H; intuition discriminate.
Qed.

Hypothesis RN_monotone : forall x y : Q, (x <= y)%Q -> (RN x <= RN y)%Q.
Hypothesis total_positive : 0 < total.

Lemma reports_bounds (t0 tried : Z) (texts : list string) :
  t0 <= tried + 1 ->
  Forall (fun p => percent RN t0 total <= p <= 100)
         (percents (reports RN every total tried texts)).
Proof.
  revert tried. induction texts as [|x texts IH]; intros tried Ht; simpl.
  - constructor.
  - rewrite percents_app. apply Forall_app. split.
    + unfold report. destruct (_ || _); simpl; constructor; [| constructor].
      split; [now apply percent_mono | apply percent_le_100].
    + apply IH. lia.
Qed.

Lemma reports_sorted (tried : Z) (texts : list string) :
  StronglySorted Z.le (percents (reports RN every total tried texts)).
Proof.
  revert tried. induction texts as [|x texts IH]; intros tried; simpl.
  - constructor.
  - rewrite percents_app. unfold report.
    destruct (_ || _); simpl; [| apply IH].
    constructor; [apply IH |].
    eapply Forall_impl; [| apply (reports_bounds (tried + 1)); lia].
    simpl. intros p Hp. lia.
Qed.

End Reports.

(** ** The run of BruteForceWorker *)

Lemma progress_percent_eq (RN : Q -> Q) (tried total : Z) :
  total <> 0 ->
  progress_percent RN tried total = Return (percent RN tried total).
Proof.
  intros H. unfold progress_percent, percent.
  destruct (Z.eqb_spec total 0); [contradiction | reflexivity].
Qed.

Lemma total_combinations_eq (self : BruteForceWorker.t) :
  BruteForceWorker.total_combinations self
  = Z.of_nat (List.length (enumerate (BruteForceWorker.char_set self)
                                     (BruteForceWorker.min_length self)
                                     (BruteForceWorker.max_length self))).
Proof.
  unfold BruteForceWorker.total_combinations. rewrite length_enumerate.
  generalize (range (BruteForceWorker.min_length self)
                    (BruteForceWorker.max_length self + 1)).
  intros l.
  enough (H : forall acc,
             fold_left
               (fun total length =>
                  total + Z.of_nat (String.length (BruteForceWorker.char_set self))
                          ^ Z.of_nat length) l acc
             = acc + Z.of_nat
                       (list_sum
                          (map (fun L => String.length (BruteForceWorker.char_set self) ^ L)%nat
                               l)))
    by (rewrite H; lia).
  induction l as [|L l IH]; intros acc; simpl.
  - lia.
  - rewrite IH, Nat2Z.inj_add, Nat2Z.inj_pow. lia.
Qed.

Lemma read_running_eq (stop_after : option nat) (st : run_state) :
  read_running stop_after st
  = (negb (observed_stop stop_after (snd (read_running stop_after st))),
     mk_state (tried_combinations st) (found st) (S (reads st)) (emitted st)
              (digested st)).
Proof.
  unfold read_running, observed_stop. destruct stop_after as [n |]; simpl;
    [| reflexivity].
  f_equal. destruct (Nat.ltb_spec (reads st) n), (Nat.ltb_spec n (S (reads st)));
    simpl; try reflexivity; lia.
Qed.

Section BruteRun.
Variable hashlib : Hashlib.
Variable custom_hash_function : option custom_fn.
Variable RN : Q -> Q.
Variable self : BruteForceWorker.t.
Variable stop_after : option nat.

Let total := BruteForceWorker.total_combinations self.
Let target := BruteForceWorker.target_hash self.
Let digest_of (text : string) :=
  digest hashlib custom_hash_function text (BruteForceWorker.hash_type self).
Let pool := list_ascii_of_string (BruteForceWorker.char_set self).
Let Inv := brute_invariant RN total target digest_of stop_after.

Lemma try_attempt_eq (attempt : list ascii) (st : run_state) :
  total <> 0 ->
  BruteForceWorker.try_attempt hashlib custom_hash_function RN self attempt st
  = Return
      (let text := Str.join attempt in
       let tried := tried_combinations st + 1 in
       let hit := (digest_of text =? target)%string in
       mk_state tried (if hit then true else found st) (reads st)
                (emitted st ++ report RN 10000 total tried text
                 ++ (if hit
                     then [found_match text target; update_progress 100 text]
                     else []))
                (digested st ++ [text])).
Proof.
  intros Htotal. unfold BruteForceWorker.try_attempt, report.
  fold total. simpl tried_combinations.
  rewrite get_hash_digest. unfold digest_of, target.
  set (h := digest hashlib custom_hash_function (Str.join attempt)
                   (BruteForceWorker.hash_type self)).
  destruct (((tried_combinations st + 1) mod 10000 =? 0)
            || (tried_combinations st + 1 =? total)).
  - rewrite progress_percent_eq by exact Htotal. simpl.
    destruct (String.eqb_spec h (BruteForceWorker.target_hash self)) as [E | E].
    + rewrite E. unfold set_found, emit, log_digest; simpl.
      now rewrite <- !app_assoc.
    + unfold log_digest; simpl. rewrite ?app_nil_r. reflexivity.
  - simpl.
    destruct (String.eqb_spec h (BruteForceWorker.target_hash self)) as [E | E].
    + rewrite E. unfold set_found, emit, log_digest; simpl.
      now rewrite <- !app_assoc.
    + unfold log_digest, count; simpl. rewrite ?app_nil_r. reflexivity.
Qed.

Lemma invariant_read (st : run_state) :
  Inv st -> found st = false -> Inv (snd (read_running stop_after st)).
Proof.
  unfold Inv, brute_invariant, match_tail. simpl.
  intros (H1 & H2 & H3 & H4 & H5) Hf.
  rewrite Hf in *. repeat split; auto; discriminate.
Qed.

Lemma observed_read (st : run_state) :
  observed_stop stop_after st = true ->
  observed_stop stop_after (snd (read_running stop_after st)) = true.
Proof.
  unfold observed_stop. simpl. destruct stop_after as [n |]; auto.
  intros H. apply Nat.ltb_lt in H. apply Nat.ltb_lt. lia.
Qed.

Lemma invariant_step (attempt : list ascii) (st : run_state) :
  Inv st -> found st = false -> total <> 0 ->
  observed_stop stop_after (snd (read_running stop_after st)) = false ->
  exists st1,
    BruteForceWorker.try_attempt hashlib custom_hash_function RN self attempt
      (snd (read_running stop_after st)) = Return st1
    /\ Inv st1
    /\ digested st1 = digested st ++ [Str.join attempt]
    /\ reads st1 = S (reads st)
    /\ observed_stop stop_after st1 = false.
Proof.
  intros (H1 & H2 & H3 & H4 & H5) Hf Htotal Hobs.
  eexists. split; [apply try_attempt_eq; exact Htotal |].
  simpl. split; [| split; [reflexivity | split; [reflexivity | exact Hobs]]].
  unfold Inv, brute_invariant, match_tail. simpl.
  rewrite Hf in *. unfold match_tail in H2. rewrite Hf, app_nil_r in H2.
  rewrite last_last, length_app. simpl List.length.
  assert (Hn : forall n, stop_after = Some n -> (reads st < n)%nat).
  { intros n E. unfold observed_stop in Hobs. rewrite E in Hobs.
    simpl in Hobs. apply Nat.ltb_ge in Hobs. lia. }
  split; [lia |]. split.
  - rewrite reports_app, H2, H1. simpl reports.
    rewrite app_nil_r, <- app_assoc.
    destruct (digest_of (Str.join attempt) =? target)%string; reflexivity.
  - split; [lia |]. split.
    + intros n E. specialize (Hn n E). lia.
    + destruct (String.eqb_spec (digest_of (Str.join attempt)) target) as [E | E];
        [| discriminate].
      intros _. split; [exact Hobs | split; [| exact E]].
      intros E'. apply app_eq_nil in E' as [_ E']. discriminate.
Qed.

Lemma attempts_loop_cons (attempt : list ascii) (rest : list (list ascii))
    (st : run_state) :
  BruteForceWorker.attempts_loop hashlib custom_hash_function RN self
    stop_after (attempt :: rest) st
  = let (running, st) := read_running stop_after st in
    if negb running then Return st
    else
      st <- BruteForceWorker.try_attempt hashlib custom_hash_function RN self
              attempt st ;;
      if found st then Return st
      else BruteForceWorker.attempts_loop hashlib custom_hash_function RN
             self stop_after rest st.
Proof. reflexivity. Qed.

Lemma attempts_loop_invariant (attempts : list (list ascii))
    (st : run_state) :
  Inv st -> found st = false ->
  Z.of_nat (List.length (digested st) + List.length attempts) <= total ->
  exists st' k,
    BruteForceWorker.attempts_loop hashlib custom_hash_function RN self
      stop_after attempts st = Return st'
    /\ Inv st'
    /\ (k <= List.length attempts)%nat
    /\ digested st' = digested st ++ map Str.join (firstn k attempts)
    /\ (found st' = true \/ observed_stop stop_after st' = true
        \/ k = List.length attempts)
    /\ (observed_stop stop_after st = true -> k = 0%nat)
    /\ (observed_stop stop_after st = true ->
        observed_stop stop_after st' = true).
Proof.
  revert st. induction attempts as [|attempt rest IH]; intros st HI Hf Hlen.
  - exists st, 0%nat. simpl. rewrite app_nil_r. auto 10.
  - rewrite attempts_loop_cons, read_running_eq.
    destruct (observed_stop stop_after (snd (read_running stop_after st)))
      eqn:Hobs; simpl negb; cbv iota.
    + eexists. exists 0%nat. split; [reflexivity |].
      split; [apply (invariant_read st HI Hf) |].
      simpl. rewrite app_nil_r. split; [lia |]. auto.
    + assert (Htotal : total <> 0) by (simpl List.length in Hlen; lia).
      destruct (invariant_step attempt st HI Hf Htotal Hobs)
        as (st1 & Hrun & HI1 & Hd1 & Hr1 & Ho1).
      simpl in Hrun. rewrite Hrun. simpl bind.
      assert (Hnot : observed_stop stop_after st = true -> False).
      { intros H. apply observed_read in H. congruence. }
      destruct (found st1) eqn:Hf1.
      * exists st1, 1%nat. split; [reflexivity |]. split; [exact HI1 |].
        simpl. split; [lia |]. split; [exact Hd1 |].
        split; [auto |]. split; intros H; destruct (Hnot H).
      * destruct (IH st1 HI1 Hf1)
          as (st2 & k & Hrun2 & HI2 & Hk & Hd2 & Hend & _ & _).
        { rewrite Hd1, length_app. simpl List.length in *. lia. }
        exists st2, (S k). split; [exact Hrun2 |]. split; [exact HI2 |].
        simpl. split; [lia |]. split.
        { rewrite Hd2, Hd1, <- app_assoc. reflexivity. }
        split.
        { destruct Hend as [H | [H | H]]; auto. }
        split; intros H; destruct (Hnot H).
Qed.

Let tier (L : nat) : list string := map Str.join (Itertools.product pool L).

Lemma lengths_loop_cons (L : nat) (rest : list nat) (st : run_state) :
  BruteForceWorker.lengths_loop hashlib custom_hash_function RN self
    stop_after (L :: rest) st
  = let (running, st) := read_running stop_after st in
    if negb running then Return st
    else
      st <- BruteForceWorker.attempts_loop hashlib custom_hash_function RN
              self stop_after (Itertools.product pool L) st ;;
      if found st then Return st
      else BruteForceWorker.lengths_loop hashlib custom_hash_function RN
             self stop_after rest st.
Proof. reflexivity. Qed.

Lemma lengths_loop_invariant (lengths : list nat) (st : run_state) :
  Inv st -> found st = false ->
  Z.of_nat (List.length (digested st)
            + List.length (flat_map tier lengths)) <= total ->
  exists st' k,
    BruteForceWorker.lengths_loop hashlib custom_hash_function RN self
      stop_after lengths st = Return st'
    /\ Inv st'
    /\ (k <= List.length (flat_map tier lengths))%nat
    /\ digested st' = digested st ++ firstn k (flat_map tier lengths)
    /\ (found st' = true \/ observed_stop stop_after st' = true
        \/ k = List.length (flat_map tier lengths))
    /\ (observed_stop stop_after st = true -> k = 0%nat)
    /\ (observed_stop stop_after st = true ->
        observed_stop stop_after st' = true).
Proof.
  revert st. induction lengths as [|L rest IH]; intros st HI Hf Hlen.
  - exists st, 0%nat. simpl. rewrite app_nil_r. auto 10.
  - rewrite lengths_loop_cons, read_running_eq.
    simpl flat_map in *. rewrite length_app in *.
    destruct (observed_stop stop_after (snd (read_running stop_after st)))
      eqn:Hobs; simpl negb; cbv iota.
    + eexists. exists 0%nat. split; [reflexivity |].
      split; [apply (invariant_read st HI Hf) |].
      simpl. rewrite app_nil_r. split; [lia |]. auto.
    + assert (Hnot : observed_stop stop_after st = true -> False).
      { intros H. apply observed_read in H. congruence. }
      destruct (attempts_loop_invariant (Itertools.product pool L)
                  (snd (read_running stop_after st)))
        as (st1 & k1 & Hrun1 & HI1 & Hk1 & Hd1 & Hend1 & _ & _).
      { apply (invariant_read st HI Hf). }
      { exact Hf. }
      { simpl digested. unfold tier in Hlen. rewrite length_map in Hlen. lia. }
      simpl in Hrun1. rewrite Hrun1. simpl bind.
      simpl digested in Hd1. rewrite <- firstn_map in Hd1. fold (tier L) in Hd1.
      assert (Hk1' : (k1 <= List.length (tier L))%nat)
        by (unfold tier; rewrite length_map; exact Hk1).
      destruct (found st1) eqn:Hf1.
      * exists st1, k1. split; [reflexivity |]. split; [exact HI1 |].
        split; [lia |]. split.
        { rewrite firstn_app.
          replace (k1 - List.length (tier L))%nat with 0%nat by lia.
          simpl. rewrite app_nil_r. exact Hd1. }
        split; [auto |]. split; intros H; destruct (Hnot H).
      * destruct (IH st1 HI1 Hf1)
          as (st2 & k2 & Hrun2 & HI2 & Hk2 & Hd2 & Hend2 & Hzero & Hmono).
        { rewrite Hd1, length_app.
          assert (List.length (firstn k1 (tier L)) <= List.length (tier L))%nat
            by (rewrite length_firstn; lia).
          lia. }
        destruct Hend1 as [H | [H | H]]; [congruence | |].
        -- exists st2, k1. split; [exact Hrun2 |]. split; [exact HI2 |].
           split; [lia |]. split.
           { rewrite Hd2, (Hzero H), Hd1, firstn_app.
             replace (k1 - List.length (tier L))%nat with 0%nat by lia.
             simpl. now rewrite !app_nil_r. }
           split; [right; left; exact (Hmono H) |].
           split; intros H'; destruct (Hnot H').
        -- exists st2, (List.length (tier L) + k2)%nat.
           split; [exact Hrun2 |]. split; [exact HI2 |].
           split; [lia |]. split.
           { rewrite Hd2, Hd1, firstn_app_2, <- app_assoc.
             rewrite firstn_all2 by (unfold tier; rewrite length_map; lia).
             reflexivity. }
           split.
           { destruct Hend2 as [H2 | [H2 | H2]];
               [auto | auto | right; right; lia]. }
           split; intros H'; destruct (Hnot H').
Qed.

Let cands : list string :=
  enumerate (BruteForceWorker.char_set self) (BruteForceWorker.min_length self)
            (BruteForceWorker.max_length self).

(** The run returns, and its final state is one of three: after a match,
    the reports of the texts digested, the match, the forced 100% and
    [finished_task]; after exhaustion, the reports of all candidates, the
    forced 100% with no text and [finished_task]; after a read of the
    flag that saw [False], the reports of the texts digested and
    [finished_task] only. *)
Lemma run_characterised :
  exists st k,
    BruteForceWorker.run hashlib custom_hash_function RN self stop_after
    = Return st
    /\ (k <= List.length cands)%nat
    /\ digested st = firstn k cands
    /\ tried_combinations st = Z.of_nat k
    /\ (forall n, stop_after = Some n -> (k <= n)%nat)
    /\ match terminal_state stop_after st with
       | Matched =>
           let text := last (digested st) ""%string in
           (1 <= k)%nat
           /\ observed_stop stop_after st = false
           /\ digest_of text = target
           /\ emitted st
              = reports RN 10000 total 0 (digested st)
                ++ [found_match text target; update_progress 100 text;
                    finished_task]
       | Exhausted =>
           k = List.length cands
           /\ emitted st
              = reports RN 10000 total 0 cands
                ++ [update_progress 100 ""%string; finished_task]
       | Cancelled =>
           emitted st
           = reports RN 10000 total 0 (digested st) ++ [finished_task]
       end.
Proof.
  unfold BruteForceWorker.run.
  destruct (lengths_loop_invariant
              (range (BruteForceWorker.min_length self)
                     (BruteForceWorker.max_length self + 1)) initial)
    as (st & k & Hrun & HI & Hk & Hd & Hend & _ & Hmono).
  { unfold Inv, brute_invariant, match_tail. simpl.
    repeat split; auto; try lia; discriminate. }
  { reflexivity. }
  { simpl digested. simpl List.length. unfold total.
    rewrite total_combinations_eq. reflexivity. }
  fold pool in Hrun |- *. rewrite Hrun. simpl bind.
  change (flat_map tier _) with cands in *. simpl in Hd.
  destruct HI as (H1 & H2 & H3 & H4 & H5).
  assert (Hlen : List.length (digested st) = k)
    by (rewrite Hd, length_firstn; lia).
  eexists. exists k. split; [reflexivity |].
  split; [exact Hk |].
  unfold finish, terminal_state, match_tail in *.
  destruct (found st) eqn:Hf.
  - simpl. rewrite Hf. destruct (H5 eq_refl) as (Ho & Hne & Hdig).
    split; [exact Hd |]. split; [lia |].
    split; [intros n E; specialize (H4 n E); lia |].
    split; [| split; [exact Ho | split; [exact Hdig |]]].
    + destruct (digested st); [congruence | simpl in Hlen; lia].
    + rewrite H2, <- app_assoc. reflexivity.
  - simpl negb. cbv iota. rewrite read_running_eq.
    destruct (observed_stop stop_after (snd (read_running stop_after st)))
      eqn:Hobs; simpl negb; cbv iota.
    + unfold observed_stop in *. simpl in *. rewrite Hf, Hobs.
      split; [exact Hd |]. split; [lia |].
      split; [intros n E; specialize (H4 n E); lia |].
      rewrite H2, app_nil_r. reflexivity.
    + assert (Ek : k = List.length cands).
      { destruct Hend as [H | [H | H]]; [congruence | | exact H].
        apply observed_read in H. congruence. }
      unfold observed_stop in *. simpl in *. rewrite Hf, Hobs.
      split; [exact Hd |]. split; [lia |].
      split; [intros n E; specialize (H4 n E); lia |].
      split; [exact Ek |].
      rewrite H2, app_nil_r, <- app_assoc, Hd, Ek, firstn_all. reflexivity.
Qed.

End BruteRun.

Lemma percents_reports_le_100 (RN : Q -> Q) (every total tried : Z)
    (texts : list string) :
  Forall (fun p => p <= 100) (percents (reports RN every total tried texts)).
Proof.
  revert tried. induction texts as [|x texts IH]; intros tried; simpl.
  - constructor.
  - rewrite percents_app. apply Forall_app. split; [| apply IH].
    unfold report. destruct (_ || _); simpl; constructor;
      [apply percent_le_100 | constructor].
Qed.

Lemma sorted_then_100 (l : list Z) :
  StronglySorted Z.le l -> Forall (fun p => p <= 100) l ->
  StronglySorted Z.le (l ++ [100]).
Proof.
  induction 1 as [|p l Hs IH Hp]; intros Hall; simpl.
  - constructor; constructor.
  - inversion Hall as [|? ? Hp100 Hall']; subst.
    constructor; [now apply IH |].
    apply Forall_app.
    split; [exact Hp | constructor; [exact Hp100 | constructor]].
Qed.

Lemma in_firstn {A : Type} (k : nat) (l : list A) (x : A) :
  In x (firstn k l) -> In x l.
Proof.
  intros H. rewrite <- (firstn_skipn k l). apply in_or_app. now left.
Qed.

(** ** The rounding of floats is monotone *)

















(** ** Letter case of the digests *)

Lemma lower_char_idempotent (c : ascii) :
  Str.lower_char (Str.lower_char c) = Str.lower_char c.
Proof.
  destruct c as [[] [] [] [] [] [] [] []]; reflexivity.
Qed.

Lemma has_upper_lower (s : string) : has_upper (Str.lower s) = false.
Proof.
  unfold has_upper. induction s as [|c s IH]; simpl; [reflexivity |].
  rewrite lower_char_idempotent, Ascii.eqb_refl. exact IH.
Qed.

Lemma has_upper_not_lower (s t : string) :
  has_upper s = true -> s <> Str.lower t.
Proof.
  intros H ->. rewrite has_upper_lower in H. discriminate.
Qed.

(** C9. [__init__] lowercases the target and [run] compares the digest as
    [get_hash] returned it.  So with the custom algorithm requested and a
    custom function that, on every candidate, returns a string with a
    character that [lower] would change, the digest of no candidate equals
    the target, whatever the target is (also when both are equal up to
    letter case): the run returns without a match and never emits
    [found_match]. *)
Theorem uppercase_custom_digest_never_matches (hashlib : Hashlib)
    (custom_hash : custom_fn) (RN : Q -> Q) (stop_after : option nat)
    (hash_type target_hash char_set : string) (min_length max_length : nat) :
  Str.lower hash_type = "custom"%string ->
  (forall text,
      In text (enumerate char_set min_length max_length) ->
      exists s, custom_hash text = Return (PyStr s) /\ has_upper s = true) ->
  let self := BruteForceWorker.init hash_type target_hash char_set
                                    min_length max_length in
  (forall text,
      In text (enumerate char_set min_length max_length) ->
      exists s,
        get_hash hashlib (Some custom_hash) text hash_type = Return s
        /\ s <> BruteForceWorker.target_hash self)
  /\ exists st,
       BruteForceWorker.run hashlib (Some custom_hash) RN self stop_after
       = Return st
       /\ found st = false
       /\ forall text hashed, ~ In (found_match text hashed) (emitted st).
Proof.
  intros Hcustom Hupper self.
  assert (Hneq : forall text,
             In text (enumerate char_set min_length max_length) ->
             digest hashlib (Some custom_hash) text hash_type
             <> BruteForceWorker.target_hash self).
  { intros text Hin. destruct (Hupper text Hin) as (s & Hs & Hu).
    unfold digest. rewrite (get_hash_custom _ _ _ _ Hcustom), Hs. simpl.
    now apply has_upper_not_lower. }
  split.
  - intros text Hin. eexists. split; [apply get_hash_digest |].
    now apply Hneq.
  - destruct (run_characterised hashlib (Some custom_hash) RN self stop_after)
      as (st & k & Hrun & Hk & Hd & _ & _ & Hterm).
    exists st. split; [exact Hrun |].
    unfold terminal_state in Hterm. simpl in Hd, Hk, Hterm.
    destruct (found st) eqn:Hf.
    + exfalso. destruct Hterm as (Hk1 & _ & Hdig & _).
      apply (Hneq (last (digested st) ""%string)); [| exact Hdig].
      apply (in_firstn k). rewrite <- Hd.
      rewrite (app_removelast_last ""%string) at 2.
      * apply in_or_app. right. now left.
      * intros E. rewrite E in Hd. destruct k; [lia |].
        destruct (enumerate char_set min_length max_length);
          [simpl in Hk; lia | discriminate].
    + split; [reflexivity |]. intros text hashed H.
      destruct (observed_stop stop_after st).
      * rewrite Hterm in H. apply in_app_iff in H as [H | H].
        -- now apply no_found_in_reports in H.
        -- simpl in H. intuition discriminate.
      * destruct Hterm as [_ He]. rewrite He in H.
        apply in_app_iff in H as [H | H].
        -- now apply no_found_in_reports in H.
        -- simpl in H. intuition discriminate.
Qed.

Lemma uppercase_custom_digest_never_matches_witness :
  exists st,
    BruteForceWorker.run symbolic_hashlib (Some (fun _ => Return (PyStr "AB")))
      (fun q => q) (BruteForceWorker.init "CUSTOM" "AB" "ab" 1 2) None
    = Return st
    /\ found st = false.
Proof.
  destruct (uppercase_custom_digest_never_matches symbolic_hashlib
              (fun _ => Return (PyStr "AB")) (fun q => q) None
              "CUSTOM" "AB" "ab" 1 2 eq_refl
              (fun text _ => ex_intro _ "AB"%string (conj eq_refl eq_refl)))
    as (_ & st & Hrun & Hf & _).
  exists st. split; [exact Hrun | exact Hf].
Defined.

(** ** The rainbow table *)

Lemma contains_colon (s : string) : Str.contains ":" s = Str.mem ":" s.
Proof.
  unfold Str.contains.
  induction s as [|c s IH]; [reflexivity |].
  change (index 0 ":" (String c s))
    with (if prefix ":" (String c s) then Some 0%nat
          else match index 0 ":" s with
               | Some n => Some (S n)
               | None => None
               end).
  change (prefix ":" (String c s))
    with (if ascii_dec ":" c then prefix "" s else false).
  change (Str.mem ":" (String c s)) with (Ascii.eqb ":" c || Str.mem ":" s).
  destruct (ascii_dec ":" c) as [<- | Hne].
  - rewrite Ascii.eqb_refl. destruct s; reflexivity.
  - replace (Ascii.eqb ":" c) with false
      by (symmetry; now apply Ascii.eqb_neq).
    cbn [orb]. destruct (index 0 ":" s); exact IH.
Qed.

Lemma mem_append (c : ascii) (d r : string) :
  Str.mem c (d ++ String c r)%string = true.
Proof.
  induction d as [|x d IH]; simpl.
  - now rewrite Ascii.eqb_refl.
  - rewrite IH. apply orb_true_r.
Qed.

Lemma split1_first (sep : ascii) (d p : string) :
  Str.mem sep d = false ->
  Str.split1 sep (d ++ String sep p)%string = [d; p].
Proof.
  induction d as [|x d IH]; simpl; intros H.
  - now rewrite Ascii.eqb_refl.
  - apply orb_false_iff in H as [Hx Hd].
    rewrite Ascii.eqb_sym, Hx, (IH Hd). reflexivity.
Qed.

Lemma mem_split1 (sep : ascii) (s : string) :
  Str.mem sep s = true ->
  exists d p, s = (d ++ String sep p)%string /\ Str.mem sep d = false.
Proof.
  induction s as [|x s IH]; simpl; [discriminate |].
  destruct (Ascii.eqb sep x) eqn:E; simpl.
  - intros _. apply Ascii.eqb_eq in E. subst x.
    exists ""%string, s. split; reflexivity.
  - intros H. destruct (IH H) as (d & p & -> & Hd).
    exists (String x d), p. split; [reflexivity |]. simpl. now rewrite E.
Qed.

Section RainbowRun.
Variable RN : Q -> Q.
Variable self : RainbowTableWorker.t.
Variable stop_after : option nat.

Lemma rainbow_try_line_skip (total_lines : Z) (line : string)
    (st : run_state) :
  total_lines <> 0 ->
  Str.mem ":" (Str.strip line) = false ->
  RainbowTableWorker.try_line RN self total_lines line st
  = Return (mk_state (tried_combinations st + 1) (found st) (reads st)
              (emitted st
               ++ report RN 1000 total_lines (tried_combinations st + 1)
                         (Str.strip line))
              (digested st)).
Proof.
  intros Htotal Hmem. unfold RainbowTableWorker.try_line, report.
  simpl tried_combinations. rewrite contains_colon, Hmem.
  destruct (((tried_combinations st + 1) mod 1000 =? 0)
            || (tried_combinations st + 1 =? total_lines)).
  - rewrite progress_percent_eq by exact Htotal. simpl.
    destruct (Str.is_empty (Str.strip line)); reflexivity.
  - simpl. rewrite app_nil_r. destruct (Str.is_empty (Str.strip line));
      reflexivity.
Qed.

Lemma rainbow_try_line_entry (total_lines : Z) (line d p : string)
    (st : run_state) :
  total_lines <> 0 ->
  Str.strip line = (d ++ String ":" p)%string ->
  Str.mem ":" d = false ->
  RainbowTableWorker.try_line RN self total_lines line st
  = Return
      (let reported :=
         emitted st
         ++ report RN 1000 total_lines (tried_combinations st + 1)
                   (Str.strip line) in
       if (Str.lower d =? RainbowTableWorker.target_hash self)%string
       then mk_state (tried_combinations st + 1) true (reads st)
              (reported ++ [found_match p (Str.lower d);
                            update_progress 100 p])
              (digested st)
       else mk_state (tried_combinations st + 1) (found st) (reads st)
              reported (digested st)).
Proof.
  intros Htotal Hline Hd. unfold RainbowTableWorker.try_line, report.
  simpl tried_combinations. rewrite contains_colon, Hline, mem_append.
  rewrite (split1_first _ _ _ Hd).
  replace (Str.is_empty (d ++ String ":" p)) with false
    by (destruct d; reflexivity).
  destruct (((tried_combinations st + 1) mod 1000 =? 0)
            || (tried_combinations st + 1 =? total_lines)).
  - rewrite progress_percent_eq by exact Htotal. simpl.
    destruct (Str.lower d =? RainbowTableWorker.target_hash self)%string;
      unfold set_found, emit; simpl; rewrite <- ?app_assoc; reflexivity.
  - simpl.
    destruct (Str.lower d =? RainbowTableWorker.target_hash self)%string;
      unfold set_found, emit; simpl; rewrite ?app_nil_r, <- ?app_assoc;
      reflexivity.
Qed.

Lemma rainbow_try_line_returns (total_lines : Z) (line : string)
    (st : run_state) :
  total_lines <> 0 ->
  exists st',
    RainbowTableWorker.try_line RN self total_lines line st = Return st'
    /\ tried_combinations st' = tried_combinations st + 1
    /\ digested st' = digested st.
Proof.
  intros Htotal. destruct (Str.mem ":" (Str.strip line)) eqn:Hmem.
  - destruct (mem_split1 _ _ Hmem) as (d & p & Hline & Hd).
    rewrite (rainbow_try_line_entry _ _ d p st Htotal Hline Hd).
    eexists. split; [reflexivity |].
    simpl. destruct (_ =? _)%string; split; reflexivity.
  - rewrite (rainbow_try_line_skip _ _ st Htotal Hmem).
    eexists. split; [reflexivity |]. split; reflexivity.
Qed.

Lemma rainbow_lines_loop_returns (total_lines : Z) (lines : list string)
    (st : run_state) :
  0 <= tried_combinations st ->
  tried_combinations st + Z.of_nat (List.length lines) <= total_lines ->
  exists st',
    RainbowTableWorker.lines_loop RN self stop_after total_lines lines st
    = Return st'
    /\ digested st' = digested st.
Proof.
  revert st. induction lines as [|line rest IH]; intros st H0 Hlen.
  - exists st. split; reflexivity.
  - simpl RainbowTableWorker.lines_loop.
    destruct (match stop_after with
              | Some n => (reads st <? n)%nat
              | None => true
              end); simpl negb; cbv iota.
    + destruct (rainbow_try_line_returns total_lines line
                  (mk_state (tried_combinations st) (found st) (S (reads st))
                            (emitted st) (digested st)))
        as (st1 & Hrun & Ht & Hd).
      { simpl List.length in Hlen. lia. }
      rewrite Hrun. simpl bind. simpl in Ht, Hd.
      destruct (found st1); [exists st1; split; [reflexivity | exact Hd] |].
      destruct (IH st1) as (st2 & Hrun2 & Hd2).
      { lia. }
      { simpl List.length in Hlen. lia. }
      exists st2. split; [exact Hrun2 | congruence].
    + eexists. split; reflexivity.
Qed.

End RainbowRun.

Lemma count_lines_length (lines : list string) :
  RainbowTableWorker.count_lines lines = Z.of_nat (List.length lines).
Proof.
  unfold RainbowTableWorker.count_lines.
  enough (H : forall acc,
             fold_left (fun (total_lines : Z) (_ : string) => total_lines + 1)
                       lines acc
             = acc + Z.of_nat (List.length lines))
    by (rewrite H; lia).
  induction lines as [|line rest IH]; intros acc; simpl List.length; simpl.
  - lia.
  - rewrite IH. lia.
Qed.

Lemma digested_finish (stop_after : option nat) (st : run_state) :
  digested (finish stop_after st) = digested st.
Proof.
  unfold finish. destruct (found st); simpl; [reflexivity |].
  destruct (match stop_after with
            | Some n => (reads st <? n)%nat
            | None => true
            end); reflexivity.
Qed.

Lemma rainbow_run_returns (RN : Q -> Q)
    (open_lines : string -> exc (list string)) (self : RainbowTableWorker.t)
    (stop_after : option nat) (lines : list string) :
  open_lines (RainbowTableWorker.rainbow_path self) = Return lines ->
  exists st,
    RainbowTableWorker.run RN open_lines self stop_after = Return st
    /\ digested st = [].
Proof.
  intros Hopen. unfold RainbowTableWorker.run. rewrite Hopen. simpl bind.
  destruct (rainbow_lines_loop_returns RN self stop_after
              (RainbowTableWorker.count_lines lines) lines initial)
    as (st & Hrun & Hd).
  { simpl. lia. }
  { rewrite count_lines_length. simpl. lia. }
  rewrite Hrun. simpl bind. eexists. split; [reflexivity |].
  rewrite digested_finish. exact Hd.
Qed.

(** C7. In [RainbowTableWorker]: a stripped line is split on its first
    colon, so that the plaintext keeps any later colon; the part before the
    colon is lowercased and compared with the lowercased target, a match
    emitting the plaintext; a line without a colon is skipped, with no
    error; once the table has been opened the run returns and has called
    no hash function; and the table line of the MD5 digest of "password"
    matches the target written in capitals and yields "password". *)
Theorem rainbow_lookup_first_colon (RN : Q -> Q)
    (target_hash rainbow_path : string) (stop_after : option nat) :
  let self := RainbowTableWorker.init target_hash rainbow_path in
  (forall d p,
      Str.mem ":" d = false ->
      Str.split1 ":" (d ++ String ":" p)%string = [d; p])
  /\ (forall total_lines line d p st,
         total_lines <> 0 ->
         Str.strip line = (d ++ String ":" p)%string ->
         Str.mem ":" d = false ->
         RainbowTableWorker.try_line RN self total_lines line st
         = Return
             (let reported :=
                emitted st
                ++ report RN 1000 total_lines (tried_combinations st + 1)
                          (Str.strip line) in
              if (Str.lower d =? Str.lower target_hash)%string
              then mk_state (tried_combinations st + 1) true (reads st)
                     (reported ++ [found_match p (Str.lower d);
                                   update_progress 100 p])
                     (digested st)
              else mk_state (tried_combinations st + 1) (found st) (reads st)
                     reported (digested st)))
  /\ (forall total_lines line st,
         total_lines <> 0 ->
         Str.contains ":" (Str.strip line) = false ->
         RainbowTableWorker.try_line RN self total_lines line st
         = Return (mk_state (tried_combinations st + 1) (found st) (reads st)
                     (emitted st
                      ++ report RN 1000 total_lines (tried_combinations st + 1)
                                (Str.strip line))
                     (digested st)))
  /\ (forall open_lines lines,
         open_lines rainbow_path = Return lines ->
         exists st,
           RainbowTableWorker.run RN open_lines self stop_after = Return st
           /\ digested st = [])
  /\ RainbowTableWorker.run RN (file_of password_table)
       (RainbowTableWorker.init "5F4DCC3B5AA765D61D8327DEB882CF99" "table.txt")
       None
     = Return
         (mk_state 1 true 1
            [update_progress (percent RN 1 1)
               "5f4dcc3b5aa765d61d8327deb882cf99:password";
             found_match "password" "5f4dcc3b5aa765d61d8327deb882cf99";
             update_progress 100 "password";
             finished_task]
            []).
Proof.
  intros self. split; [| split; [| split; [| split]]].
  - intros d p. apply split1_first.
  - intros total_lines line d p st.
    apply (rainbow_try_line_entry RN self).
  - intros total_lines line st Htotal Hc. rewrite contains_colon in Hc.
    now apply rainbow_try_line_skip.
  - intros open_lines lines Hopen.
    now apply (rainbow_run_returns RN open_lines self stop_after lines).
  - reflexivity.
Qed.

Lemma rainbow_lookup_first_colon_witness :
  Str.split1 ":" "5f4dcc3b:pass:word" = ["5f4dcc3b"; "pass:word"]%string
  /\ exists st,
       RainbowTableWorker.run (fun q => q) (file_of password_table)
         (RainbowTableWorker.init "5F4DCC3B5AA765D61D8327DEB882CF99" "table.txt")
         (Some 0%nat)
       = Return st
       /\ digested st = [].
Proof.
  split.
  - exact (proj1 (rainbow_lookup_first_colon (fun q => q) "" "" None)
                 "5f4dcc3b" "pass:word" eq_refl)%string.
  - exact (proj1 (proj2 (proj2 (proj2
             (rainbow_lookup_first_colon (fun q => q)
                "5F4DCC3B5AA765D61D8327DEB882CF99" "table.txt" (Some 0%nat)))))
             (file_of password_table) password_table eq_refl).
Defined.

(** ** The dictionary *)

Lemma dictionary_count_lines_length (lines : list string) :
  DictionaryBruteForceWorker.count_lines lines = Z.of_nat (List.length lines).
Proof.
  exact (count_lines_length lines).
Qed.

Lemma dictionary_try_line_blank (hashlib : Hashlib)
    (custom_hash_function : option custom_fn) (RN : Q -> Q)
    (self : DictionaryBruteForceWorker.t) (total_lines : Z) (line : string)
    (st : run_state) :
  total_lines <> 0 ->
  Str.strip line = ""%string ->
  DictionaryBruteForceWorker.try_line hashlib custom_hash_function RN self
    total_lines line st
  = Return (mk_state (tried_combinations st + 1) (found st) (reads st)
              (emitted st
               ++ report RN 1000 total_lines (tried_combinations st + 1) "")
              (digested st)).
Proof.
  intros Htotal Hblank. unfold DictionaryBruteForceWorker.try_line, report.
  simpl tried_combinations. rewrite Hblank.
  destruct (((tried_combinations st + 1) mod 1000 =? 0)
            || (tried_combinations st + 1 =? total_lines)).
  - rewrite progress_percent_eq by exact Htotal. reflexivity.
  - simpl. now rewrite app_nil_r.
Qed.

(** C10. In [DictionaryBruteForceWorker]: the total is the number of raw
    lines of the file, blank ones included; a blank line still increments
    the counter and, when a report is due at its number, the report is
    emitted with the empty text, before the line is skipped without being
    digested.  On a word list of 1001 lines whose 1000th line is blank, the
    report of line 1000 is made in mid-run with the empty text, while only
    1000 texts are digested. *)
Theorem dictionary_reports_blank_lines (hashlib : Hashlib)
    (custom_hash_function : option custom_fn) (RN : Q -> Q)
    (self : DictionaryBruteForceWorker.t) :
  (forall lines,
      DictionaryBruteForceWorker.count_lines lines
      = Z.of_nat (List.length lines))
  /\ (forall total_lines line st,
         total_lines <> 0 ->
         Str.strip line = ""%string ->
         DictionaryBruteForceWorker.try_line hashlib custom_hash_function RN
           self total_lines line st
         = Return (mk_state (tried_combinations st + 1) (found st) (reads st)
                     (emitted st
                      ++ report RN 1000 total_lines (tried_combinations st + 1)
                                "")
                     (digested st)))
  /\ (forall total_lines tried,
         tried mod 1000 = 0 ->
         report RN 1000 total_lines tried ""
         = [update_progress (percent RN tried total_lines) ""%string])
  /\ DictionaryBruteForceWorker.run symbolic_hashlib None RN
       (file_of blank_1000th)
       (DictionaryBruteForceWorker.init "MD5" "5f4dcc3b5aa765d61d8327deb882cf99"
                                        "words.txt")
       None
     = Return
         (mk_state 1001 false 1002
            [update_progress (percent RN 1000 1001) "";
             update_progress (percent RN 1001 1001) "y";
             update_progress 100 "";
             finished_task]
            (List.repeat "x"%string 999 ++ ["y"%string])).
Proof.
  split; [| split; [| split]].
  - apply dictionary_count_lines_length.
  - intros total_lines line st. apply dictionary_try_line_blank.
  - intros total_lines tried H. unfold report.
    rewrite H. reflexivity.
  - vm_compute. reflexivity.
Qed.

Lemma dictionary_reports_blank_lines_witness :
  DictionaryBruteForceWorker.try_line symbolic_hashlib None (fun q => q)
    (DictionaryBruteForceWorker.init "MD5" "5f4dcc3b5aa765d61d8327deb882cf99"
                                     "words.txt")
    1001 LF (mk_state 999 false 1000 [] [])
  = Return (mk_state 1000 false 1000 [update_progress 99 ""%string] []).
Proof.
  exact (proj1 (proj2 (dictionary_reports_blank_lines symbolic_hashlib None
                         (fun q => q)
                         (DictionaryBruteForceWorker.init
                            "MD5" "5f4dcc3b5aa765d61d8327deb882cf99" "words.txt")))
               1001 LF (mk_state 999 false 1000 [] [])
               ltac:(discriminate) eq_refl).
Defined.


(** * Further properties of the program *)

(** ** The charset built from the form *)

Lemma mem_In (c : ascii) (s : string) :
  Str.mem c s = true <-> In c (list_ascii_of_string s).
Proof.
  induction s as [|d s IH]; simpl.
  - split; [discriminate | intros []].
  - rewrite orb_true_iff, IH, Ascii.eqb_eq. intuition congruence.
Qed.

Lemma list_ascii_of_string_app (s1 s2 : string) :
  list_ascii_of_string (s1 ++ s2)%string
  = list_ascii_of_string s1 ++ list_ascii_of_string s2.
Proof.
  induction s1 as [|c s1 IH]; simpl; [reflexivity | now rewrite IH].
Qed.

Lemma NoDup_snoc {A : Type} (l : list A) (x : A) :
  NoDup l -> ~ In x l -> NoDup (l ++ [x]).
Proof.
  intros Hl Hx. apply NoDup_app; [exact Hl | repeat constructor; intros [] |].
  intros a Ha [<- | []]. contradiction.
Qed.

Section CustomCharacters.
Let add (charset : string) (char : ascii) : string :=
  if negb (Str.mem char charset) then (charset ++ String char "")%string
  else charset.

Lemma add_custom_NoDup (custom : list ascii) (charset : string) :
  NoDup (list_ascii_of_string charset) ->
  NoDup (list_ascii_of_string (fold_left add custom charset)).
Proof.
  revert charset. induction custom as [|c custom IH]; intros charset H;
    [exact H |].
  simpl. apply IH. unfold add.
  destruct (Str.mem c charset) eqn:E; simpl; [exact H |].
  rewrite list_ascii_of_string_app. apply NoDup_snoc; [exact H |].
  intros Hin. apply mem_In in Hin. congruence.
Qed.

Lemma add_custom_In (custom : list ascii) (charset : string) (x : ascii) :
  In x (list_ascii_of_string (fold_left add custom charset))
  <-> In x (list_ascii_of_string charset) \/ In x custom.
Proof.
  revert charset. induction custom as [|c custom IH]; intros charset.
  - simpl. tauto.
  - simpl. rewrite IH. unfold add.
    destruct (Str.mem c charset) eqn:E; simpl.
    + apply mem_In in E. intuition congruence.
    + rewrite list_ascii_of_string_app, in_app_iff. simpl. tauto.
Qed.
End CustomCharacters.

Lemma get_charset_In (gui : HashBruteForcer.t) (c : ascii) :
  let chars := list_ascii_of_string in
  NoDup (chars (HashBruteForcer.get_charset gui))
  /\ (In c (chars (HashBruteForcer.get_charset gui))
      <-> (HashBruteForcer.use_lowercase gui = true
           /\ In c (chars Str.ascii_lowercase))
          \/ (HashBruteForcer.use_uppercase gui = true
              /\ In c (chars Str.ascii_uppercase))
          \/ (HashBruteForcer.use_digits gui = true
              /\ In c (chars Str.digits))
          \/ (HashBruteForcer.use_special gui = true
              /\ In c (chars Str.punctuation))
          \/ In c (chars (HashBruteForcer.custom_charset gui))).
Proof.
  intros chars. unfold HashBruteForcer.get_charset.
  set (presets :=
         let charset := ""%string in
         let charset :=
           if HashBruteForcer.use_lowercase gui
           then (charset ++ Str.ascii_lowercase)%string else charset in
         let charset :=
           if HashBruteForcer.use_uppercase gui
           then (charset ++ Str.ascii_uppercase)%string else charset in
         let charset :=
           if HashBruteForcer.use_digits gui
           then (charset ++ Str.digits)%string else charset in
         if HashBruteForcer.use_special gui
         then (charset ++ Str.punctuation)%string else charset).
  assert (Hnd : NoDup (chars presets)).
  { unfold presets, chars.
    destruct (HashBruteForcer.use_lowercase gui),
             (HashBruteForcer.use_uppercase gui),
             (HashBruteForcer.use_digits gui),
             (HashBruteForcer.use_special gui);
      match goal with
      | |- NoDup ?l =>
          let E := fresh in
          assert (E : nodup ascii_dec l = l) by (vm_compute; reflexivity);
          rewrite <- E; apply NoDup_nodup
      end. }
  assert (Hin :
             In c (chars presets)
             <-> (HashBruteForcer.use_lowercase gui = true
                  /\ In c (chars Str.ascii_lowercase))
                 \/ (HashBruteForcer.use_uppercase gui = true
                     /\ In c (chars Str.ascii_uppercase))
                 \/ (HashBruteForcer.use_digits gui = true
                     /\ In c (chars Str.digits))
                 \/ (HashBruteForcer.use_special gui = true
                     /\ In c (chars Str.punctuation))).
  { unfold presets, chars.
    destruct (HashBruteForcer.use_lowercase gui),
             (HashBruteForcer.use_uppercase gui),
             (HashBruteForcer.use_digits gui),
             (HashBruteForcer.use_special gui);
      cbv zeta; rewrite ?list_ascii_of_string_app, ?in_app_iff;
      change (list_ascii_of_string "") with (@nil ascii);
      simpl (In c []); intuition discriminate. }
  fold presets.
  destruct (Str.is_empty (HashBruteForcer.custom_charset gui)) eqn:Ec;
    simpl negb; cbv iota.
  - apply is_empty_true in Ec. rewrite Ec. split; [exact Hnd |].
    rewrite Hin. unfold chars. simpl. tauto.
  - split.
    + now apply add_custom_NoDup.
    + unfold chars. rewrite add_custom_In. fold chars.
      rewrite Hin. tauto.
Qed.

Lemma get_charset_NoDup (gui : HashBruteForcer.t) :
  NoDup (list_ascii_of_string (HashBruteForcer.get_charset gui)).
Proof.
  exact (proj1 (get_charset_In gui Ascii.zero)).
Qed.

(** X1. The charset that the form hands to [BruteForceWorker] has no
    repeated character, and its characters are exactly those of the ticked
    presets and of the custom field. *)
Theorem get_charset_distinct (gui : HashBruteForcer.t) :
  let chars := list_ascii_of_string in
  NoDup (chars (HashBruteForcer.get_charset gui))
  /\ forall c,
       In c (chars (HashBruteForcer.get_charset gui))
       <-> (HashBruteForcer.use_lowercase gui = true
            /\ In c (chars Str.ascii_lowercase))
           \/ (HashBruteForcer.use_uppercase gui = true
               /\ In c (chars Str.ascii_uppercase))
           \/ (HashBruteForcer.use_digits gui = true
               /\ In c (chars Str.digits))
           \/ (HashBruteForcer.use_special gui = true
               /\ In c (chars Str.punctuation))
           \/ In c (chars (HashBruteForcer.custom_charset gui)).
Proof.
  intros chars. split; [apply get_charset_NoDup |].
  intros c. exact (proj2 (get_charset_In gui c)).
Qed.


(** ** The first match of a charset search *)

Section TakeUntil.
Context {A : Type}.
Variable p : A -> bool.

Lemma take_until_no_match (l : list A) :
  Forall (fun x => p x = false) l ->
  take_until p l = l /\ existsb p l = false.
Proof.
  induction 1 as [|x l Hx Hl [IH1 IH2]]; simpl; [auto |].
  rewrite Hx, IH1, IH2. auto.
Qed.

Lemma take_until_match (pre post : list A) (x : A) :
  Forall (fun y => p y = false) pre -> p x = true ->
  take_until p (pre ++ x :: post) = pre ++ [x]
  /\ existsb p (pre ++ x :: post) = true.
Proof.
  induction 1 as [|y pre Hy Hpre IH]; simpl; intros Hx.
  - rewrite Hx. auto.
  - destruct (IH Hx) as [IH1 IH2]. rewrite Hy, IH1, IH2. auto.
Qed.

Lemma take_until_firstn (l : list A) (k : nat) (d : A) :
  firstn k l <> [] ->
  Forall (fun y => p y = false) (removelast (firstn k l)) ->
  p (last (firstn k l) d) = true ->
  take_until p l = firstn k l /\ existsb p l = true.
Proof.
  intros Hne Hmiss Hhit.
  rewrite <- (firstn_skipn k l) at 1 3.
  rewrite (app_removelast_last d Hne) at 1 3.
  rewrite <- !app_assoc. simpl app.
  destruct (take_until_match (removelast (firstn k l)) (skipn k l)
              (last (firstn k l) d) Hmiss Hhit) as [E1 E2].
  rewrite E1, E2. split; [| reflexivity].
  symmetry. now apply app_removelast_last.
Qed.

End TakeUntil.

Section BruteFirstMatch.
Variable hashlib : Hashlib.
Variable custom_hash_function : option custom_fn.
Variable RN : Q -> Q.
Variable self : BruteForceWorker.t.
Variable stop_after : option nat.

Let total := BruteForceWorker.total_combinations self.
Let matches (text : string) : bool :=
  (digest hashlib custom_hash_function text (BruteForceWorker.hash_type self)
   =? BruteForceWorker.target_hash self)%string.
Let earlier_missed (st : run_state) : Prop :=
  Forall (fun text => matches text = false)
         (if found st then removelast (digested st) else digested st)
  /\ (found st = true -> matches (last (digested st) ""%string) = true).

Lemma attempts_loop_misses (attempts : list (list ascii)) (st st' : run_state) :
  (attempts <> [] -> total <> 0) ->
  found st = false ->
  Forall (fun text => matches text = false) (digested st) ->
  BruteForceWorker.attempts_loop hashlib custom_hash_function RN self
    stop_after attempts st = Return st' ->
  earlier_missed st'.
Proof.
  revert st. induction attempts as [|attempt rest IH];
    intros st Htotal Hf Hmiss Hrun.
  - simpl in Hrun. injection Hrun as <-. unfold earlier_missed.
    rewrite Hf. split; [exact Hmiss | discriminate].
  - rewrite attempts_loop_cons, read_running_eq in Hrun.
    destruct (observed_stop stop_after (snd (read_running stop_after st)));
      simpl negb in Hrun; cbv iota in Hrun.
    + injection Hrun as <-. unfold earlier_missed. simpl. rewrite Hf.
      split; [exact Hmiss | discriminate].
    + rewrite try_attempt_eq in Hrun by (apply Htotal; discriminate).
      simpl in Hrun. fold (matches (Str.join attempt)) in Hrun.
      destruct (matches (Str.join attempt)) eqn:Hm.
      * injection Hrun as <-. unfold earlier_missed. simpl.
        rewrite removelast_last, last_last. auto.
      * rewrite Hf in Hrun. apply IH in Hrun; [exact Hrun | | reflexivity |].
        -- intros _. apply Htotal. discriminate.
        -- simpl. apply Forall_app. auto.
Qed.

Lemma lengths_loop_misses (lengths : list nat) (st st' : run_state) :
  (forall L, In L lengths ->
             Itertools.product
               (list_ascii_of_string (BruteForceWorker.char_set self)) L <> [] ->
             total <> 0) ->
  found st = false ->
  Forall (fun text => matches text = false) (digested st) ->
  BruteForceWorker.lengths_loop hashlib custom_hash_function RN self
    stop_after lengths st = Return st' ->
  earlier_missed st'.
Proof.
  revert st. induction lengths as [|L rest IH];
    intros st Htotal Hf Hmiss Hrun.
  - simpl in Hrun. injection Hrun as <-. unfold earlier_missed.
    rewrite Hf. split; [exact Hmiss | discriminate].
  - rewrite lengths_loop_cons, read_running_eq in Hrun.
    destruct (observed_stop stop_after (snd (read_running stop_after st)));
      simpl negb in Hrun; cbv iota in Hrun.
    + injection Hrun as <-. unfold earlier_missed. simpl. rewrite Hf.
      split; [exact Hmiss | discriminate].
    + destruct (BruteForceWorker.attempts_loop _ _ _ _ _ _ _)
        as [st1 | e] eqn:Hinner; simpl in Hrun; [| discriminate].
      apply attempts_loop_misses in Hinner;
        [| apply Htotal; now left | exact Hf | exact Hmiss].
      destruct (found st1) eqn:Hf1.
      * injection Hrun as <-. exact Hinner.
      * apply IH in Hrun; [exact Hrun | | exact Hf1 |].
        -- intros L' HL'. apply Htotal. now right.
        -- destruct Hinner as [H _]. now rewrite Hf1 in H.
Qed.

End BruteFirstMatch.

Lemma found_finish (stop_after : option nat) (st : run_state) :
  found (finish stop_after st) = found st.
Proof.
  unfold finish. destruct (found st) eqn:Hf; simpl; [exact Hf |].
  destruct (match stop_after with
            | Some n => (reads st <? n)%nat
            | None => true
            end); exact Hf.
Qed.

Lemma tier_empty_when_total_zero (self : BruteForceWorker.t) (L : nat) :
  In L (range (BruteForceWorker.min_length self)
              (BruteForceWorker.max_length self + 1)) ->
  Itertools.product (list_ascii_of_string (BruteForceWorker.char_set self)) L
  <> [] ->
  BruteForceWorker.total_combinations self <> 0.
Proof.
  intros HL Hne Hzero. rewrite total_combinations_eq in Hzero.
  assert (E : enumerate (BruteForceWorker.char_set self)
                        (BruteForceWorker.min_length self)
                        (BruteForceWorker.max_length self) = [])
    by (apply length_zero_iff_nil; lia).
  destruct (Itertools.product _ L) as [|x l] eqn:Ep; [congruence |].
  assert (Hin : In (Str.join x)
                   (enumerate (BruteForceWorker.char_set self)
                              (BruteForceWorker.min_length self)
                              (BruteForceWorker.max_length self))).
  { unfold enumerate. apply in_flat_map. exists L. split; [exact HL |].
    rewrite Ep. now left. }
  rewrite E in Hin. destruct Hin.
Qed.

(** The trace of a charset search on which [stop()] is never called. *)
Lemma charset_run_first_match (hashlib : Hashlib)
    (custom_hash_function : option custom_fn) (RN : Q -> Q)
    (self : BruteForceWorker.t) :
  let candidates := enumerate (BruteForceWorker.char_set self)
                              (BruteForceWorker.min_length self)
                              (BruteForceWorker.max_length self) in
  let total := BruteForceWorker.total_combinations self in
  let target := BruteForceWorker.target_hash self in
  let matches text :=
    (digest hashlib custom_hash_function text (BruteForceWorker.hash_type self)
     =? target)%string in
  exists st,
    BruteForceWorker.run hashlib custom_hash_function RN self None = Return st
    /\ digested st = take_until matches candidates
    /\ tried_combinations st = Z.of_nat (List.length (digested st))
    /\ found st = existsb matches candidates
    /\ emitted st
       = reports RN 10000 total 0 (digested st)
         ++ (if found st
             then [found_match (last (digested st) ""%string) target;
                   update_progress 100 (last (digested st) ""%string);
                   finished_task]
             else [update_progress 100 ""%string; finished_task]).
Proof.
  intros candidates total target matches.
  destruct (run_characterised hashlib custom_hash_function RN self None)
    as (st & k & Hrun & Hk & Hd & Ht & _ & Hterm).
  fold candidates total target in Hk, Hd, Hterm.
  exists st. split; [exact Hrun |].
  assert (Hcount : tried_combinations st = Z.of_nat (List.length (digested st))).
  { rewrite Ht, Hd, length_firstn. f_equal. fold candidates in Hk. lia. }
  assert (Hmiss : Forall (fun text => matches text = false)
                         (if found st then removelast (digested st)
                          else digested st)
                  /\ (found st = true ->
                      matches (last (digested st) ""%string) = true)).
  { unfold BruteForceWorker.run in Hrun.
    destruct (BruteForceWorker.lengths_loop _ _ _ _ _ _ _)
      as [st0 | e] eqn:Hloop; simpl in Hrun; [| discriminate].
    injection Hrun as <-. rewrite found_finish, digested_finish.
    apply (lengths_loop_misses hashlib custom_hash_function RN self None
             (range (BruteForceWorker.min_length self)
                    (BruteForceWorker.max_length self + 1))
             initial st0); [| reflexivity | constructor | exact Hloop].
    intros L. apply tier_empty_when_total_zero. }
  destruct Hmiss as [Hmiss Hlast].
  unfold terminal_state in Hterm. simpl observed_stop in Hterm.
  destruct (found st) eqn:Hf.
  - destruct Hterm as (Hk1 & _ & _ & He).
    assert (Hne : firstn k candidates <> []).
    { rewrite <- Hd. intros E. rewrite E in Hd. destruct k; [lia |].
      destruct candidates; [simpl in Hk; lia | discriminate]. }
    rewrite Hd in Hmiss, Hlast.
    destruct (take_until_firstn matches candidates k ""%string Hne Hmiss
                (Hlast eq_refl)) as [E1 E2].
    rewrite E1, E2. auto.
  - destruct Hterm as (Hk1 & He).
    assert (Hall : digested st = candidates)
      by (rewrite Hd, Hk1; apply firstn_all).
    rewrite Hall in Hmiss.
    destruct (take_until_no_match matches candidates Hmiss) as [E1 E2].
    rewrite E1, E2, Hall. rewrite Hall in Hcount. auto.
Qed.


(** X2. A charset search on which [stop()] is never called digests the
    candidates in enumeration order up to and including the first one
    whose digest equals the target, and no further; it reports a match
    exactly when some candidate has the target digest, the text reported
    being that first candidate; otherwise it digests every candidate and
    ends with the forced 100% carrying no text. *)
Theorem charset_search_finds_first_preimage (hashlib : Hashlib)
    (custom_hash_function : option custom_fn) (RN : Q -> Q)
    (self : BruteForceWorker.t) :
  let candidates := enumerate (BruteForceWorker.char_set self)
                              (BruteForceWorker.min_length self)
                              (BruteForceWorker.max_length self) in
  let total := BruteForceWorker.total_combinations self in
  let target := BruteForceWorker.target_hash self in
  let matches text :=
    (digest hashlib custom_hash_function text (BruteForceWorker.hash_type self)
     =? target)%string in
  exists st,
    BruteForceWorker.run hashlib custom_hash_function RN self None = Return st
    /\ digested st = take_until matches candidates
    /\ found st = existsb matches candidates
    /\ emitted st
       = reports RN 10000 total 0 (digested st)
         ++ (if found st
             then [found_match (last (digested st) ""%string) target;
                   update_progress 100 (last (digested st) ""%string);
                   finished_task]
             else [update_progress 100 ""%string; finished_task]).
Proof.
  intros candidates total target matches.
  destruct (charset_run_first_match hashlib custom_hash_function RN self)
    as (st & Hrun & Hd & _ & Hrest).
  exists st. auto.
Qed.

(** ** The loop of the two file workers *)

Lemma observed_stop_reads (stop_after : option nat) (st st' : run_state) :
  reads st = reads st' ->
  observed_stop stop_after st = observed_stop stop_after st'.
Proof.
  unfold observed_stop. now intros ->.
Qed.

Lemma observed_after_read (stop_after : option nat) (st : run_state) :
  observed_stop stop_after st = true ->
  observed_stop stop_after (snd (read_running stop_after st)) = true.
Proof.
  unfold observed_stop. simpl. destruct stop_after as [n |]; auto.
  intros H. apply Nat.ltb_lt in H. apply Nat.ltb_lt. lia.
Qed.

Section FileScan.
Variable RN : Q -> Q.
Variable total : Z.
Variable stop_after : option nat.
Variable display : string -> string.
Variable digests : string -> list string.
Variable hit : string -> option (string * string).
Variable step : string -> run_state -> exc run_state.
Variable loop : list string -> run_state -> exc run_state.

Hypothesis step_eq :
  total <> 0 ->
  forall item st,
    step item st
    = Return (mk_state (tried_combinations st + 1)
                (match hit item with Some _ => true | None => found st end)
                (reads st)
                (emitted st
                 ++ report RN 1000 total (tried_combinations st + 1)
                           (display item)
                 ++ hit_tail (hit item))
                (digested st ++ digests item)).
Hypothesis loop_nil : forall st, loop [] st = Return st.
Hypothesis loop_cons :
  forall item rest st,
    loop (item :: rest) st
    = let (running, st) := read_running stop_after st in
      if negb running then Return st
      else st <- step item st ;;
           if found st then Return st else loop rest st.

Lemma file_loop_spec (items : list string) (st : run_state) :
  found st = false ->
  0 <= tried_combinations st ->
  tried_combinations st + Z.of_nat (List.length items) <= total ->
  exists st' k,
    loop items st = Return st'
    /\ (k <= List.length items)%nat
    /\ tried_combinations st' = tried_combinations st + Z.of_nat k
    /\ digested st' = digested st ++ flat_map digests (firstn k items)
    /\ emitted st'
       = emitted st
         ++ reports RN 1000 total (tried_combinations st)
                    (map display (firstn k items))
         ++ (if found st'
             then hit_tail (hit (last (firstn k items) ""%string))
             else [])
    /\ Forall (fun item => hit item = None)
              (if found st' then removelast (firstn k items)
               else firstn k items)
    /\ (found st' = true ->
        firstn k items <> []
        /\ hit (last (firstn k items) ""%string) <> None
        /\ observed_stop stop_after st' = false)
    /\ (found st' = false ->
        k = List.length items \/ observed_stop stop_after st' = true).
Proof.
  revert st. induction items as [|item rest IH]; intros st Hf H0 Hlen.
  - exists st, 0%nat. rewrite loop_nil. simpl. rewrite Hf, !app_nil_r.
    repeat split; auto; try lia; try discriminate.
  - rewrite loop_cons, read_running_eq.
    destruct (observed_stop stop_after (snd (read_running stop_after st)))
      eqn:Hobs; simpl negb; cbv iota.
    + eexists. exists 0%nat. split; [reflexivity |]. simpl.
      rewrite Hf, !app_nil_r.
      repeat split; auto; try lia; try discriminate.
    + assert (Htotal : total <> 0) by (simpl List.length in Hlen; lia).
      rewrite (step_eq Htotal). simpl bind. simpl found at 1.
      destruct (hit item) as [[plain hashed] |] eqn:Hh.
      * eexists. exists 1%nat. split; [reflexivity |]. simpl.
        rewrite Hh, !app_nil_r. simpl.
        repeat split; auto; try lia; try discriminate.
      * rewrite Hf.
        match goal with
        | |- exists st' k, loop rest ?s = _ /\ _ =>
            destruct (IH s)
              as (st2 & k & Hrun & Hk & Ht & Hd & He & Hm & Hy & Hn)
        end.
        { reflexivity. }
        { simpl. lia. }
        { simpl tried_combinations. simpl List.length in Hlen. lia. }
        simpl in Ht, Hd, He.
        exists st2, (S k). split; [exact Hrun |].
        split; [simpl; lia |]. split; [lia |].
        split; [simpl; rewrite Hd, <- !app_assoc; reflexivity |].
        simpl firstn. simpl map. simpl reports.
        destruct (found st2) eqn:Hf2.
        -- destruct (Hy eq_refl) as (Hne & Hhit & Ho).
           assert (Hlast : last (item :: firstn k rest) ""%string
                           = last (firstn k rest) ""%string)
             by (destruct (firstn k rest); [congruence | reflexivity]).
           assert (Hrem : removelast (item :: firstn k rest)
                          = item :: removelast (firstn k rest))
             by (destruct (firstn k rest); [congruence | reflexivity]).
           rewrite Hlast, Hrem.
           split; [rewrite He, app_nil_r, <- !app_assoc; reflexivity |].
           split; [constructor; assumption |].
           split; [intros _; repeat split; auto; discriminate | discriminate].
        -- split; [rewrite He, !app_nil_r, <- !app_assoc; reflexivity |].
           split; [constructor; assumption |].
           split; [discriminate |].
           intros _. destruct (Hn eq_refl) as [-> | Ho]; [left | right]; auto.
Qed.

(** The loop from the initial state, followed by the closing lines. *)
Lemma file_run_spec (items : list string) :
  total = Z.of_nat (List.length items) ->
  exists st k,
    (st0 <- loop items initial ;; Return (finish stop_after st0)) = Return st
    /\ (k <= List.length items)%nat
    /\ tried_combinations st = Z.of_nat k
    /\ digested st = flat_map digests (firstn k items)
    /\ Forall (fun item => hit item = None)
              (if found st then removelast (firstn k items)
               else firstn k items)
    /\ match terminal_state stop_after st with
       | Matched =>
           firstn k items <> []
           /\ hit (last (firstn k items) ""%string) <> None
           /\ emitted st
              = reports RN 1000 total 0 (map display (firstn k items))
                ++ hit_tail (hit (last (firstn k items) ""%string))
                ++ [finished_task]
       | Exhausted =>
           k = List.length items
           /\ emitted st
              = reports RN 1000 total 0 (map display items)
                ++ [update_progress 100 ""%string; finished_task]
       | Cancelled =>
           emitted st
           = reports RN 1000 total 0 (map display (firstn k items))
             ++ [finished_task]
       end.
Proof.
  intros Htotal.
  destruct (file_loop_spec items initial)
    as (st & k & Hrun & Hk & Ht & Hd & He & Hm & Hy & Hn);
    [reflexivity | simpl; lia | simpl; lia |].
  rewrite Hrun. simpl bind. simpl in Ht, Hd, He.
  eexists. exists k. split; [reflexivity |]. split; [exact Hk |].
  rewrite found_finish, digested_finish.
  unfold terminal_state. rewrite found_finish.
  unfold finish. destruct (found st) eqn:Hf; simpl negb; cbv iota.
  - simpl. split; [lia |]. split; [exact Hd |]. split; [exact Hm |].
    destruct (Hy eq_refl) as (Hne & Hhit & _).
    split; [exact Hne |]. split; [exact Hhit |].
    rewrite He, <- app_assoc. reflexivity.
  - rewrite read_running_eq.
    destruct (observed_stop stop_after (snd (read_running stop_after st)))
      eqn:Hobs; simpl negb; cbv iota.
    + rewrite (observed_stop_reads stop_after _
                 (snd (read_running stop_after st))) by reflexivity.
      rewrite Hobs. simpl.
      split; [lia |]. split; [exact Hd |]. split; [exact Hm |].
      rewrite He, app_nil_r. reflexivity.
    + rewrite (observed_stop_reads stop_after _
                 (snd (read_running stop_after st))) by reflexivity.
      rewrite Hobs. simpl.
      split; [lia |]. split; [exact Hd |]. split; [exact Hm |].
      assert (Ek : k = List.length items).
      { destruct (Hn eq_refl) as [E | Ho]; [exact E |].
        apply observed_after_read in Ho. congruence. }
      split; [exact Ek |].
      rewrite He, app_nil_r, <- app_assoc, Ek, firstn_all. reflexivity.
Qed.

End FileScan.

(** ** The dictionary search *)

Lemma dictionary_try_line_eq (hashlib : Hashlib)
    (custom_hash_function : option custom_fn) (RN : Q -> Q)
    (self : DictionaryBruteForceWorker.t) (total_lines : Z) :
  total_lines <> 0 ->
  forall line st,
    DictionaryBruteForceWorker.try_line hashlib custom_hash_function RN self
      total_lines line st
    = Return
        (mk_state (tried_combinations st + 1)
           (match dictionary_hit hashlib custom_hash_function self line with
            | Some _ => true
            | None => found st
            end)
           (reads st)
           (emitted st
            ++ report RN 1000 total_lines (tried_combinations st + 1)
                      (Str.strip line)
            ++ hit_tail (dictionary_hit hashlib custom_hash_function self line))
           (digested st ++ dictionary_digests line)).
Proof.
  intros Htotal line st.
  unfold DictionaryBruteForceWorker.try_line, dictionary_hit,
    dictionary_digests, report.
  simpl tried_combinations. rewrite get_hash_digest.
  set (h := digest hashlib custom_hash_function (Str.strip line)
                   (DictionaryBruteForceWorker.hash_type self)).
  destruct (((tried_combinations st + 1) mod 1000 =? 0)
            || (tried_combinations st + 1 =? total_lines)).
  - rewrite progress_percent_eq by exact Htotal. simpl.
    destruct (Str.is_empty (Str.strip line)); simpl;
      [now rewrite !app_nil_r |].
    destruct (h =? DictionaryBruteForceWorker.target_hash self)%string;
      unfold set_found, emit, log_digest; simpl;
      rewrite ?app_nil_r, <- ?app_assoc; reflexivity.
  - simpl.
    destruct (Str.is_empty (Str.strip line)); simpl;
      [now rewrite !app_nil_r |].
    destruct (h =? DictionaryBruteForceWorker.target_hash self)%string;
      unfold set_found, emit, log_digest; simpl;
      rewrite ?app_nil_r, <- ?app_assoc; reflexivity.
Qed.

Lemma dictionary_run_spec (hashlib : Hashlib)
    (custom_hash_function : option custom_fn) (RN : Q -> Q)
    (open_lines : string -> exc (list string))
    (self : DictionaryBruteForceWorker.t) (stop_after : option nat)
    (lines : list string) :
  open_lines (DictionaryBruteForceWorker.dictionary_path self) = Return lines ->
  let total := Z.of_nat (List.length lines) in
  let hit := dictionary_hit hashlib custom_hash_function self in
  exists st k,
    DictionaryBruteForceWorker.run hashlib custom_hash_function RN open_lines
      self stop_after = Return st
    /\ (k <= List.length lines)%nat
    /\ tried_combinations st = Z.of_nat k
    /\ digested st = flat_map dictionary_digests (firstn k lines)
    /\ Forall (fun line => hit line = None)
              (if found st then removelast (firstn k lines)
               else firstn k lines)
    /\ match terminal_state stop_after st with
       | Matched =>
           firstn k lines <> []
           /\ hit (last (firstn k lines) ""%string) <> None
           /\ emitted st
              = reports RN 1000 total 0 (map Str.strip (firstn k lines))
                ++ hit_tail (hit (last (firstn k lines) ""%string))
                ++ [finished_task]
       | Exhausted =>
           k = List.length lines
           /\ emitted st
              = reports RN 1000 total 0 (map Str.strip lines)
                ++ [update_progress 100 ""%string; finished_task]
       | Cancelled =>
           emitted st
           = reports RN 1000 total 0 (map Str.strip (firstn k lines))
             ++ [finished_task]
       end.
Proof.
  intros Hopen total hit.
  unfold DictionaryBruteForceWorker.run. rewrite Hopen. simpl bind.
  rewrite dictionary_count_lines_length. fold total.
  apply (file_run_spec RN total stop_after Str.strip dictionary_digests hit
           (DictionaryBruteForceWorker.try_line hashlib custom_hash_function
              RN self total)
           (DictionaryBruteForceWorker.lines_loop hashlib custom_hash_function
              RN self stop_after total)).
  - intros Htotal. now apply dictionary_try_line_eq.
  - reflexivity.
  - reflexivity.
  - reflexivity.
Qed.

Lemma dictionary_candidates_flat_map (lines : list string) :
  flat_map dictionary_digests lines = dictionary_candidates lines.
Proof.
  unfold dictionary_candidates, dictionary_digests.
  induction lines as [|line lines IH]; simpl; [reflexivity |].
  destruct (Str.is_empty (Str.strip line)); simpl; now rewrite IH.
Qed.

Section DictionaryFirstMatch.
Variable hashlib : Hashlib.
Variable custom_hash_function : option custom_fn.
Variable self : DictionaryBruteForceWorker.t.

Let matches (text : string) : bool :=
  (digest hashlib custom_hash_function text
          (DictionaryBruteForceWorker.hash_type self)
   =? DictionaryBruteForceWorker.target_hash self)%string.

Lemma dictionary_misses (lines : list string) :
  Forall (fun line => dictionary_hit hashlib custom_hash_function self line
                      = None) lines ->
  Forall (fun text => matches text = false) (flat_map dictionary_digests lines).
Proof.
  induction 1 as [|line lines Hline Hlines IH]; simpl; [constructor |].
  apply Forall_app. split; [| exact IH].
  unfold dictionary_hit, dictionary_digests in *.
  destruct (Str.is_empty (Str.strip line)); [constructor |].
  constructor; [| constructor].
  unfold matches. destruct (_ =? _)%string; [discriminate | reflexivity].
Qed.

Lemma dictionary_hit_inv (line : string) :
  dictionary_hit hashlib custom_hash_function self line <> None ->
  dictionary_hit hashlib custom_hash_function self line
  = Some (Str.strip line, DictionaryBruteForceWorker.target_hash self)
  /\ dictionary_digests line = [Str.strip line]
  /\ matches (Str.strip line) = true.
Proof.
  unfold dictionary_hit, dictionary_digests, matches.
  destruct (Str.is_empty (Str.strip line)); [congruence |].
  destruct (String.eqb_spec
              (digest hashlib custom_hash_function (Str.strip line)
                      (DictionaryBruteForceWorker.hash_type self))
              (DictionaryBruteForceWorker.target_hash self)) as [E | E];
    [| congruence].
  intros _. rewrite E. auto.
Qed.

End DictionaryFirstMatch.

Lemma flat_map_removelast_last {A B : Type} (f : A -> list B) (l : list A)
    (d : A) :
  l <> [] -> flat_map f l = flat_map f (removelast l) ++ f (last l d).
Proof.
  intros Hne. rewrite (app_removelast_last d Hne) at 1.
  rewrite flat_map_app. simpl. now rewrite app_nil_r.
Qed.

(** X3. Once the word list has been opened, a dictionary search on which
    [stop()] is never called returns; the texts it digests are the
    stripped non-blank lines, in file order, up to and including the first
    one whose digest equals the target; it reports a match exactly when
    such a line exists, with that line's text; otherwise it digests every
    candidate and ends with the forced 100% carrying no text. *)
Theorem dictionary_search_finds_first_match (hashlib : Hashlib)
    (custom_hash_function : option custom_fn) (RN : Q -> Q)
    (open_lines : string -> exc (list string))
    (self : DictionaryBruteForceWorker.t) (lines : list string) :
  open_lines (DictionaryBruteForceWorker.dictionary_path self) = Return lines ->
  let target := DictionaryBruteForceWorker.target_hash self in
  let matches text :=
    (digest hashlib custom_hash_function text
            (DictionaryBruteForceWorker.hash_type self) =? target)%string in
  exists st,
    DictionaryBruteForceWorker.run hashlib custom_hash_function RN open_lines
      self None = Return st
    /\ digested st = take_until matches (dictionary_candidates lines)
    /\ found st = existsb matches (dictionary_candidates lines)
    /\ exists k,
         (k <= List.length lines)%nat
         /\ emitted st
            = reports RN 1000 (Z.of_nat (List.length lines)) 0
                      (map Str.strip (firstn k lines))
              ++ (if found st
                  then [found_match (last (digested st) ""%string) target;
                        update_progress 100 (last (digested st) ""%string);
                        finished_task]
                  else [update_progress 100 ""%string; finished_task]).
Proof.
  intros Hopen target matches.
  destruct (dictionary_run_spec hashlib custom_hash_function RN open_lines
              self None lines Hopen)
    as (st & k & Hrun & Hk & _ & Hd & Hmiss & Hterm).
  exists st. split; [exact Hrun |].
  unfold terminal_state in Hterm. simpl observed_stop in Hterm.
  rewrite <- dictionary_candidates_flat_map.
  destruct (found st) eqn:Hf.
  - destruct Hterm as (Hne & Hhit & He).
    apply dictionary_hit_inv in Hhit as (Hh & Hdig & Hm).
    apply dictionary_misses in Hmiss.
    rewrite (flat_map_removelast_last _ _ ""%string Hne), Hdig in Hd.
    assert (Hall : flat_map dictionary_digests lines
                   = flat_map dictionary_digests (removelast (firstn k lines))
                     ++ Str.strip (last (firstn k lines) ""%string)
                     :: flat_map dictionary_digests (skipn k lines)).
    { rewrite <- (firstn_skipn k lines) at 1.
      rewrite flat_map_app, (flat_map_removelast_last _ _ ""%string Hne), Hdig.
      now rewrite <- app_assoc. }
    destruct (take_until_match matches _
                (flat_map dictionary_digests (skipn k lines)) _ Hmiss Hm)
      as [E1 E2].
    rewrite Hall, E1, E2, Hd.
    split; [reflexivity |]. split; [reflexivity |].
    exists k. split; [exact Hk |].
    rewrite He, Hh, last_last. reflexivity.
  - destruct Hterm as (Ek & He).
    rewrite Ek, firstn_all in Hd, Hmiss.
    apply dictionary_misses in Hmiss.
    destruct (take_until_no_match matches _ Hmiss) as [E1 E2].
    rewrite E1, E2. split; [exact Hd |]. split; [reflexivity |].
    exists k. split; [exact Hk |]. rewrite Ek, firstn_all. exact He.
Qed.

Lemma dictionary_search_finds_first_match_witness :
  exists st,
    DictionaryBruteForceWorker.run symbolic_hashlib None (fun q => q)
      (file_of [("password" ++ LF)%string; LF; ("123456" ++ LF)%string])
      (DictionaryBruteForceWorker.init "MD5" "MD5:123456" "words.txt") None
    = Return st
    /\ digested st = ["password"; "123456"]%string
    /\ found st = true.
Proof.
  destruct (dictionary_search_finds_first_match symbolic_hashlib None
              (fun q => q)
              (file_of [("password" ++ LF)%string; LF; ("123456" ++ LF)%string])
              (DictionaryBruteForceWorker.init "MD5" "MD5:123456" "words.txt")
              _ eq_refl)
    as (st & Hrun & Hd & Hf & _).
  exists st. split; [exact Hrun |]. split; [exact Hd | exact Hf].
Defined.

(** ** The rainbow lookup *)

Lemma rainbow_try_line_eq (RN : Q -> Q) (self : RainbowTableWorker.t)
    (total_lines : Z) :
  total_lines <> 0 ->
  forall line st,
    RainbowTableWorker.try_line RN self total_lines line st
    = Return
        (mk_state (tried_combinations st + 1)
           (match rainbow_hit self line with
            | Some _ => true
            | None => found st
            end)
           (reads st)
           (emitted st
            ++ report RN 1000 total_lines (tried_combinations st + 1)
                      (Str.strip line)
            ++ hit_tail (rainbow_hit self line))
           (digested st ++ [])).
Proof.
  intros Htotal line st. rewrite app_nil_r.
  destruct (Str.mem ":" (Str.strip line)) eqn:Hmem.
  - destruct (mem_split1 _ _ Hmem) as (d & p & Hline & Hd).
    rewrite (rainbow_try_line_entry RN self _ _ d p st Htotal Hline Hd).
    unfold rainbow_hit, rainbow_entry.
    rewrite contains_colon, Hmem, Hline, (split1_first _ _ _ Hd).
    replace (Str.is_empty (d ++ String ":" p)) with false
      by (destruct d; reflexivity).
    simpl negb. cbv iota.
    destruct (Str.lower d =? RainbowTableWorker.target_hash self)%string;
      simpl; rewrite ?app_nil_r, <- ?app_assoc; reflexivity.
  - rewrite (rainbow_try_line_skip RN self _ _ st Htotal Hmem).
    unfold rainbow_hit, rainbow_entry. rewrite contains_colon, Hmem.
    destruct (Str.is_empty (Str.strip line)); simpl;
      rewrite app_nil_r; reflexivity.
Qed.

Lemma rainbow_run_spec (RN : Q -> Q) (open_lines : string -> exc (list string))
    (self : RainbowTableWorker.t) (stop_after : option nat)
    (lines : list string) :
  open_lines (RainbowTableWorker.rainbow_path self) = Return lines ->
  let total := Z.of_nat (List.length lines) in
  let hit := rainbow_hit self in
  exists st k,
    RainbowTableWorker.run RN open_lines self stop_after = Return st
    /\ (k <= List.length lines)%nat
    /\ tried_combinations st = Z.of_nat k
    /\ digested st = flat_map (fun _ => []) (firstn k lines)
    /\ Forall (fun line => hit line = None)
              (if found st then removelast (firstn k lines)
               else firstn k lines)
    /\ match terminal_state stop_after st with
       | Matched =>
           firstn k lines <> []
           /\ hit (last (firstn k lines) ""%string) <> None
           /\ emitted st
              = reports RN 1000 total 0 (map Str.strip (firstn k lines))
                ++ hit_tail (hit (last (firstn k lines) ""%string))
                ++ [finished_task]
       | Exhausted =>
           k = List.length lines
           /\ emitted st
              = reports RN 1000 total 0 (map Str.strip lines)
                ++ [update_progress 100 ""%string; finished_task]
       | Cancelled =>
           emitted st
           = reports RN 1000 total 0 (map Str.strip (firstn k lines))
             ++ [finished_task]
       end.
Proof.
  intros Hopen total hit.
  unfold RainbowTableWorker.run. rewrite Hopen. simpl bind.
  rewrite count_lines_length. fold total.
  apply (file_run_spec RN total stop_after Str.strip (fun _ => []) hit
           (RainbowTableWorker.try_line RN self total)
           (RainbowTableWorker.lines_loop RN self stop_after total)).
  - intros Htotal. now apply rainbow_try_line_eq.
  - reflexivity.
  - reflexivity.
  - reflexivity.
Qed.

Section RainbowFirstEntry.
Variable self : RainbowTableWorker.t.

Let wanted (entry : string * string) : bool :=
  (fst entry =? RainbowTableWorker.target_hash self)%string.

Lemma rainbow_entries_app (l1 l2 : list string) :
  rainbow_entries (l1 ++ l2) = rainbow_entries l1 ++ rainbow_entries l2.
Proof.
  apply flat_map_app.
Qed.

Lemma rainbow_misses (lines : list string) (rest : list (string * string)) :
  Forall (fun line => rainbow_hit self line = None) lines ->
  find wanted (rainbow_entries lines ++ rest) = find wanted rest.
Proof.
  induction 1 as [|line lines Hline Hlines IH]; [reflexivity |].
  unfold rainbow_entries in *. simpl. unfold rainbow_hit in Hline.
  destruct (rainbow_entry line) as [[d p] |]; simpl; [| exact IH].
  unfold wanted at 1. simpl.
  destruct (d =? RainbowTableWorker.target_hash self)%string;
    [discriminate | exact IH].
Qed.

Lemma rainbow_hit_inv (line : string) :
  rainbow_hit self line <> None ->
  exists plaintext,
    rainbow_hit self line
    = Some (plaintext, RainbowTableWorker.target_hash self)
    /\ forall rest,
         find wanted (rainbow_entries [line] ++ rest)
         = Some (RainbowTableWorker.target_hash self, plaintext).
Proof.
  unfold rainbow_hit, rainbow_entries. simpl.
  destruct (rainbow_entry line) as [[d p] |]; [| congruence].
  destruct (String.eqb_spec d (RainbowTableWorker.target_hash self))
    as [E | E]; [| congruence].
  intros _. exists p. subst d. split; [reflexivity |].
  intros rest. simpl. unfold wanted. simpl. now rewrite String.eqb_refl.
Qed.

End RainbowFirstEntry.

(** X4. Once the table has been opened, a rainbow lookup on which
    [stop()] is never called returns without calling any hash function;
    it reports a match exactly when some entry of the table has the
    target as its lowercased digest, and the plaintext it reports is that
    of the first such entry in file order; otherwise it ends with the
    forced 100% carrying no text. *)
Theorem rainbow_lookup_finds_first_entry (RN : Q -> Q)
    (open_lines : string -> exc (list string))
    (self : RainbowTableWorker.t) (lines : list string) :
  open_lines (RainbowTableWorker.rainbow_path self) = Return lines ->
  let target := RainbowTableWorker.target_hash self in
  let total := Z.of_nat (List.length lines) in
  exists st,
    RainbowTableWorker.run RN open_lines self None = Return st
    /\ digested st = []
    /\ match find (fun entry => (fst entry =? target)%string)
                  (rainbow_entries lines) with
       | Some (stored_hash, plaintext) =>
           found st = true
           /\ exists k,
                (k <= List.length lines)%nat
                /\ emitted st
                   = reports RN 1000 total 0 (map Str.strip (firstn k lines))
                     ++ [found_match plaintext target;
                         update_progress 100 plaintext;
                         finished_task]
       | None =>
           found st = false
           /\ emitted st
              = reports RN 1000 total 0 (map Str.strip lines)
                ++ [update_progress 100 ""%string; finished_task]
       end.
Proof.
  intros Hopen target total.
  destruct (rainbow_run_spec RN open_lines self None lines Hopen)
    as (st & k & Hrun & Hk & _ & Hd & Hmiss & Hterm).
  exists st. split; [exact Hrun |].
  split.
  { rewrite Hd. generalize (firstn k lines). intros l.
    induction l; simpl; auto. }
  unfold terminal_state in Hterm. simpl observed_stop in Hterm.
  destruct (found st) eqn:Hf.
  - destruct Hterm as (Hne & Hhit & He).
    destruct (rainbow_hit_inv self _ Hhit) as (plaintext & Hh & Hfind).
    assert (Efind : find (fun entry => (fst entry =? target)%string)
                         (rainbow_entries lines)
                    = Some (target, plaintext)).
    { rewrite <- (firstn_skipn k lines).
      rewrite (app_removelast_last ""%string Hne).
      rewrite <- app_assoc, !rainbow_entries_app.
      rewrite (rainbow_misses self _ _ Hmiss). apply Hfind. }
    rewrite Efind.
    split; [reflexivity |]. exists k. split; [exact Hk |].
    rewrite He, Hh. reflexivity.
  - destruct Hterm as (Ek & He).
    rewrite Ek, firstn_all in Hmiss.
    assert (Efind : find (fun entry => (fst entry =? target)%string)
                         (rainbow_entries lines)
                    = None).
    { rewrite <- (app_nil_r (rainbow_entries lines)).
      now rewrite (rainbow_misses self _ _ Hmiss). }
    rewrite Efind. split; [reflexivity | exact He].
Qed.

Lemma rainbow_lookup_finds_first_entry_witness :
  exists st,
    RainbowTableWorker.run (fun q => q)
      (file_of ["no colon here"; "AB12:first"; "ab12:second"]%string)
      (RainbowTableWorker.init "Ab12" "table.txt") None
    = Return st
    /\ In (found_match "first" "ab12") (emitted st).
Proof.
  destruct (rainbow_lookup_finds_first_entry (fun q => q)
              (file_of ["no colon here"; "AB12:first"; "ab12:second"]%string)
              (RainbowTableWorker.init "Ab12" "table.txt") _ eq_refl)
    as (st & Hrun & _ & Hfind).
  exists st. split; [exact Hrun |].
  simpl in Hfind. destruct Hfind as (_ & k & _ & He).
  rewrite He. apply in_or_app. right. now left.
Defined.

(** ** The progress protocol of the file workers *)

Lemma reports_sorted_within (RN : Q -> Q) (total : Z) (texts : list string) :
  (forall x y : Q, (x <= y)%Q -> (RN x <= RN y)%Q) ->
  Z.of_nat (List.length texts) <= total ->
  StronglySorted Z.le (percents (reports RN 1000 total 0 texts)).
Proof.
  intros HRN Hlen. destruct texts as [|text texts]; [constructor |].
  apply reports_sorted; [exact HRN | simpl List.length in Hlen; lia].
Qed.

Lemma file_protocol (RN : Q -> Q) (stop_after : option nat)
    (hit : string -> option (string * string)) (lines : list string)
    (st : run_state) (k : nat) :
  (forall x y : Q, (x <= y)%Q -> (RN x <= RN y)%Q) ->
  (k <= List.length lines)%nat ->
  let total := Z.of_nat (List.length lines) in
  match terminal_state stop_after st with
  | Matched =>
      firstn k lines <> []
      /\ hit (last (firstn k lines) ""%string) <> None
      /\ emitted st
         = reports RN 1000 total 0 (map Str.strip (firstn k lines))
           ++ hit_tail (hit (last (firstn k lines) ""%string))
           ++ [finished_task]
  | Exhausted =>
      k = List.length lines
      /\ emitted st
         = reports RN 1000 total 0 (map Str.strip lines)
           ++ [update_progress 100 ""%string; finished_task]
  | Cancelled =>
      emitted st
      = reports RN 1000 total 0 (map Str.strip (firstn k lines))
        ++ [finished_task]
  end ->
  progress_protocol stop_after st.
Proof.
  intros HRN Hk total Hterm. unfold progress_protocol.
  assert (Hsorted : forall n,
             StronglySorted Z.le
               (percents (reports RN 1000 total 0
                                  (map Str.strip (firstn n lines))))).
  { intros n. apply reports_sorted_within; [exact HRN |].
    rewrite length_map, length_firstn. unfold total. lia. }
  destruct (terminal_state stop_after st) eqn:T.
  - destruct Hterm as (_ & Hhit & He).
    destruct (hit (last (firstn k lines) ""%string)) as [[plain hashed] |];
      [| congruence].
    simpl in He. rewrite He, percents_app. simpl.
    split; [| split; [| split]].
    + apply StronglySorted_Sorted, sorted_then_100;
        [apply Hsorted | apply percents_reports_le_100].
    + intros _. apply last_last.
    + discriminate.
    + exists (reports RN 1000 total 0 (map Str.strip (firstn k lines))
              ++ [found_match plain hashed; update_progress 100 plain]).
      split; [now rewrite <- app_assoc |].
      intros H. apply in_app_iff in H as [H | H].
      * now apply no_finished_in_reports in H.
      * simpl in H. intuition discriminate.
  - destruct Hterm as (Ek & He).
    rewrite He, percents_app. simpl.
    split; [| split; [| split]].
    + apply StronglySorted_Sorted, sorted_then_100;
        [| apply percents_reports_le_100].
      rewrite <- (firstn_all lines). apply Hsorted.
    + intros _. apply last_last.
    + discriminate.
    + exists (reports RN 1000 total 0 (map Str.strip lines)
              ++ [update_progress 100 ""%string]).
      split; [now rewrite <- app_assoc |].
      intros H. apply in_app_iff in H as [H | H].
      * now apply no_finished_in_reports in H.
      * simpl in H. intuition discriminate.
  - rewrite Hterm, percents_app. simpl. rewrite app_nil_r.
    split; [| split; [| split]].
    + apply StronglySorted_Sorted, Hsorted.
    + congruence.
    + intros _ text hashed H. apply in_app_iff in H as [H | H].
      * now apply no_found_in_reports in H.
      * simpl in H. intuition discriminate.
    + eexists. split; [reflexivity |]. apply no_finished_in_reports.
Qed.

(** X5. With a monotone rounding, and once the file has been opened, a
    run of [DictionaryBruteForceWorker] or of [RainbowTableWorker] returns
    (the percentage is never computed with a total of zero) and follows the
    protocol: the counter does not exceed the number of lines, percentages
    never decrease, the last one is 100 unless the run was cancelled, a
    cancelled run reports no match, and [finished_task] is emitted exactly
    once, as the last signal. *)
Theorem file_workers_follow_progress_protocol (hashlib : Hashlib)
    (custom_hash_function : option custom_fn) (RN : Q -> Q)
    (open_lines : string -> exc (list string)) (stop_after : option nat)
    (lines : list string) :
  (forall x y : Q, (x <= y)%Q -> (RN x <= RN y)%Q) ->
  (forall self,
      open_lines (DictionaryBruteForceWorker.dictionary_path self)
      = Return lines ->
      exists st,
        DictionaryBruteForceWorker.run hashlib custom_hash_function RN
          open_lines self stop_after = Return st
        /\ tried_combinations st <= Z.of_nat (List.length lines)
        /\ progress_protocol stop_after st)
  /\ (forall self,
         open_lines (RainbowTableWorker.rainbow_path self) = Return lines ->
         exists st,
           RainbowTableWorker.run RN open_lines self stop_after = Return st
           /\ tried_combinations st <= Z.of_nat (List.length lines)
           /\ progress_protocol stop_after st).
Proof.
  intros HRN. split; intros self Hopen.
  - destruct (dictionary_run_spec hashlib custom_hash_function RN open_lines
                self stop_after lines Hopen)
      as (st & k & Hrun & Hk & Ht & _ & _ & Hterm).
    exists st. split; [exact Hrun |]. split; [lia |].
    now apply (file_protocol RN stop_after
                 (dictionary_hit hashlib custom_hash_function self) lines st k).
  - destruct (rainbow_run_spec RN open_lines self stop_after lines Hopen)
      as (st & k & Hrun & Hk & Ht & _ & _ & Hterm).
    exists st. split; [exact Hrun |]. split; [lia |].
    now apply (file_protocol RN stop_after (rainbow_hit self) lines st k).
Qed.

Lemma file_workers_follow_progress_protocol_witness :
  exists st,
    DictionaryBruteForceWorker.run symbolic_hashlib None (fun q => q)
      (file_of blank_1000th)
      (DictionaryBruteForceWorker.init "MD5" "md5:y" "words.txt") (Some 1001%nat)
    = Return st
    /\ progress_protocol (Some 1001%nat) st.
Proof.
  destruct (proj1 (file_workers_follow_progress_protocol symbolic_hashlib None
                     (fun q => q) (file_of blank_1000th) (Some 1001%nat)
                     blank_1000th (fun x y H => H))
                  (DictionaryBruteForceWorker.init "MD5" "md5:y" "words.txt")
                  eq_refl)
    as (st & Hrun & _ & Hp).
  exists st. split; [exact Hrun | exact Hp].
Defined.

(** ** The window after a run *)

Lemma deliver_le_100 (window : Slots.t) (s : signal) :
  Slots.progress_bar window <= 100 ->
  Slots.progress_bar (deliver window s) <= 100.
Proof.
  intros H. destruct s as [value text | text hashed |]; simpl.
  - unfold Slots.setValue.
    destruct (Z.ltb_spec value 0), (Z.ltb_spec 100 value); simpl; lia.
  - exact H.
  - destruct (Z.ltb_spec (Slots.progress_bar window) 100); simpl; lia.
Qed.

Lemma deliver_all_le_100 (events : list signal) (window : Slots.t) :
  Slots.progress_bar window <= 100 ->
  Slots.progress_bar (fold_left deliver events window) <= 100.
Proof.
  revert window. induction events as [|s events IH]; intros window H; simpl.
  - exact H.
  - apply IH. now apply deliver_le_100.
Qed.

Lemma settled_after_finished (before : list signal) (window : Slots.t) :
  Slots.progress_bar window <= 100 ->
  let window' := fold_left deliver (before ++ [finished_task]) window in
  Slots.progress_bar window' = 100
  /\ Slots.start_button window' = true
  /\ Slots.stop_button window' = false
  /\ last (Slots.results window') Slots.MatchFound = Slots.Completed.
Proof.
  intros H. rewrite fold_left_app. simpl.
  pose proof (deliver_all_le_100 before window H) as Hle.
  set (w := fold_left deliver before window) in *.
  unfold Slots.finished_task, Slots.append. simpl.
  rewrite last_last. repeat split.
  destruct (Z.ltb_spec (Slots.progress_bar w) 100); simpl; lia.
Qed.

Lemma brute_run_ends_finished (hashlib : Hashlib)
    (custom_hash_function : option custom_fn) (RN : Q -> Q)
    (self : BruteForceWorker.t) (stop_after : option nat) :
  exists st before,
    BruteForceWorker.run hashlib custom_hash_function RN self stop_after
    = Return st
    /\ emitted st = before ++ [finished_task].
Proof.
  destruct (run_characterised hashlib custom_hash_function RN self stop_after)
    as (st & k & Hrun & _ & _ & _ & _ & Hterm).
  exists st.
  destruct (terminal_state stop_after st).
  - destruct Hterm as (_ & _ & _ & He). eexists. split; [exact Hrun |].
    rewrite He.
    change [found_match ?a ?b; ?c; finished_task]
      with ([found_match a b; c] ++ [finished_task]).
    now rewrite app_assoc.
  - destruct Hterm as (_ & He). eexists. split; [exact Hrun |].
    rewrite He.
    change [?c; finished_task] with ([c] ++ [finished_task]).
    now rewrite app_assoc.
  - eexists. split; [exact Hrun | exact Hterm].
Qed.

Lemma file_run_ends_finished (RN : Q -> Q) (stop_after : option nat)
    (hit : string -> option (string * string)) (lines : list string)
    (st : run_state) (k : nat) :
  let total := Z.of_nat (List.length lines) in
  match terminal_state stop_after st with
  | Matched =>
      firstn k lines <> []
      /\ hit (last (firstn k lines) ""%string) <> None
      /\ emitted st
         = reports RN 1000 total 0 (map Str.strip (firstn k lines))
           ++ hit_tail (hit (last (firstn k lines) ""%string))
           ++ [finished_task]
  | Exhausted =>
      k = List.length lines
      /\ emitted st
         = reports RN 1000 total 0 (map Str.strip lines)
           ++ [update_progress 100 ""%string; finished_task]
  | Cancelled =>
      emitted st
      = reports RN 1000 total 0 (map Str.strip (firstn k lines))
        ++ [finished_task]
  end ->
  exists before, emitted st = before ++ [finished_task].
Proof.
  intros total Hterm. destruct (terminal_state stop_after st).
  - destruct Hterm as (_ & _ & He). eexists. rewrite He.
    now rewrite !app_assoc.
  - destruct Hterm as (_ & He). eexists. rewrite He.
    change [?c; finished_task] with ([c] ++ [finished_task]).
    now rewrite app_assoc.
  - eexists. exact Hterm.
Qed.

(** X6. Whatever the run of a worker was (matched, exhausted or
    cancelled), once its signals have been delivered to the window the
    progress bar shows 100, the start button is enabled and the stop button
    disabled, and the last line of the results pane is the completion
    line: [finished_task] forces the bar to 100 even after a cancellation. *)
Theorem window_settles_at_100_after_any_run (hashlib : Hashlib)
    (custom_hash_function : option custom_fn) (RN : Q -> Q)
    (open_lines : string -> exc (list string)) (stop_after : option nat)
    (window : Slots.t) :
  Slots.progress_bar window <= 100 ->
  let settled events :=
    let window' := fold_left deliver events window in
    Slots.progress_bar window' = 100
    /\ Slots.start_button window' = true
    /\ Slots.stop_button window' = false
    /\ last (Slots.results window') Slots.MatchFound = Slots.Completed in
  (forall self,
      exists st,
        BruteForceWorker.run hashlib custom_hash_function RN self stop_after
        = Return st
        /\ settled (emitted st))
  /\ (forall self lines,
         open_lines (DictionaryBruteForceWorker.dictionary_path self)
         = Return lines ->
         exists st,
           DictionaryBruteForceWorker.run hashlib custom_hash_function RN
             open_lines self stop_after = Return st
           /\ settled (emitted st))
  /\ (forall self lines,
         open_lines (RainbowTableWorker.rainbow_path self) = Return lines ->
         exists st,
           RainbowTableWorker.run RN open_lines self stop_after = Return st
           /\ settled (emitted st)).
Proof.
  intros Hw settled. split; [| split].
  - intros self.
    destruct (brute_run_ends_finished hashlib custom_hash_function RN self
                stop_after) as (st & before & Hrun & He).
    exists st. split; [exact Hrun |]. unfold settled. rewrite He.
    now apply settled_after_finished.
  - intros self lines Hopen.
    destruct (dictionary_run_spec hashlib custom_hash_function RN open_lines
                self stop_after lines Hopen)
      as (st & k & Hrun & _ & _ & _ & _ & Hterm).
    apply file_run_ends_finished in Hterm as [before He].
    exists st. split; [exact Hrun |]. unfold settled. rewrite He.
    now apply settled_after_finished.
  - intros self lines Hopen.
    destruct (rainbow_run_spec RN open_lines self stop_after lines Hopen)
      as (st & k & Hrun & _ & _ & _ & _ & Hterm).
    apply file_run_ends_finished in Hterm as [before He].
    exists st. split; [exact Hrun |]. unfold settled. rewrite He.
    now apply settled_after_finished.
Qed.

Lemma window_settles_at_100_after_any_run_witness :
  exists st,
    BruteForceWorker.run symbolic_hashlib None (fun q => q)
      (BruteForceWorker.init "MD5" "MD5:BA" "ab" 1 2) (Some 3%nat) = Return st
    /\ Slots.progress_bar (fold_left deliver (emitted st) started_window) = 100.
Proof.
  destruct (proj1 (window_settles_at_100_after_any_run symbolic_hashlib None
                     (fun q => q) (file_of []) (Some 3%nat) started_window
                     ltac:(simpl; lia))
                  (BruteForceWorker.init "MD5" "MD5:BA" "ab" 1 2))
    as (st & Hrun & Hbar & _).
  exists st. split; [exact Hrun | exact Hbar].
Defined.

(** ** The searches of the command line *)

Section TakeUntilApp.
Context {A : Type}.
Variable p : A -> bool.

Lemma take_until_miss (l : list A) :
  existsb p l = false -> take_until p l = l.
Proof.
  induction l as [|x l IH]; simpl; [reflexivity |].
  destruct (p x); simpl; [discriminate |]. intros H. now rewrite IH.
Qed.

Lemma take_until_app_miss (l1 l2 : list A) :
  existsb p l1 = false -> take_until p (l1 ++ l2) = l1 ++ take_until p l2.
Proof.
  induction l1 as [|x l1 IH]; simpl; [reflexivity |].
  destruct (p x); simpl; [discriminate |]. intros H. now rewrite IH.
Qed.

Lemma take_until_app_hit (l1 l2 : list A) :
  existsb p l1 = true -> take_until p (l1 ++ l2) = take_until p l1.
Proof.
  induction l1 as [|x l1 IH]; simpl; [discriminate |].
  destruct (p x); simpl; [reflexivity |]. intros H. now rewrite IH.
Qed.

Lemma take_until_ext (q : A -> bool) (l : list A) :
  (forall x, p x = q x) ->
  take_until p l = take_until q l /\ existsb p l = existsb q l.
Proof.
  intros E. induction l as [|x l [IH1 IH2]]; simpl; [auto |].
  rewrite <- E, IH1, IH2. auto.
Qed.

Lemma take_until_map {B : Type} (f : B -> A) (l : list B) :
  take_until p (map f l) = map f (take_until (fun x => p (f x)) l)
  /\ existsb p (map f l) = existsb (fun x => p (f x)) l.
Proof.
  induction l as [|x l [IH1 IH2]]; simpl; [auto |].
  rewrite IH1, IH2. destruct (p (f x)); auto.
Qed.

End TakeUntilApp.

Section FirstHit.
Context {A : Type}.
Variable hit : A -> option (string * string).

Lemma first_hit_miss (l : list A) :
  existsb (is_hit hit) l = false -> first_hit hit l = None.
Proof.
  induction l as [|x l IH]; simpl; [reflexivity |].
  unfold is_hit at 1. destruct (hit x); simpl; [discriminate | exact IH].
Qed.

Lemma first_hit_app_miss (l1 l2 : list A) :
  existsb (is_hit hit) l1 = false ->
  first_hit hit (l1 ++ l2) = first_hit hit l2.
Proof.
  induction l1 as [|x l1 IH]; simpl; [reflexivity |].
  unfold is_hit at 1. destruct (hit x); simpl; [discriminate | exact IH].
Qed.

Lemma first_hit_app_hit (l1 l2 : list A) :
  existsb (is_hit hit) l1 = true ->
  first_hit hit (l1 ++ l2) = first_hit hit l1.
Proof.
  induction l1 as [|x l1 IH]; simpl; [discriminate |].
  unfold is_hit at 1. destruct (hit x); simpl; [reflexivity | exact IH].
Qed.

(** The first match is the one of the last item taken. *)
Lemma first_hit_last (l : list A) (d : A) :
  existsb (is_hit hit) l = true ->
  first_hit hit l = hit (last (take_until (is_hit hit) l) d)
  /\ first_hit hit l <> None.
Proof.
  induction l as [|x l IH]; simpl; [discriminate |].
  unfold is_hit at 1 3. destruct (hit x) eqn:Hx; simpl.
  - intros _. rewrite Hx. split; [reflexivity | discriminate].
  - intros H. destruct (IH H) as [E Hne]. split; [| exact Hne].
    rewrite E. destruct (take_until (is_hit hit) l) eqn:Et; [| reflexivity].
    destruct l; [discriminate |]. simpl in Et.
    destruct (is_hit hit a); discriminate.
Qed.

End FirstHit.

Lemma progress_lines_app (RN : Q -> Q) (every total tried : Z)
    (l1 l2 : list string) :
  progress_lines RN every total tried (l1 ++ l2)
  = progress_lines RN every total tried l1
    ++ progress_lines RN every total (tried + Z.of_nat (List.length l1)) l2.
Proof.
  revert tried. induction l1 as [|x l1 IH]; intros tried.
  - simpl. now rewrite Z.add_0_r.
  - simpl progress_lines. rewrite IH, <- app_assoc. do 3 f_equal.
    simpl List.length. lia.
Qed.

(** Every progress line of the command line is a progress signal of the
    worker for the same items. *)
Lemma progress_lines_in_reports (RN : Q -> Q) (every total tried : Z)
    (texts : list string) (p : Z) (text : string) :
  In (Cli.ProgressLine p text) (progress_lines RN every total tried texts) ->
  In (update_progress p text) (reports RN every total tried texts).
Proof.
  revert tried. induction texts as [|x texts IH]; intros tried; simpl.
  - intros [].
  - rewrite !in_app_iff. intros [H | H]; [left | right; now apply IH].
    unfold progress_line in H. unfold report.
    destruct ((tried + 1) mod every =? 0); simpl in *; [| destruct H].
    destruct H as [H | []]. injection H as <- <-. now left.
Qed.

Lemma no_found_in_progress_lines (RN : Q -> Q) (every total tried : Z)
    (texts : list string) (text hashed : string) :
  ~ In (Cli.FoundLines text hashed)
       (progress_lines RN every total tried texts).
Proof.
  revert tried. induction texts as [|x texts IH]; intros tried; simpl.
  - intros [].
  - rewrite in_app_iff. intros [H | H]; [| now apply IH in H].
    unfold progress_line in H.
    destruct (_ =? _); simpl in H; intuition discriminate.
Qed.

(** A loop of the command line: no flag is read, and an item is reported
    only when its number is a multiple of [every]. *)
Section CliScan.
Context {A : Type}.
Variable RN : Q -> Q.
Variables every total : Z.
Variable display : A -> string.
Variable digests : A -> list string.
Variable hit : A -> option (string * string).
Variable step : A -> Cli.state -> exc Cli.state.
Variable loop : list A -> Cli.state -> exc Cli.state.

Hypothesis step_eq :
  total <> 0 ->
  forall item st,
    step item st
    = Return (Cli.mk (Cli.tried_combinations st + 1)
                (match hit item with
                 | Some _ => true
                 | None => Cli.found st
                 end)
                (Cli.lines_printed st
                 ++ progress_line RN every total
                      (Cli.tried_combinations st + 1) (display item)
                 ++ found_lines (hit item))
                (Cli.digested st ++ digests item)).
Hypothesis loop_nil : forall st, loop [] st = Return st.
Hypothesis loop_cons :
  forall item rest st,
    loop (item :: rest) st
    = (st <- step item st ;;
       if Cli.found st then Return st else loop rest st).

Lemma cli_loop_spec (items : list A) (st : Cli.state) :
  Cli.found st = false ->
  0 <= Cli.tried_combinations st ->
  Cli.tried_combinations st + Z.of_nat (List.length items) <= total ->
  let taken := take_until (is_hit hit) items in
  loop items st
  = Return (Cli.mk
              (Cli.tried_combinations st + Z.of_nat (List.length taken))
              (existsb (is_hit hit) items)
              (Cli.lines_printed st
               ++ progress_lines RN every total (Cli.tried_combinations st)
                    (map display taken)
               ++ found_lines (first_hit hit items))
              (Cli.digested st ++ flat_map digests taken)).
Proof.
  revert st. induction items as [|item rest IH]; intros st Hf H0 Hlen.
  - rewrite loop_nil. destruct st as [t f l d]. simpl in *. subst f.
    rewrite Z.add_0_r, !app_nil_r. reflexivity.
  - assert (Htotal : total <> 0) by (simpl List.length in Hlen; lia).
    rewrite loop_cons, (step_eq Htotal). simpl bind. simpl Cli.found at 1.
    cbn [take_until existsb first_hit].
    assert (Eh : is_hit hit item
                 = match hit item with Some _ => true | None => false end)
      by reflexivity.
    destruct (hit item) as [[text hashed] |] eqn:Hh; rewrite Eh.
    + simpl. rewrite !app_nil_r. reflexivity.
    + rewrite Hf, IH; [| reflexivity | simpl; lia
                       | simpl Cli.tried_combinations;
                         simpl List.length in Hlen; lia].
      cbn [Cli.tried_combinations Cli.found Cli.lines_printed Cli.digested
           List.length map flat_map progress_lines found_lines app].
      rewrite Nat2Z.inj_succ, !app_nil_r, <- !app_assoc.
      do 2 f_equal. lia.
Qed.

End CliScan.

Lemma map_flat_map_join {A B C : Type} (f : B -> C) (g : A -> list B)
    (l : list A) :
  map f (flat_map g l) = flat_map (fun x => map f (g x)) l.
Proof.
  induction l as [|x l IH]; simpl; [reflexivity |].
  now rewrite map_app, IH.
Qed.

Lemma enumerate_attempts (char_set : string) (min_length max_length : nat) :
  enumerate char_set min_length max_length
  = map Str.join (attempts char_set min_length max_length).
Proof.
  unfold enumerate, attempts. symmetry. apply map_flat_map_join.
Qed.

Lemma flat_map_singleton {A B : Type} (f : A -> B) (l : list A) :
  flat_map (fun x => [f x]) l = map f l.
Proof.
  induction l as [|x l IH]; simpl; [reflexivity | now rewrite IH].
Qed.

(** *** [bruteforce_cli] *)

Section CliBrute.
Variable hashlib : Hashlib.
Variable custom_hash_function : option custom_fn.
Variable RN : Q -> Q.
Variable args : Cli.Args.
Variable target_hash : string.
Hypothesis hash_given : Cli.hash args = Some target_hash.
Variable total : Z.
Variable charset : string.

Let hit :=
  charset_hit hashlib custom_hash_function (Cli.type args)
              (Str.lower target_hash).

Lemma cli_try_attempt_eq :
  total <> 0 ->
  forall attempt st,
    Cli.try_attempt hashlib custom_hash_function RN args total attempt st
    = Return (Cli.mk (Cli.tried_combinations st + 1)
                (match hit attempt with
                 | Some _ => true
                 | None => Cli.found st
                 end)
                (Cli.lines_printed st
                 ++ progress_line RN 10000 total
                      (Cli.tried_combinations st + 1) (Str.join attempt)
                 ++ found_lines (hit attempt))
                (Cli.digested st ++ [Str.join attempt])).
Proof.
  intros Htotal attempt st.
  unfold Cli.try_attempt, hit, charset_hit, progress_line, Cli.hash_lower.
  rewrite hash_given. simpl Cli.tried_combinations. rewrite get_hash_digest.
  set (h := digest hashlib custom_hash_function (Str.join attempt)
                   (Cli.type args)).
  destruct ((Cli.tried_combinations st + 1) mod 10000 =? 0).
  - rewrite progress_percent_eq by exact Htotal. simpl.
    destruct (h =? Str.lower target_hash)%string;
      unfold Cli.set_found, Cli.print, Cli.log_digest; simpl;
      rewrite ?app_nil_r, <- ?app_assoc; reflexivity.
  - simpl.
    destruct (h =? Str.lower target_hash)%string;
      unfold Cli.set_found, Cli.print, Cli.log_digest; simpl;
      rewrite ?app_nil_r, <- ?app_assoc; reflexivity.
Qed.

Lemma cli_attempts_loop_spec (items : list (list ascii)) (st : Cli.state) :
  Cli.found st = false ->
  0 <= Cli.tried_combinations st ->
  Cli.tried_combinations st + Z.of_nat (List.length items) <= total ->
  let taken := take_until (is_hit hit) items in
  Cli.attempts_loop hashlib custom_hash_function RN args total items st
  = Return (Cli.mk
              (Cli.tried_combinations st + Z.of_nat (List.length taken))
              (existsb (is_hit hit) items)
              (Cli.lines_printed st
               ++ progress_lines RN 10000 total (Cli.tried_combinations st)
                    (map Str.join taken)
               ++ found_lines (first_hit hit items))
              (Cli.digested st ++ map Str.join taken)).
Proof.
  intros Hf H0 Hlen taken.
  rewrite <- (flat_map_singleton Str.join taken).
  apply (cli_loop_spec RN 10000 total Str.join (fun a => [Str.join a]) hit
           (Cli.try_attempt hashlib custom_hash_function RN args total)
           (Cli.attempts_loop hashlib custom_hash_function RN args total));
    auto.
  exact cli_try_attempt_eq.
Qed.

Lemma cli_lengths_loop_spec (lengths : list nat) (st : Cli.state) :
  let items :=
    flat_map (Itertools.product (list_ascii_of_string charset)) lengths in
  let taken := take_until (is_hit hit) items in
  Cli.found st = false ->
  0 <= Cli.tried_combinations st ->
  Cli.tried_combinations st + Z.of_nat (List.length items) <= total ->
  Cli.lengths_loop hashlib custom_hash_function RN args total charset
    lengths st
  = Return (Cli.mk
              (Cli.tried_combinations st + Z.of_nat (List.length taken))
              (existsb (is_hit hit) items)
              (Cli.lines_printed st
               ++ progress_lines RN 10000 total (Cli.tried_combinations st)
                    (map Str.join taken)
               ++ found_lines (first_hit hit items))
              (Cli.digested st ++ map Str.join taken)).
Proof.
  revert st. induction lengths as [|L rest IH]; intros st items taken Hf H0 Hlen.
  - destruct st as [t f l d]. simpl in *. subst f.
    rewrite Z.add_0_r, !app_nil_r. reflexivity.
  - subst items taken. simpl flat_map in *. rewrite length_app in Hlen.
    set (tier := Itertools.product (list_ascii_of_string charset) L) in *.
    set (later :=
           flat_map (Itertools.product (list_ascii_of_string charset)) rest)
      in *.
    change (Cli.lengths_loop hashlib custom_hash_function RN args total
              charset (L :: rest) st)
      with (st1 <- Cli.attempts_loop hashlib custom_hash_function RN args
                     total tier st ;;
            if Cli.found st1 then Return st1
            else Cli.lengths_loop hashlib custom_hash_function RN args total
                   charset rest st1).
    rewrite cli_attempts_loop_spec by (auto; lia).
    simpl bind. rewrite existsb_app.
    destruct (existsb (is_hit hit) tier) eqn:Etier.
    + rewrite take_until_app_hit, first_hit_app_hit by exact Etier.
      reflexivity.
    + rewrite take_until_app_miss, first_hit_app_miss by exact Etier.
      rewrite (take_until_miss _ _ Etier), (first_hit_miss _ _ Etier).
      rewrite IH; [| reflexivity | simpl; lia | simpl; fold later; lia].
      fold later. simpl. rewrite !app_nil_r, map_app, progress_lines_app.
      rewrite length_app, length_map, <- !app_assoc.
      do 2 f_equal. lia.
Qed.

End CliBrute.

Lemma found_first_hit {A : Type} (hit : A -> option (string * string))
    (items : list A) :
  existsb (is_hit hit) items
  = match first_hit hit items with Some _ => true | None => false end.
Proof.
  induction items as [|item rest IH]; simpl; [reflexivity |].
  unfold is_hit at 1. destruct (hit item); [reflexivity | exact IH].
Qed.

Lemma conclude_eq (tried : Z) (lines : list Cli.printed)
    (hit : option (string * string)) (texts : list string) :
  Cli.conclude
    (Cli.mk tried (match hit with Some _ => true | None => false end)
            (lines ++ found_lines hit) texts)
  = Cli.mk tried (match hit with Some _ => true | None => false end)
           (lines ++ closing_lines hit) texts.
Proof.
  unfold Cli.conclude, Cli.print. destruct hit as [[text hashed] |]; simpl.
  - now rewrite <- app_assoc.
  - now rewrite app_nil_r, <- app_assoc.
Qed.

Lemma cli_total_combinations (charset : string) (min_length max_length : nat) :
  fold_left
    (fun total length =>
       total + Z.of_nat (String.length charset) ^ Z.of_nat length)
    (range min_length (max_length + 1)) 0
  = Z.of_nat (List.length (attempts charset min_length max_length)).
Proof.
  change (fold_left _ _ 0)
    with (BruteForceWorker.total_combinations
            (BruteForceWorker.init "" "" charset min_length max_length)).
  rewrite total_combinations_eq. simpl.
  now rewrite enumerate_attempts, length_map.
Qed.

(** What [bruteforce_cli] returns when the target hash is given. *)
Lemma bruteforce_cli_spec (hashlib : Hashlib)
    (custom_hash_function : option custom_fn) (RN : Q -> Q)
    (args : Cli.Args) (target_hash : string) :
  Cli.hash args = Some target_hash ->
  let items := attempts (Cli.get_charset args) (Cli.min_length args)
                        (Cli.max_length args) in
  let hit := charset_hit hashlib custom_hash_function (Cli.type args)
                         (Str.lower target_hash) in
  let taken := take_until (is_hit hit) items in
  Cli.bruteforce_cli hashlib custom_hash_function RN args
  = Return (Cli.mk (Z.of_nat (List.length taken))
              (existsb (is_hit hit) items)
              (bruteforce_header args
               ++ progress_lines RN 10000 (Z.of_nat (List.length items)) 0
                    (map Str.join taken)
               ++ closing_lines (first_hit hit items))
              (map Str.join taken)).
Proof.
  intros Hh items hit taken. unfold Cli.bruteforce_cli.
  rewrite cli_total_combinations. fold items.
  rewrite (cli_lengths_loop_spec hashlib custom_hash_function RN args
             target_hash Hh);
    [| reflexivity | simpl; lia | simpl; unfold items, attempts; lia].
  simpl bind. fold (attempts (Cli.get_charset args) (Cli.min_length args)
                             (Cli.max_length args)).
  fold items. fold hit. fold taken.
  cbn [Cli.tried_combinations Cli.found Cli.lines_printed Cli.digested app].
  rewrite found_first_hit.
  rewrite app_assoc, <- conclude_eq. reflexivity.
Qed.

Lemma is_hit_charset (hashlib : Hashlib)
    (custom_hash_function : option custom_fn) (hash_type target : string)
    (attempt : list ascii) :
  is_hit (charset_hit hashlib custom_hash_function hash_type target) attempt
  = (digest hashlib custom_hash_function (Str.join attempt) hash_type
     =? target)%string.
Proof.
  unfold is_hit, charset_hit. now destruct (_ =? _)%string.
Qed.

Lemma charset_hit_inv (hashlib : Hashlib)
    (custom_hash_function : option custom_fn) (hash_type target : string)
    (attempt : list ascii) :
  charset_hit hashlib custom_hash_function hash_type target attempt <> None ->
  charset_hit hashlib custom_hash_function hash_type target attempt
  = Some (Str.join attempt, target).
Proof.
  unfold charset_hit.
  destruct (String.eqb_spec
              (digest hashlib custom_hash_function (Str.join attempt)
                      hash_type) target) as [E | E]; [| congruence].
  intros _. now rewrite E.
Qed.

Lemma last_map_join (l : list (list ascii)) :
  last (map Str.join l) ""%string = Str.join (last l []).
Proof.
  induction l as [|x l IH]; [reflexivity |].
  destruct l; [reflexivity | exact IH].
Qed.

(** The candidates taken by the command line are those taken by the
    worker. *)
Lemma charset_taken (hashlib : Hashlib)
    (custom_hash_function : option custom_fn) (hash_type target : string)
    (char_set : string) (min_length max_length : nat) :
  let matches text :=
    (digest hashlib custom_hash_function text hash_type =? target)%string in
  let hit := charset_hit hashlib custom_hash_function hash_type target in
  let items := attempts char_set min_length max_length in
  take_until matches (enumerate char_set min_length max_length)
  = map Str.join (take_until (is_hit hit) items)
  /\ existsb matches (enumerate char_set min_length max_length)
     = existsb (is_hit hit) items.
Proof.
  intros matches hit items. rewrite enumerate_attempts. fold items.
  destruct (take_until_map matches Str.join items) as [E1 E2].
  destruct (take_until_ext (is_hit hit) (fun a => matches (Str.join a)) items)
    as [E3 E4]; [intros a; apply is_hit_charset |].
  rewrite E1, E2, E3, E4. auto.
Qed.

(** The lines of a search of the command line against the signals of the
    worker for the same items. *)
Lemma cli_lines_agree (RN : Q -> Q) (every total : Z) (texts : list string)
    (header : list Cli.printed) (found : bool) (text hashed : string) :
  (forall t h, ~ In (Cli.FoundLines t h) header) ->
  (forall p t, ~ In (Cli.ProgressLine p t) header) ->
  let lines :=
    header ++ progress_lines RN every total 0 texts
    ++ closing_lines (if found then Some (text, hashed) else None) in
  let events :=
    reports RN every total 0 texts
    ++ (if found
        then [found_match text hashed; update_progress 100 text;
              finished_task]
        else [update_progress 100 ""%string; finished_task]) in
  (forall t h, In (Cli.FoundLines t h) lines <-> In (found_match t h) events)
  /\ (forall p t, In (Cli.ProgressLine p t) lines ->
                  In (update_progress p t) events).
Proof.
  intros Hheader1 Hheader2 lines events. subst lines events. split.
  - intros t h. rewrite !in_app_iff. split.
    + intros [H | [H | H]].
      * now apply Hheader1 in H.
      * now apply no_found_in_progress_lines in H.
      * right. destruct found; simpl in *; [| intuition discriminate].
        destruct H as [H | [H | []]]; [| discriminate].
        injection H as <- <-. now left.
    + intros [H | H]; [now apply no_found_in_reports in H |].
      right. right. destruct found; simpl in *; [| intuition discriminate].
      destruct H as [H | [H | [H | []]]]; try discriminate.
      injection H as <- <-. now left.
  - intros p t. rewrite !in_app_iff. intros [H | [H | H]].
    + now apply Hheader2 in H.
    + left. now apply progress_lines_in_reports.
    + destruct found; simpl in H; intuition discriminate.
Qed.

(** X7. Given a target hash, [bruteforce_cli] returns, and it searches as
    the worker of the window does for the same character set, lengths,
    algorithm and target when [stop()] is never called: the same
    candidates are digested in the same order, the same number of them is
    counted, a match is found by the one exactly when it is found by the
    other, the match printed is the match signalled, and every progress
    line printed is a progress signal of the worker. *)
Theorem bruteforce_cli_agrees_with_worker (hashlib : Hashlib)
    (custom_hash_function : option custom_fn) (RN : Q -> Q)
    (args : Cli.Args) (target_hash : string) :
  Cli.hash args = Some target_hash ->
  let self :=
    BruteForceWorker.init (Cli.type args) target_hash (Cli.get_charset args)
                          (Cli.min_length args) (Cli.max_length args) in
  exists worker cli,
    BruteForceWorker.run hashlib custom_hash_function RN self None
    = Return worker
    /\ Cli.bruteforce_cli hashlib custom_hash_function RN args = Return cli
    /\ Cli.digested cli = digested worker
    /\ Cli.tried_combinations cli = tried_combinations worker
    /\ Cli.found cli = found worker
    /\ (forall text hashed,
          In (Cli.FoundLines text hashed) (Cli.lines_printed cli)
          <-> In (found_match text hashed) (emitted worker))
    /\ (forall progress text,
          In (Cli.ProgressLine progress text) (Cli.lines_printed cli)
          -> In (update_progress progress text) (emitted worker)).
Proof.
  intros Hh self.
  destruct (charset_run_first_match hashlib custom_hash_function RN self)
    as (st & Hrun & Hd & Ht & Hf & He).
  destruct (charset_taken hashlib custom_hash_function (Cli.type args)
              (Str.lower target_hash) (Cli.get_charset args)
              (Cli.min_length args) (Cli.max_length args)) as [E1 E2].
  cbv zeta in E1, E2.
  change (BruteForceWorker.char_set self) with (Cli.get_charset args)
    in Hd, Hf, He.
  change (BruteForceWorker.min_length self) with (Cli.min_length args)
    in Hd, Hf, He.
  change (BruteForceWorker.max_length self) with (Cli.max_length args)
    in Hd, Hf, He.
  change (BruteForceWorker.hash_type self) with (Cli.type args) in Hd, Hf, He.
  change (BruteForceWorker.target_hash self) with (Str.lower target_hash)
    in Hd, Hf, He.
  rewrite E1 in Hd. rewrite E2 in Hf.
  rewrite (total_combinations_eq self) in He.
  change (BruteForceWorker.char_set self) with (Cli.get_charset args) in He.
  change (BruteForceWorker.min_length self) with (Cli.min_length args) in He.
  change (BruteForceWorker.max_length self) with (Cli.max_length args) in He.
  rewrite enumerate_attempts, length_map in He.
  exists st. eexists. split; [exact Hrun |].
  split; [exact (bruteforce_cli_spec hashlib custom_hash_function RN args
                   target_hash Hh) |].
  cbn [Cli.tried_combinations Cli.found Cli.lines_printed Cli.digested].
  set (items := attempts (Cli.get_charset args) (Cli.min_length args)
                         (Cli.max_length args)) in *.
  set (hit := charset_hit hashlib custom_hash_function (Cli.type args)
                          (Str.lower target_hash)) in *.
  split; [now rewrite Hd |].
  split; [now rewrite Ht, Hd, length_map |].
  split; [now rewrite Hf |].
  assert (Efirst : first_hit hit items
                   = if found st
                     then Some (last (digested st) ""%string,
                                Str.lower target_hash)
                     else None).
  { rewrite Hf. destruct (existsb (is_hit hit) items) eqn:Ex.
    - destruct (first_hit_last hit items [] Ex) as [E Hne].
      rewrite E in Hne. rewrite E. unfold hit in *.
      rewrite (charset_hit_inv _ _ _ _ _ Hne), Hd, last_map_join.
      reflexivity.
    - now apply first_hit_miss. }
  rewrite Efirst, He, Hd.
  apply cli_lines_agree; unfold bruteforce_header; simpl;
    intuition discriminate.
Qed.

Lemma bruteforce_cli_agrees_with_worker_witness :
  exists worker cli,
    BruteForceWorker.run symbolic_hashlib None (fun q => q)
      (BruteForceWorker.init "MD5" "MD5:BA" "ab" 1 2) None
    = Return worker
    /\ Cli.bruteforce_cli symbolic_hashlib None (fun q => q)
         (ab_args "MD5:BA" Cli.Brute)
       = Return cli
    /\ Cli.digested cli = digested worker
    /\ Cli.found cli = found worker.
Proof.
  destruct (bruteforce_cli_agrees_with_worker symbolic_hashlib None
              (fun q => q) (ab_args "MD5:BA" Cli.Brute) "MD5:BA" eq_refl)
    as (worker & cli & Hw & Hc & Hd & _ & Hf & _).
  exists worker, cli. auto.
Defined.

(** *** [dictionary_cli] and [rainbow_cli] *)

Lemma taken_firstn {A : Type} (hit : A -> option (string * string))
    (items : list A) (k : nat) (d : A) (found : bool) :
  Forall (fun item => hit item = None)
         (if found then removelast (firstn k items) else firstn k items) ->
  (found = true ->
   firstn k items <> [] /\ hit (last (firstn k items) d) <> None) ->
  (found = false -> k = List.length items) ->
  take_until (is_hit hit) items = firstn k items
  /\ existsb (is_hit hit) items = found
  /\ first_hit hit items
     = if found then hit (last (firstn k items) d) else None.
Proof.
  intros Hmiss Hy Hn.
  assert (Hmiss' : Forall (fun item => is_hit hit item = false)
                     (if found then removelast (firstn k items)
                      else firstn k items)).
  { eapply Forall_impl; [| exact Hmiss].
    intros item E. unfold is_hit. now rewrite E. }
  destruct found.
  - destruct (Hy eq_refl) as [Hne Hhit].
    assert (Hlast : is_hit hit (last (firstn k items) d) = true).
    { unfold is_hit. destruct (hit (last (firstn k items) d));
        [reflexivity | congruence]. }
    destruct (take_until_firstn (is_hit hit) items k d Hne Hmiss' Hlast)
      as [E1 E2].
    destruct (first_hit_last hit items d E2) as [E3 _].
    rewrite E3, E1. auto.
  - rewrite (Hn eq_refl), firstn_all in Hmiss'.
    destruct (take_until_no_match (is_hit hit) items Hmiss') as [E1 E2].
    rewrite (Hn eq_refl), firstn_all, E1, E2, (first_hit_miss _ _ E2). auto.
Qed.

Section FileAgreement.
Variable RN : Q -> Q.
Variable total : Z.
Variable display : string -> string.
Variable digests : string -> list string.
Variable hit : string -> option (string * string).
Variable items : list string.
Variable header : list Cli.printed.
Hypothesis header_found : forall t h, ~ In (Cli.FoundLines t h) header.
Hypothesis header_progress : forall p t, ~ In (Cli.ProgressLine p t) header.

Lemma file_search_agrees (st : run_state) (k : nat) :
  (k <= List.length items)%nat ->
  tried_combinations st = Z.of_nat k ->
  digested st = flat_map digests (firstn k items) ->
  Forall (fun item => hit item = None)
         (if found st then removelast (firstn k items) else firstn k items) ->
  match terminal_state None st with
  | Matched =>
      firstn k items <> []
      /\ hit (last (firstn k items) ""%string) <> None
      /\ emitted st
         = reports RN 1000 total 0 (map display (firstn k items))
           ++ hit_tail (hit (last (firstn k items) ""%string))
           ++ [finished_task]
  | Exhausted =>
      k = List.length items
      /\ emitted st
         = reports RN 1000 total 0 (map display items)
           ++ [update_progress 100 ""%string; finished_task]
  | Cancelled =>
      emitted st
      = reports RN 1000 total 0 (map display (firstn k items))
        ++ [finished_task]
  end ->
  let taken := take_until (is_hit hit) items in
  let lines :=
    header
    ++ progress_lines RN 1000 total 0 (map display taken)
    ++ closing_lines (first_hit hit items) in
  flat_map digests taken = digested st
  /\ Z.of_nat (List.length taken) = tried_combinations st
  /\ existsb (is_hit hit) items = found st
  /\ (forall text hashed,
        In (Cli.FoundLines text hashed) lines
        <-> In (found_match text hashed) (emitted st))
  /\ (forall progress text,
        In (Cli.ProgressLine progress text) lines
        -> In (update_progress progress text) (emitted st)).
Proof.
  intros Hk Ht Hd Hmiss Hterm taken lines. subst taken lines.
  unfold terminal_state in Hterm. simpl observed_stop in Hterm.
  destruct (taken_firstn hit items k ""%string (found st) Hmiss)
    as (E1 & E2 & E3).
  { intros Hf. rewrite Hf in Hterm. tauto. }
  { intros Hf. rewrite Hf in Hterm. tauto. }
  rewrite E1, E2, E3, Hd, Ht, length_firstn.
  split; [reflexivity |]. split; [f_equal; lia |]. split; [reflexivity |].
  destruct (found st) eqn:Hf.
  - destruct Hterm as (Hne & Hhit & He).
    destruct (hit (last (firstn k items) ""%string)) as [[t0 h0] |];
      [| congruence].
    rewrite He. simpl hit_tail. simpl app at 2.
    exact (cli_lines_agree RN 1000 total (map display (firstn k items))
             header true t0 h0 header_found header_progress).
  - destruct Hterm as (Ek & He). rewrite He, Ek, firstn_all.
    exact (cli_lines_agree RN 1000 total (map display items)
             header false ""%string ""%string header_found header_progress).
Qed.

End FileAgreement.

Lemma cli_count_lines_length (lines : list string) :
  Cli.count_lines lines = Z.of_nat (List.length lines).
Proof.
  exact (count_lines_length lines).
Qed.

Lemma cli_try_word_eq (hashlib : Hashlib)
    (custom_hash_function : option custom_fn) (RN : Q -> Q)
    (args : Cli.Args) (target_hash path : string) (total_lines : Z) :
  Cli.hash args = Some target_hash ->
  let hit :=
    dictionary_hit hashlib custom_hash_function
      (DictionaryBruteForceWorker.init (Cli.type args) target_hash path) in
  total_lines <> 0 ->
  forall line st,
    Cli.try_word hashlib custom_hash_function RN args total_lines line st
    = Return (Cli.mk (Cli.tried_combinations st + 1)
                (match hit line with
                 | Some _ => true
                 | None => Cli.found st
                 end)
                (Cli.lines_printed st
                 ++ progress_line RN 1000 total_lines
                      (Cli.tried_combinations st + 1) (Str.strip line)
                 ++ found_lines (hit line))
                (Cli.digested st ++ dictionary_digests line)).
Proof.
  intros Hh hit Htotal line st.
  unfold Cli.try_word, hit, dictionary_hit, dictionary_digests,
    progress_line, Cli.hash_lower.
  rewrite Hh. simpl Cli.tried_combinations. rewrite get_hash_digest.
  change (DictionaryBruteForceWorker.hash_type
            (DictionaryBruteForceWorker.init (Cli.type args) target_hash path))
    with (Cli.type args).
  change (DictionaryBruteForceWorker.target_hash
            (DictionaryBruteForceWorker.init (Cli.type args) target_hash path))
    with (Str.lower target_hash).
  set (h := digest hashlib custom_hash_function (Str.strip line)
                   (Cli.type args)).
  destruct ((Cli.tried_combinations st + 1) mod 1000 =? 0).
  - rewrite progress_percent_eq by exact Htotal. simpl bind.
    destruct (Str.is_empty (Str.strip line)).
    + unfold Cli.print. simpl. now rewrite !app_nil_r.
    + simpl bind.
      destruct (h =? Str.lower target_hash)%string;
        unfold Cli.set_found, Cli.print, Cli.log_digest; simpl;
        rewrite ?app_nil_r, <- ?app_assoc; reflexivity.
  - simpl bind.
    destruct (Str.is_empty (Str.strip line)).
    + destruct st; simpl. now rewrite !app_nil_r.
    + simpl bind.
      destruct (h =? Str.lower target_hash)%string;
        unfold Cli.set_found, Cli.print, Cli.log_digest; simpl;
        rewrite ?app_nil_r, <- ?app_assoc; reflexivity.
Qed.

(** What [dictionary_cli] returns when the target hash is given and the
    word list opens. *)
Lemma dictionary_cli_spec (hashlib : Hashlib)
    (custom_hash_function : option custom_fn) (RN : Q -> Q)
    (open_lines : string -> exc (list string)) (args : Cli.Args)
    (target_hash path : string) (lines : list string) :
  Cli.hash args = Some target_hash ->
  Cli.dict args = Some path ->
  open_lines path = Return lines ->
  let hit :=
    dictionary_hit hashlib custom_hash_function
      (DictionaryBruteForceWorker.init (Cli.type args) target_hash path) in
  let taken := take_until (is_hit hit) lines in
  Cli.dictionary_cli hashlib custom_hash_function RN open_lines args
  = Return (Cli.mk (Z.of_nat (List.length taken))
              (existsb (is_hit hit) lines)
              (dictionary_header args
               ++ progress_lines RN 1000 (Z.of_nat (List.length lines)) 0
                    (map Str.strip taken)
               ++ closing_lines (first_hit hit lines))
              (flat_map dictionary_digests taken)).
Proof.
  intros Hh Hdict Hopen hit taken.
  unfold Cli.dictionary_cli, Cli.open_path. rewrite Hdict, Hopen. simpl bind.
  rewrite cli_count_lines_length.
  rewrite (cli_loop_spec RN 1000 (Z.of_nat (List.length lines)) Str.strip
             dictionary_digests hit
             (Cli.try_word hashlib custom_hash_function RN args
                (Z.of_nat (List.length lines)))
             (Cli.words_loop hashlib custom_hash_function RN args
                (Z.of_nat (List.length lines))));
    [| intros Htotal; now apply cli_try_word_eq
     | reflexivity | reflexivity | reflexivity | simpl; lia | simpl; lia].
  simpl bind. fold taken.
  cbn [Cli.tried_combinations Cli.found Cli.lines_printed Cli.digested app].
  rewrite found_first_hit. unfold dictionary_header. rewrite Hdict.
  rewrite app_assoc, <- conclude_eq. reflexivity.
Qed.

(** X8. Given a target hash and a word list that opens, [dictionary_cli]
    returns, and it searches as the dictionary worker of the window does
    for the same file, algorithm and target when [stop()] is never called:
    the same texts are digested in the same order, the same number of
    lines is counted, a match is found by the one exactly when it is found
    by the other, the match printed is the match signalled, and every
    progress line printed is a progress signal of the worker. *)
Theorem dictionary_cli_agrees_with_worker (hashlib : Hashlib)
    (custom_hash_function : option custom_fn) (RN : Q -> Q)
    (open_lines : string -> exc (list string)) (args : Cli.Args)
    (target_hash path : string) (lines : list string) :
  Cli.hash args = Some target_hash ->
  Cli.dict args = Some path ->
  open_lines path = Return lines ->
  let self :=
    DictionaryBruteForceWorker.init (Cli.type args) target_hash path in
  exists worker cli,
    DictionaryBruteForceWorker.run hashlib custom_hash_function RN open_lines
      self None = Return worker
    /\ Cli.dictionary_cli hashlib custom_hash_function RN open_lines args
       = Return cli
    /\ Cli.digested cli = digested worker
    /\ Cli.tried_combinations cli = tried_combinations worker
    /\ Cli.found cli = found worker
    /\ (forall text hashed,
          In (Cli.FoundLines text hashed) (Cli.lines_printed cli)
          <-> In (found_match text hashed) (emitted worker))
    /\ (forall progress text,
          In (Cli.ProgressLine progress text) (Cli.lines_printed cli)
          -> In (update_progress progress text) (emitted worker)).
Proof.
  intros Hh Hdict Hopen self.
  destruct (dictionary_run_spec hashlib custom_hash_function RN open_lines
              self None lines Hopen)
    as (st & k & Hrun & Hk & Ht & Hd & Hmiss & Hterm).
  exists st. eexists. split; [exact Hrun |].
  split; [exact (dictionary_cli_spec hashlib custom_hash_function RN
                   open_lines args target_hash path lines Hh Hdict Hopen) |].
  cbn [Cli.tried_combinations Cli.found Cli.lines_printed Cli.digested].
  apply (file_search_agrees RN (Z.of_nat (List.length lines)) Str.strip
           dictionary_digests
           (dictionary_hit hashlib custom_hash_function self) lines
           (dictionary_header args)) with (k := k); auto;
    unfold dictionary_header; simpl; intuition discriminate.
Qed.

Lemma dictionary_cli_agrees_with_worker_witness :
  exists worker cli,
    DictionaryBruteForceWorker.run symbolic_hashlib None (fun q => q)
      (file_of [("password" ++ LF)%string; LF; ("123456" ++ LF)%string])
      (DictionaryBruteForceWorker.init "MD5" "MD5:123456" "words.txt") None
    = Return worker
    /\ Cli.dictionary_cli symbolic_hashlib None (fun q => q)
         (file_of [("password" ++ LF)%string; LF; ("123456" ++ LF)%string])
         (ab_args "MD5:123456" Cli.Dict)
       = Return cli
    /\ Cli.digested cli = digested worker
    /\ Cli.found cli = found worker.
Proof.
  destruct (dictionary_cli_agrees_with_worker symbolic_hashlib None
              (fun q => q)
              (file_of [("password" ++ LF)%string; LF; ("123456" ++ LF)%string])
              (ab_args "MD5:123456" Cli.Dict) "MD5:123456" "words.txt" _
              eq_refl eq_refl eq_refl)
    as (worker & cli & Hw & Hc & Hd & _ & Hf & _).
  exists worker, cli. auto.
Defined.

Lemma cli_try_entry_eq (RN : Q -> Q) (args : Cli.Args)
    (target_hash path : string) (total_lines : Z) :
  Cli.hash args = Some target_hash ->
  let hit := rainbow_hit (RainbowTableWorker.init target_hash path) in
  total_lines <> 0 ->
  forall line st,
    Cli.try_entry RN args total_lines line st
    = Return (Cli.mk (Cli.tried_combinations st + 1)
                (match hit line with
                 | Some _ => true
                 | None => Cli.found st
                 end)
                (Cli.lines_printed st
                 ++ progress_line RN 1000 total_lines
                      (Cli.tried_combinations st + 1) (Str.strip line)
                 ++ found_lines (hit line))
                (Cli.digested st ++ [])).
Proof.
  intros Hh hit Htotal line st.
  assert (Eprogress :
            (if (Cli.tried_combinations st + 1) mod 1000 =? 0
             then progress <- progress_percent RN
                                (Cli.tried_combinations st + 1) total_lines ;;
                  Return (Cli.print
                            (Cli.ProgressLine progress (Str.strip line))
                            (Cli.count st))
             else Return (Cli.count st))
            = Return (Cli.mk (Cli.tried_combinations st + 1) (Cli.found st)
                        (Cli.lines_printed st
                         ++ progress_line RN 1000 total_lines
                              (Cli.tried_combinations st + 1) (Str.strip line))
                        (Cli.digested st))).
  { unfold progress_line.
    destruct ((Cli.tried_combinations st + 1) mod 1000 =? 0).
    - rewrite progress_percent_eq by exact Htotal. reflexivity.
    - unfold Cli.count. now rewrite app_nil_r. }
  unfold Cli.try_entry. simpl Cli.tried_combinations.
  rewrite Eprogress. clear Eprogress.
  cbv beta iota delta [bind].
  unfold hit, rainbow_hit, rainbow_entry, Cli.hash_lower.
  rewrite Hh, contains_colon, !app_nil_r.
  change (RainbowTableWorker.target_hash
            (RainbowTableWorker.init target_hash path))
    with (Str.lower target_hash).
  destruct (Str.mem ":" (Str.strip line)) eqn:Hmem.
  - destruct (mem_split1 _ _ Hmem) as (d & p & Hline & Hd).
    rewrite Hline, (split1_first _ _ _ Hd).
    replace (Str.is_empty (d ++ String ":" p)) with false
      by (destruct d; reflexivity).
    cbn [negb].
    destruct (Str.lower d =? Str.lower target_hash)%string;
      unfold Cli.set_found, Cli.print;
      cbn [Cli.tried_combinations Cli.found Cli.lines_printed Cli.digested
           found_lines];
      rewrite ?app_nil_r, <- ?app_assoc; reflexivity.
  - cbn [negb].
    destruct (Str.is_empty (Str.strip line));
      cbn [found_lines]; rewrite ?app_nil_r; reflexivity.
Qed.

(** What [rainbow_cli] returns when the target hash is given and the table
    opens. *)
Lemma rainbow_cli_spec (RN : Q -> Q)
    (open_lines : string -> exc (list string)) (args : Cli.Args)
    (target_hash path : string) (lines : list string) :
  Cli.hash args = Some target_hash ->
  Cli.rainbow args = Some path ->
  open_lines path = Return lines ->
  let hit := rainbow_hit (RainbowTableWorker.init target_hash path) in
  let taken := take_until (is_hit hit) lines in
  Cli.rainbow_cli RN open_lines args
  = Return (Cli.mk (Z.of_nat (List.length taken))
              (existsb (is_hit hit) lines)
              (rainbow_header args
               ++ progress_lines RN 1000 (Z.of_nat (List.length lines)) 0
                    (map Str.strip taken)
               ++ closing_lines (first_hit hit lines))
              (flat_map (fun _ => []) taken)).
Proof.
  intros Hh Hrainbow Hopen hit taken.
  unfold Cli.rainbow_cli, Cli.open_path. rewrite Hrainbow, Hopen. simpl bind.
  rewrite cli_count_lines_length.
  rewrite (cli_loop_spec RN 1000 (Z.of_nat (List.length lines)) Str.strip
             (fun _ => []) hit
             (Cli.try_entry RN args (Z.of_nat (List.length lines)))
             (Cli.entries_loop RN args (Z.of_nat (List.length lines))));
    [| intros Htotal; now apply cli_try_entry_eq
     | reflexivity | reflexivity | reflexivity | simpl; lia | simpl; lia].
  simpl bind. fold taken.
  cbn [Cli.tried_combinations Cli.found Cli.lines_printed Cli.digested app].
  rewrite found_first_hit. unfold rainbow_header. rewrite Hrainbow.
  rewrite app_assoc, <- conclude_eq. reflexivity.
Qed.

(** X9. Given a target hash and a table that opens, [rainbow_cli] returns,
    and it looks the target up as the rainbow worker of the window does
    for the same file and target when [stop()] is never called: no text is
    digested by either, the same number of lines is counted, an entry is
    found by the one exactly when it is found by the other, the entry
    printed is the entry signalled, and every progress line printed is a
    progress signal of the worker. *)
Theorem rainbow_cli_agrees_with_worker (RN : Q -> Q)
    (open_lines : string -> exc (list string)) (args : Cli.Args)
    (target_hash path : string) (lines : list string) :
  Cli.hash args = Some target_hash ->
  Cli.rainbow args = Some path ->
  open_lines path = Return lines ->
  let self := RainbowTableWorker.init target_hash path in
  exists worker cli,
    RainbowTableWorker.run RN open_lines self None = Return worker
    /\ Cli.rainbow_cli RN open_lines args = Return cli
    /\ Cli.digested cli = [] /\ digested worker = []
    /\ Cli.tried_combinations cli = tried_combinations worker
    /\ Cli.found cli = found worker
    /\ (forall text hashed,
          In (Cli.FoundLines text hashed) (Cli.lines_printed cli)
          <-> In (found_match text hashed) (emitted worker))
    /\ (forall progress text,
          In (Cli.ProgressLine progress text) (Cli.lines_printed cli)
          -> In (update_progress progress text) (emitted worker)).
Proof.
  intros Hh Hrainbow Hopen self.
  destruct (rainbow_run_spec RN open_lines self None lines Hopen)
    as (st & k & Hrun & Hk & Ht & Hd & Hmiss & Hterm).
  exists st. eexists. split; [exact Hrun |].
  split; [exact (rainbow_cli_spec RN open_lines args target_hash path lines
                   Hh Hrainbow Hopen) |].
  cbn [Cli.tried_combinations Cli.found Cli.lines_printed Cli.digested].
  assert (Hnil : forall l : list string,
             flat_map (fun _ : string => @nil string) l = [])
    by (induction l; auto).
  split; [apply Hnil |]. split; [rewrite Hd; apply Hnil |].
  apply (file_search_agrees RN (Z.of_nat (List.length lines)) Str.strip
           (fun _ => []) (rainbow_hit self) lines (rainbow_header args))
    with (k := k); auto;
    unfold rainbow_header; simpl; intuition discriminate.
Qed.

Lemma rainbow_cli_agrees_with_worker_witness :
  exists worker cli,
    RainbowTableWorker.run (fun q => q) (file_of password_table)
      (RainbowTableWorker.init "5F4DCC3B5AA765D61D8327DEB882CF99" "table.txt")
      None
    = Return worker
    /\ Cli.rainbow_cli (fun q => q) (file_of password_table)
         (ab_args "5F4DCC3B5AA765D61D8327DEB882CF99" Cli.Rainbow)
       = Return cli
    /\ Cli.found cli = found worker.
Proof.
  destruct (rainbow_cli_agrees_with_worker (fun q => q)
              (file_of password_table)
              (ab_args "5F4DCC3B5AA765D61D8327DEB882CF99" Cli.Rainbow)
              "5F4DCC3B5AA765D61D8327DEB882CF99" "table.txt" _
              eq_refl eq_refl eq_refl)
    as (worker & cli & Hw & Hc & _ & _ & _ & Hf & _).
  exists worker, cli. auto.
Defined.

(** *** The command line checks nothing about the character set *)

Lemma cli_lengths_loop_no_attempts (hashlib : Hashlib)
    (custom_hash_function : option custom_fn) (RN : Q -> Q)
    (args : Cli.Args) (total : Z) (charset : string) (lengths : list nat)
    (st : Cli.state) :
  (forall L, In L lengths ->
             Itertools.product (list_ascii_of_string charset) L = []) ->
  Cli.found st = false ->
  Cli.lengths_loop hashlib custom_hash_function RN args total charset
    lengths st = Return st.
Proof.
  intros Hempty Hf. induction lengths as [|L rest IH]; [reflexivity |].
  simpl. rewrite (Hempty L) by now left. simpl. rewrite Hf.
  apply IH. intros L' HL'. apply Hempty. now right.
Qed.

(** X10. [bruteforce_cli] checks neither the character set nor the
    lengths: with an empty character set and a minimum length of at least
    one, or with a minimum length above the maximum length, it returns
    after digesting nothing, having printed its header, that no match was
    found and that the run is completed (the window refuses to start such
    a job). *)
Theorem bruteforce_cli_searches_nothing_on_invalid_charset (hashlib : Hashlib)
    (custom_hash_function : option custom_fn) (RN : Q -> Q)
    (args : Cli.Args) :
  (Cli.get_charset args = ""%string /\ (1 <= Cli.min_length args)%nat)
  \/ (Cli.max_length args < Cli.min_length args)%nat ->
  Cli.bruteforce_cli hashlib custom_hash_function RN args
  = Return (Cli.mk 0 false
              (bruteforce_header args
               ++ [Cli.NotFoundLine; Cli.FinishedLine])
              []).
Proof.
  intros Hinvalid. unfold Cli.bruteforce_cli.
  rewrite cli_lengths_loop_no_attempts; [reflexivity | | reflexivity].
  intros L HL. unfold range in HL. apply in_seq in HL.
  destruct Hinvalid as [[Hempty Hmin] | Hrange]; [| lia].
  rewrite Hempty. apply length_zero_iff_nil.
  rewrite length_product. destruct L; [lia | reflexivity].
Qed.

Lemma bruteforce_cli_searches_nothing_on_invalid_charset_witness :
  Cli.bruteforce_cli symbolic_hashlib None (fun q => q)
    {| Cli.type := "MD5";
       Cli.hash := Some "5f4dcc3b5aa765d61d8327deb882cf99"%string;
       Cli.mode := Cli.Brute;
       Cli.charset := None;
       Cli.charset_preset := "";
       Cli.min_length := 1%nat;
       Cli.max_length := 4%nat;
       Cli.dict := None;
       Cli.rainbow := None;
       Cli.custom_hash := None |}
  = Return (Cli.mk 0 false
              [Cli.StartLine (Some "5f4dcc3b5aa765d61d8327deb882cf99"%string);
               Cli.TypeLine "MD5"; Cli.CharsetLine "";
               Cli.LengthLine 1 4; Cli.RunningLine;
               Cli.NotFoundLine; Cli.FinishedLine]
              []).
Proof.
  apply (bruteforce_cli_searches_nothing_on_invalid_charset symbolic_hashlib
           None (fun q => q)).
  left. split; [reflexivity | simpl; lia].
Defined.

(** *** [main] *)

Section MainFacts.
Variable hashlib : Hashlib.
Variable RN : Q -> Q.
Variable open_lines : string -> exc (list string).
Variable isfile : string -> bool.
Variable read_file : string -> exc string.
Variable exec_module : string -> exc custom_fn.

Lemma dispatch_incomplete (announced : list Cli.printed)
    (custom_hash_function : option custom_fn) (args : Cli.Args) :
  Cli.mode args <> Cli.Gui ->
  incomplete args ->
  Cli.dispatch hashlib RN open_lines announced custom_hash_function args
  = Return {| Cli.announced := announced ++ [first_missing args];
              Cli.bound := custom_hash_function;
              Cli.ended := Cli.SystemExit 1 |}.
Proof.
  intros Hmode Hinc. unfold Cli.dispatch, first_missing.
  destruct (Cli.missing (Cli.hash args)) eqn:Hhash.
  - destruct (Cli.mode args); [| | | congruence]; reflexivity.
  - destruct Hinc as [H | [[Hm H] | [Hm H]]]; [congruence | |];
      rewrite Hm, H; reflexivity.
Qed.

End MainFacts.

(** X11. When [main] loads no custom hash function (the option is absent
    or empty, or names no existing file), it starts no search on an
    incomplete command line in a command-line mode: when the target hash
    is missing or empty, or the mode is dict or rainbow and its file
    argument is missing or empty, [main] announces the first thing that is
    missing and ends with exit code 1, the custom function unbound. *)
Theorem main_refuses_incomplete_command_line (hashlib : Hashlib)
    (RN : Q -> Q) (open_lines : string -> exc (list string))
    (isfile : string -> bool) (read_file : string -> exc string)
    (exec_module : string -> exc custom_fn) (args : Cli.Args) :
  no_custom_file isfile args ->
  Cli.mode args <> Cli.Gui ->
  incomplete args ->
  Cli.main hashlib RN open_lines isfile read_file exec_module args
  = Return {| Cli.announced := [first_missing args];
              Cli.bound := None;
              Cli.ended := Cli.SystemExit 1 |}.
Proof.
  intros Hnone Hmode Hinc. unfold Cli.main, no_custom_file in *.
  destruct (Cli.custom_hash args) as [path |];
    [| now apply (dispatch_incomplete hashlib RN open_lines [])].
  destruct Hnone as [-> | ->]; cbn [negb andb];
    rewrite ?andb_false_r;
    now apply (dispatch_incomplete hashlib RN open_lines []).
Qed.

Lemma main_refuses_incomplete_command_line_witness :
  Cli.main symbolic_hashlib (fun q => q) (file_of password_table)
    (fun _ => false) holds_A exec_AB
    {| Cli.type := "MD5";
       Cli.hash := Some "aa"%string;
       Cli.mode := Cli.Dict;
       Cli.charset := None;
       Cli.charset_preset := "a0";
       Cli.min_length := 1%nat;
       Cli.max_length := 4%nat;
       Cli.dict := None;
       Cli.rainbow := None;
       Cli.custom_hash := Some "hash.py"%string |}
  = Return {| Cli.announced := [Cli.MissingDictLine];
              Cli.bound := None;
              Cli.ended := Cli.SystemExit 1 |}.
Proof.
  apply (main_refuses_incomplete_command_line symbolic_hashlib (fun q => q)
           (file_of password_table) (fun _ => false) holds_A exec_AB).
  - right. reflexivity.
  - discriminate.
  - right. left. split; reflexivity.
Defined.

Lemma dispatch_bound (hashlib : Hashlib) (RN : Q -> Q)
    (open_lines : string -> exc (list string)) (announced : list Cli.printed)
    (custom_hash_function : option custom_fn) (args : Cli.Args)
    (o : Cli.outcome) :
  Cli.dispatch hashlib RN open_lines announced custom_hash_function args
  = Return o ->
  Cli.bound o = custom_hash_function
  /\ incl announced (Cli.announced o).
Proof.
  unfold Cli.dispatch. intros H.
  assert (Hself : incl announced announced) by apply incl_refl.
  assert (Happ : forall line, incl announced (announced ++ [line]))
    by (intros line; apply incl_appl, incl_refl).
  destruct (Cli.mode args).
  - destruct (Cli.missing (Cli.hash args));
      [injection H as <-; simpl; auto |].
    destruct (Cli.bruteforce_cli _ _ _ _); simpl in H; [| discriminate].
    injection H as <-. simpl. auto.
  - destruct (Cli.missing (Cli.hash args));
      [injection H as <-; simpl; auto |].
    destruct (Cli.missing (Cli.dict args));
      [injection H as <-; simpl; auto |].
    destruct (Cli.dictionary_cli _ _ _ _ _); simpl in H; [| discriminate].
    injection H as <-. simpl. auto.
  - destruct (Cli.missing (Cli.hash args));
      [injection H as <-; simpl; auto |].
    destruct (Cli.missing (Cli.rainbow args));
      [injection H as <-; simpl; auto |].
    destruct (Cli.rainbow_cli _ _ _); simpl in H; [| discriminate].
    injection H as <-. simpl. auto.
  - injection H as <-. simpl. auto.
Qed.

Lemma load_success_binds (exec_module : string -> exc custom_fn)
    (code shown : string) (before loaded : option custom_fn) :
  load_custom_hash_function exec_module code before
  = (Return (true, shown), loaded) ->
  exists f, exec_module code = Return f /\ loaded = Some f.
Proof.
  unfold load_custom_hash_function.
  destruct (exec_module code) as [f | e]; simpl; [| discriminate].
  destruct (f "test"%string) as [r | e]; simpl; [| discriminate].
  destruct (str r); intros H; [| discriminate].
  injection H as _ <-. now exists f.
Qed.

(** X12. When the file named by the custom hash option exists and loads,
    the hash type given on the command line has no effect on what [main]
    does: every hash type gives the same outcome, the search being run
    with the type CUSTOM; the outcome, if [main] returns one, has the
    loaded function bound and the loading announced. *)
Theorem main_custom_hash_overrides_type (hashlib : Hashlib)
    (RN : Q -> Q) (open_lines : string -> exc (list string))
    (isfile : string -> bool) (read_file : string -> exc string)
    (exec_module : string -> exc custom_fn) (args : Cli.Args)
    (path code shown : string) (loaded : option custom_fn) :
  Cli.custom_hash args = Some path ->
  Str.is_empty path = false ->
  isfile path = true ->
  read_file path = Return code ->
  load_custom_hash_function exec_module code None
  = (Return (true, shown), loaded) ->
  let main := Cli.main hashlib RN open_lines isfile read_file exec_module in
  (forall hash_type, main (Cli.with_type hash_type args) = main args)
  /\ main args
     = Cli.dispatch hashlib RN open_lines [Cli.CustomLoadedLine shown] loaded
         (Cli.with_type "CUSTOM" args)
  /\ (forall o,
        main args = Return o ->
        Cli.bound o = loaded
        /\ (exists f, exec_module code = Return f /\ loaded = Some f)
        /\ In (Cli.CustomLoadedLine shown) (Cli.announced o)).
Proof.
  intros Hcustom Hpath Hfile Hread Hload main.
  assert (Emain : forall hash_type,
             main (Cli.with_type hash_type args)
             = Cli.dispatch hashlib RN open_lines [Cli.CustomLoadedLine shown]
                 loaded (Cli.with_type "CUSTOM" args)).
  { intros hash_type. unfold main, Cli.main.
    cbn [Cli.with_type Cli.custom_hash].
    rewrite Hcustom, Hpath, Hfile. cbn [negb andb].
    rewrite Hread, Hload. reflexivity. }
  assert (Eargs : main args
                  = Cli.dispatch hashlib RN open_lines
                      [Cli.CustomLoadedLine shown] loaded
                      (Cli.with_type "CUSTOM" args)).
  { unfold main, Cli.main. rewrite Hcustom, Hpath, Hfile. cbn [negb andb].
    rewrite Hread, Hload. reflexivity. }
  split; [intros hash_type; now rewrite Emain, Eargs |].
  split; [exact Eargs |].
  intros o Ho. rewrite Eargs in Ho. apply dispatch_bound in Ho as [Hb Hi].
  split; [exact Hb |].
  split; [exact (load_success_binds exec_module code shown None loaded Hload) |].
  apply Hi. now left.
Qed.

Lemma main_custom_hash_overrides_type_witness :
  Cli.main symbolic_hashlib (fun q => q) (file_of password_table)
    (fun _ => true) holds_A exec_AB (Cli.with_type "SHA256" (custom_args "MD5"))
  = Cli.main symbolic_hashlib (fun q => q) (file_of password_table)
      (fun _ => true) holds_A exec_AB (custom_args "MD5").
Proof.
  apply (main_custom_hash_overrides_type symbolic_hashlib (fun q => q)
           (file_of password_table) (fun _ => true) holds_A exec_AB
           (custom_args "MD5") "hash.py" "A" "aa" (Some custom_A)
           eq_refl eq_refl eq_refl eq_refl eq_refl).
Defined.

(** *** A job started from the window *)

Lemma NoDup_firstn {A : Type} (k : nat) (l : list A) :
  NoDup l -> NoDup (firstn k l).
Proof.
  intros H. rewrite <- (firstn_skipn k l) in H.
  now apply NoDup_app_remove_r in H.
Qed.

(** X13. A charset job that the window starts digests no candidate twice,
    however it ends: the character set that [get_charset] builds holds no
    character twice, so the run returns, the texts it has digested are
    pairwise distinct, and each of them is made of characters of that set
    and has a length between the two lengths of the form. *)
Theorem window_charset_job_digests_no_candidate_twice (hashlib : Hashlib)
    (custom_hash_function : option custom_fn) (RN : Q -> Q)
    (isfile : string -> bool) (form : HashBruteForcer.t)
    (worker : BruteForceWorker.t) (stop_after : option nat) :
  HashBruteForcer.start_bruteforce isfile form
  = HashBruteForcer.Started (HashBruteForcer.Brute worker) ->
  exists st,
    BruteForceWorker.run hashlib custom_hash_function RN worker stop_after
    = Return st
    /\ NoDup (digested st)
    /\ Forall (fun text =>
                 over (HashBruteForcer.get_charset form) text
                 /\ (HashBruteForcer.min_length form <= String.length text
                     <= HashBruteForcer.max_length form)%nat)
              (digested st).
Proof.
  intros Hstart.
  assert (Hworker :
            BruteForceWorker.char_set worker = HashBruteForcer.get_charset form
            /\ BruteForceWorker.min_length worker
               = HashBruteForcer.min_length form
            /\ BruteForceWorker.max_length worker
               = HashBruteForcer.max_length form).
  { unfold HashBruteForcer.start_bruteforce in Hstart.
    destruct (Str.is_empty (Str.strip (HashBruteForcer.target_hash form)));
      [discriminate |].
    destruct (HashBruteForcer.current_tab form =? 0).
    - destruct (Str.is_empty (HashBruteForcer.get_charset form));
        [discriminate |].
      destruct (HashBruteForcer.max_length form
                <? HashBruteForcer.min_length form)%nat; [discriminate |].
      injection Hstart as <-. auto.
    - destruct (HashBruteForcer.current_tab form =? 1).
      + destruct (_ || _); discriminate.
      + destruct (HashBruteForcer.current_tab form =? 2).
        * destruct (_ || _); discriminate.
        * destruct (HashBruteForcer.current_tab form =? 3); discriminate. }
  destruct Hworker as (Hc & Hmin & Hmax).
  destruct (run_characterised hashlib custom_hash_function RN worker stop_after)
    as (st & k & Hrun & _ & Hd & _).
  rewrite Hc, Hmin, Hmax in Hd.
  exists st. split; [exact Hrun |]. rewrite Hd. split.
  - apply NoDup_firstn, NoDup_enumerate, get_charset_NoDup.
  - apply Forall_forall. intros text Hin. apply in_firstn in Hin.
    now apply in_enumerate in Hin.
Qed.

Lemma window_charset_job_digests_no_candidate_twice_witness :
  exists st,
    BruteForceWorker.run symbolic_hashlib None (fun q => q)
      (BruteForceWorker.init "MD5" "md5:ba" "ab" 1 2) (Some 3%nat)
    = Return st
    /\ NoDup (digested st).
Proof.
  destruct (window_charset_job_digests_no_candidate_twice symbolic_hashlib
              None (fun q => q) (fun _ => true)
              {| HashBruteForcer.target_hash := "md5:ba";
                 HashBruteForcer.hash_type := "MD5";
                 HashBruteForcer.current_tab := 0;
                 HashBruteForcer.use_lowercase := false;
                 HashBruteForcer.use_uppercase := false;
                 HashBruteForcer.use_digits := false;
                 HashBruteForcer.use_special := false;
                 HashBruteForcer.custom_charset := "abab";
                 HashBruteForcer.min_length := 1%nat;
                 HashBruteForcer.max_length := 2%nat;
                 HashBruteForcer.dict_path := "";
                 HashBruteForcer.rainbow_path := "" |}
              (BruteForceWorker.init "MD5" "md5:ba" "ab" 1 2) (Some 3%nat)
              eq_refl)
    as (st & Hrun & Hnd & _).
  exists st. auto.
Defined.

(** * The charset search and its configuration *)

Lemma digest_unresolved (hashlib : Hashlib)
    (custom_hash_function : option custom_fn) (text hash_type : string) :
  resolves hashlib custom_hash_function (Str.lower hash_type) = false ->
  digest hashlib custom_hash_function text hash_type = md5 hashlib text.
Proof.
  intros H. unfold digest. now rewrite get_hash_unresolved.
Qed.

Lemma flat_map_all_nil {A B : Type} (f : A -> list B) (l : list A) :
  (forall x, In x l -> f x = []) -> flat_map f l = [].
Proof.
  induction l as [|x l IH]; intros H; simpl; [reflexivity |].
  rewrite (H x) by now left. apply IH. intros y Hy. apply H. now right.
Qed.

(** An empty charset with lengths from 1, or an inverted range, leaves
    nothing to enumerate. *)
Lemma enumerate_invalid_nil (char_set : string) (min_length max_length : nat) :
  (char_set = ""%string /\ (1 <= min_length)%nat)
  \/ (max_length < min_length)%nat ->
  enumerate char_set min_length max_length = [].
Proof.
  intros H. unfold enumerate. apply flat_map_all_nil.
  intros L HL. unfold range in HL. apply in_seq in HL.
  destruct H as [[-> Hmin] | Hlt]; [| lia].
  replace (Itertools.product (list_ascii_of_string "") L)
    with (@nil (list ascii)); [reflexivity |].
  symmetry. apply length_zero_iff_nil. rewrite length_product.
  destruct L; [lia | reflexivity].
Qed.





(** [binary64] against the floats of the kernel, on the two operations of
    [int((290000 / 1000000) * 100)]. *)
Lemma binary64_agrees_with_floats :
  let quotient := binary64 (inject_Z 290000 / inject_Z 1000000) in
  Prim2SF (290000 / 1000000)%float
  = S754_finite false 5224175567749775 (-54)
  /\ quotient = 5224175567749775 # (2 ^ 54)%positive
  /\ Prim2SF (290000 / 1000000 * 100)%float
     = S754_finite false 8162774324609023 (-48)
  /\ binary64 (quotient * 100) = 8162774324609023 # (2 ^ 48)%positive.
Proof.
  vm_compute. repeat split.
Qed.




(** C1. For a charset of distinct characters and [1 <= min_length <=
    max_length], a run of [BruteForceWorker] on which [stop()] is never
    called hands to [get_hash], in this order, the candidates of the
    enumeration up to and including the first one that has the target
    digest, and all of them when none has it: then the texts it has
    digested are exactly the enumeration.  The enumeration has as many
    candidates as the total that the run computes first, the sum over the
    lengths [L] of [len(char_set) ** L]; a string is a candidate if and only
    if it is made of charset characters and its length lies in the range;
    no candidate occurs twice; the order is by ascending length and, within
    one length, the odometer order with the first position most
    significant.  For "ab" and lengths 1..2 a run that finds no match
    digests a, b, aa, ab, ba, bb in that order. *)
Theorem charset_enumeration (hashlib : Hashlib)
    (custom_hash_function : option custom_fn) (RN : Q -> Q)
    (hash_type target_hash char_set : string) (min_length max_length : nat) :
  NoDup (list_ascii_of_string char_set) ->
  (1 <= min_length <= max_length)%nat ->
  let pool := list_ascii_of_string char_set in
  let candidates := enumerate char_set min_length max_length in
  let self := BruteForceWorker.init hash_type target_hash char_set
                                    min_length max_length in
  let matches text :=
    (digest hashlib custom_hash_function text hash_type
     =? Str.lower target_hash)%string in
  (exists st,
      BruteForceWorker.run hashlib custom_hash_function RN self None
      = Return st
      /\ digested st = take_until matches candidates
      /\ found st = existsb matches candidates
      /\ tried_combinations st = Z.of_nat (List.length (digested st))
      /\ (existsb matches candidates = false -> digested st = candidates))
  /\ BruteForceWorker.total_combinations self
     = Z.of_nat (List.length candidates)
  /\ List.length candidates
     = list_sum (map (fun L => String.length char_set ^ L)%nat
                     (seq min_length (max_length + 1 - min_length)))
  /\ (forall s, In s candidates
                <-> over char_set s
                    /\ (min_length <= String.length s <= max_length)%nat)
  /\ NoDup candidates
  /\ candidates
     = flat_map
         (fun L => map (fun k => Str.join (odometer pool Ascii.zero L k))
                       (seq 0 (String.length char_set ^ L)))
         (seq min_length (max_length + 1 - min_length))
  /\ (exists st,
         BruteForceWorker.run symbolic_hashlib None RN
           (BruteForceWorker.init "MD5" "" "ab" 1 2) None
         = Return st
         /\ digested st = ["a"; "b"; "aa"; "ab"; "ba"; "bb"]%string).
Proof.
  intros Hcs _ pool candidates self matches.
  split; [| split; [| split; [| split; [| split; [| split]]]]].
  - destruct (charset_run_first_match hashlib custom_hash_function RN self)
      as (st & Hrun & Hd & Ht & Hf & _).
    exists st. split; [exact Hrun |]. split; [exact Hd |].
    split; [exact Hf |]. split; [exact Ht |].
    intros Hnone. rewrite Hd. now apply take_until_miss.
  - apply (total_combinations_eq self).
  - apply length_enumerate.
  - intros s. apply in_enumerate.
  - now apply NoDup_enumerate.
  - unfold candidates, enumerate, range. apply flat_map_ext. intros L.
    rewrite (product_odometer _ Ascii.zero), map_map.
    now rewrite length_list_ascii_of_string.
  - destruct (charset_run_first_match symbolic_hashlib None RN
                (BruteForceWorker.init "MD5" "" "ab" 1 2))
      as (st & Hrun & Hd & _).
    exists st. split; [exact Hrun |]. rewrite Hd. reflexivity.
Qed.

Lemma charset_enumeration_witness :
  NoDup (list_ascii_of_string "01")
  /\ (1 <= 1 <= 3)%nat
  /\ exists st,
       BruteForceWorker.run symbolic_hashlib None (fun q => q)
         (BruteForceWorker.init "MD5" "" "01" 1 3) None
       = Return st
       /\ digested st
          = ["0"; "1"; "00"; "01"; "10"; "11"; "000"; "001"; "010"; "011";
             "100"; "101"; "110"; "111"]%string
       /\ tried_combinations st = 14.
Proof.
  assert (Hcs : NoDup (list_ascii_of_string "01")).
  { repeat constructor; simpl; intuition discriminate. }
  assert (Hr : (1 <= 1 <= 3)%nat) by lia.
  destruct (charset_enumeration symbolic_hashlib None (fun q => q)
              "MD5" "" "01" 1 3 Hcs Hr)
    as [(st & Hrun & Hd & _ & Ht & _) _].
  split; [exact Hcs |]. split; [exact Hr |].
  exists st. split; [exact Hrun |].
  split; [exact Hd | rewrite Ht, Hd; reflexivity].
Defined.

(** C3, amended. For an id that resolves to nothing, [get_hash] returns
    the MD5 digest of the text; [start_bruteforce] does not look at the
    id: a charset job or a dictionary job whose other settings are
    accepted is started with the id as it was given; and a charset search
    with such an id decides by the MD5 digests of its candidates. *)
Theorem unknown_algorithm_falls_back_to_md5 (hashlib : Hashlib)
    (custom_hash_function : option custom_fn) (hash_type : string) :
  resolves hashlib custom_hash_function (Str.lower hash_type) = false ->
  (forall text,
      get_hash hashlib custom_hash_function text hash_type
      = Return (md5 hashlib text))
  /\ (forall isfile gui,
         HashBruteForcer.hash_type gui = hash_type ->
         HashBruteForcer.current_tab gui = 0 ->
         Str.is_empty (Str.strip (HashBruteForcer.target_hash gui)) = false ->
         Str.is_empty (HashBruteForcer.get_charset gui) = false ->
         (HashBruteForcer.min_length gui
          <= HashBruteForcer.max_length gui)%nat ->
         HashBruteForcer.start_bruteforce isfile gui
         = HashBruteForcer.Started
             (HashBruteForcer.Brute
                (BruteForceWorker.init
                   hash_type
                   (Str.strip (HashBruteForcer.target_hash gui))
                   (HashBruteForcer.get_charset gui)
                   (HashBruteForcer.min_length gui)
                   (HashBruteForcer.max_length gui))))
  /\ (forall isfile gui,
         HashBruteForcer.hash_type gui = hash_type ->
         HashBruteForcer.current_tab gui = 1 ->
         Str.is_empty (Str.strip (HashBruteForcer.target_hash gui)) = false ->
         Str.is_empty (HashBruteForcer.dict_path gui) = false ->
         isfile (HashBruteForcer.dict_path gui) = true ->
         HashBruteForcer.start_bruteforce isfile gui
         = HashBruteForcer.Started
             (HashBruteForcer.Dictionary
                (DictionaryBruteForceWorker.init
                   hash_type
                   (Str.strip (HashBruteForcer.target_hash gui))
                   (HashBruteForcer.dict_path gui))))
  /\ (forall RN self,
         BruteForceWorker.hash_type self = hash_type ->
         let candidates := enumerate (BruteForceWorker.char_set self)
                                     (BruteForceWorker.min_length self)
                                     (BruteForceWorker.max_length self) in
         let matches text :=
           (md5 hashlib text =? BruteForceWorker.target_hash self)%string in
         exists st,
           BruteForceWorker.run hashlib custom_hash_function RN self None
           = Return st
           /\ digested st = take_until matches candidates
           /\ found st = existsb matches candidates).
Proof.
  intros H. split; [| split; [| split]].
  - intros text. now apply get_hash_unresolved.
  - intros isfile gui Ht Htab Htarget Hcs Hrange.
    unfold HashBruteForcer.start_bruteforce.
    rewrite Htarget, Htab, Hcs, Ht. simpl.
    destruct (Nat.ltb_spec (HashBruteForcer.max_length gui)
                           (HashBruteForcer.min_length gui)); [lia |].
    reflexivity.
  - intros isfile gui Ht Htab Htarget Hpath Hfile.
    unfold HashBruteForcer.start_bruteforce.
    rewrite Htarget, Htab, Hpath, Hfile, Ht. reflexivity.
  - intros RN self Hself candidates matches.
    destruct (charset_run_first_match hashlib custom_hash_function RN self)
      as (st & Hrun & Hd & _ & Hf & _).
    cbv zeta in Hd, Hf. fold candidates in Hd, Hf.
    destruct (take_until_ext
                (fun text =>
                   (digest hashlib custom_hash_function text
                           (BruteForceWorker.hash_type self)
                    =? BruteForceWorker.target_hash self)%string)
                matches candidates) as [E1 E2].
    { intros text. unfold matches. rewrite Hself.
      now rewrite digest_unresolved. }
    exists st. split; [exact Hrun |]. now rewrite Hd, Hf, E1, E2.
Qed.

Lemma unknown_algorithm_falls_back_to_md5_witness :
  get_hash symbolic_hashlib None "a" "whirlpool2" = Return "md5:a"%string.
Proof.
  exact (proj1 (unknown_algorithm_falls_back_to_md5
                  symbolic_hashlib None "whirlpool2" eq_refl)
               "a"%string).
Defined.

(** C4 as stated fails: a [BruteForceWorker] created with an empty charset
    is not refused; its run goes through the four lengths, finds nothing
    to enumerate and ends as an exhausted search does, with the forced
    100% and [finished_task]. *)
Lemma empty_charset_worker_not_refused :
  BruteForceWorker.run symbolic_hashlib None (fun q => q)
    (BruteForceWorker.init "MD5" "5f4dcc3b5aa765d61d8327deb882cf99" "" 1 4)
    None
  = Return (mk_state 0 false 5
              [update_progress 100 ""; finished_task] []).
Proof.
  reflexivity.
Qed.

(** C4, amended. On the charset tab, [start_bruteforce] refuses an empty
    charset (before the length range is even read) and refuses
    [min_length > max_length]; in both cases it returns before a worker is
    created: with a target digest entered, the refusal is [EmptyCharset]
    for the empty charset and [InvalidRange] for the inverted range of a
    non-empty one.  So every charset worker that the window starts has
    the charset of the form, not empty, and its two lengths, in order.
    [BruteForceWorker] itself checks nothing: run with an empty charset
    and lengths from 1, or with an inverted range, it returns, having
    enumerated no candidate, and unless it is stopped it ends as an
    exhausted search, with the forced 100% and [finished_task]. *)
Theorem invalid_charset_job_refused (isfile : string -> bool)
    (gui : HashBruteForcer.t) (hashlib : Hashlib)
    (custom_hash_function : option custom_fn) (RN : Q -> Q)
    (self : BruteForceWorker.t) (stop_after : option nat) :
  let charset := HashBruteForcer.get_charset gui in
  let min_length := HashBruteForcer.min_length gui in
  let max_length := HashBruteForcer.max_length gui in
  let entered :=
    negb (Str.is_empty (Str.strip (HashBruteForcer.target_hash gui))) in
  (HashBruteForcer.current_tab gui = 0 ->
   (charset = ""%string \/ (min_length > max_length)%nat ->
    exists why,
      HashBruteForcer.start_bruteforce isfile gui
      = HashBruteForcer.Refused why)
   /\ (entered = true -> charset = ""%string ->
       HashBruteForcer.start_bruteforce isfile gui
       = HashBruteForcer.Refused HashBruteForcer.EmptyCharset)
   /\ (entered = true -> charset <> ""%string ->
       (min_length > max_length)%nat ->
       HashBruteForcer.start_bruteforce isfile gui
       = HashBruteForcer.Refused HashBruteForcer.InvalidRange))
  /\ (forall worker,
         HashBruteForcer.start_bruteforce isfile gui
         = HashBruteForcer.Started (HashBruteForcer.Brute worker) ->
         BruteForceWorker.char_set worker = charset
         /\ charset <> ""%string
         /\ BruteForceWorker.min_length worker = min_length
         /\ BruteForceWorker.max_length worker = max_length
         /\ (min_length <= max_length)%nat)
  /\ ((BruteForceWorker.char_set self = ""%string
       /\ (1 <= BruteForceWorker.min_length self)%nat)
      \/ (BruteForceWorker.max_length self
          < BruteForceWorker.min_length self)%nat ->
      exists st,
        BruteForceWorker.run hashlib custom_hash_function RN self stop_after
        = Return st
        /\ tried_combinations st = 0
        /\ digested st = []
        /\ found st = false
        /\ (stop_after = None ->
            emitted st = [update_progress 100 ""%string; finished_task])).
Proof.
  intros charset min_length max_length entered.
  split; [| split].
  - intros Htab. unfold HashBruteForcer.start_bruteforce. rewrite Htab. simpl.
    fold charset min_length max_length. subst entered.
    destruct (Str.is_empty (Str.strip (HashBruteForcer.target_hash gui))).
    + split; [eauto | split; discriminate].
    + destruct (Str.is_empty charset) eqn:Ecs.
      * apply is_empty_true in Ecs.
        split; [eauto | split; [reflexivity | congruence]].
      * assert (Hne : charset <> ""%string).
        { intros E. apply is_empty_true in E. congruence. }
        destruct (Nat.ltb_spec max_length min_length) as [Hlt | Hle].
        -- split; [eauto | split; [congruence | reflexivity]].
        -- split; [intros [E | Hgt]; [congruence | lia] |].
           split; [congruence | intros _ _ Hgt; lia].
  - intros worker Hstart.
    unfold HashBruteForcer.start_bruteforce in Hstart.
    fold charset min_length max_length in Hstart.
    destruct (Str.is_empty (Str.strip (HashBruteForcer.target_hash gui)));
      [discriminate |].
    destruct (HashBruteForcer.current_tab gui =? 0).
    + destruct (Str.is_empty charset) eqn:Ecs; [discriminate |].
      destruct (Nat.ltb_spec max_length min_length) as [Hlt | Hle];
        [discriminate |].
      injection Hstart as <-. simpl.
      repeat split; auto.
      intros E. apply is_empty_true in E. congruence.
    + destruct (HashBruteForcer.current_tab gui =? 1).
      * destruct (_ || _); discriminate.
      * destruct (HashBruteForcer.current_tab gui =? 2).
        -- destruct (_ || _); discriminate.
        -- destruct (HashBruteForcer.current_tab gui =? 3); discriminate.
  - intros Hinvalid.
    destruct (run_characterised hashlib custom_hash_function RN self
                stop_after)
      as (st & k & Hrun & Hk & Hd & Ht & _ & Hterm).
    rewrite (enumerate_invalid_nil _ _ _ Hinvalid) in Hk, Hd, Hterm.
    simpl in Hk. assert (k = 0%nat) by lia. subst k.
    simpl in Hd, Ht.
    exists st. split; [exact Hrun |]. split; [exact Ht |].
    split; [exact Hd |].
    unfold terminal_state in Hterm.
    destruct (found st); [simpl in Hterm; lia |].
    split; [reflexivity |]. intros ->. simpl in Hterm.
    now destruct Hterm as [_ ->].
Qed.

Lemma invalid_charset_job_refused_witness :
  HashBruteForcer.start_bruteforce (fun _ => true) inverted_range_form
  = HashBruteForcer.Refused HashBruteForcer.InvalidRange
  /\ exists st,
       BruteForceWorker.run symbolic_hashlib None (fun q => q)
         (BruteForceWorker.init "MD5" "5f4dcc3b5aa765d61d8327deb882cf99"
                                "abc" 5 4) (Some 1%nat)
       = Return st
       /\ digested st = [].
Proof.
  destruct (invalid_charset_job_refused (fun _ => true) inverted_range_form
              symbolic_hashlib None (fun q => q)
              (BruteForceWorker.init "MD5" "5f4dcc3b5aa765d61d8327deb882cf99"
                                     "abc" 5 4) (Some 1%nat))
    as (Hwindow & _ & Hworker).
  split.
  - apply (proj2 (proj2 (Hwindow eq_refl))); [reflexivity | discriminate |].
    simpl. lia.
  - destruct Hworker as (st & Hrun & _ & Hd & _); [right; simpl; lia |].
    exists st. split; [exact Hrun | exact Hd].
Defined.
